(** * ConfigSpace: hyperparameter encodings and the configuration record

    A shallow embedding of [ConfigSpace/hyperparameters.py] and
    [ConfigSpace/configuration.py].

    Floating point numbers are idealised as extended real numbers with a
    not-a-number element: arithmetic is exact, there is no overflow and no
    signed zero.  Integers are Python's, without bound, except where
    numpy casts to a 64-bit integer.  An entry of a vector is a numpy
    scalar, whose division by zero gives an infinity or NaN; a value is a
    Python number, whose division by zero raises.  Arguments are scalars,
    not arrays.  Python
    exceptions are results of an error monad, mutable objects are threaded
    as explicit state, unbounded [while] loops carry fuel, and the random
    source is an oracle indexed by the number of draws made so far.

    Part I holds the definitions, Part II the properties. *)

From Stdlib Require Import Reals Lra Lia ZArith List String Ascii Bool.
From stdpp Require Import base option list strings pretty.

Local Open Scope string_scope.
Local Open Scope list_scope.

(** ** Python exceptions and the error monad *)

Module Py.

Inductive exn : Type :=
| ValueError | TypeError | ZeroDivisionError | OverflowError
| IndexError | KeyError | IllegalValueError.

Inductive result (A : Type) : Type :=
| Ok (a : A)
| Raise (e : exn).
Arguments Ok {A} a.
Arguments Raise {A} e.

Definition bind {A B} (m : result A) (k : A -> result B) : result B :=
  match m with
  | Ok a => k a
  | Raise e => Raise e
  end.

(** Outcome of a computation that contains an unbounded loop: it returns,
    raises, or is still running when the fuel is spent. *)
Inductive outcome (A : Type) : Type :=
| Done (a : A)
| Fail (e : exn)
| OutOfFuel.
Arguments Done {A} a.
Arguments Fail {A} e.
Arguments OutOfFuel {A}.

Definition lift {A} (m : result A) : outcome A :=
  match m with
  | Ok a => Done a
  | Raise e => Fail e
  end.

Definition obind {A B} (m : outcome A) (k : A -> outcome B) : outcome B :=
  match m with
  | Done a => k a
  | Fail e => Fail e
  | OutOfFuel => OutOfFuel
  end.

End Py.
Export Py.

#[global] Instance result_ret : MRet result := @Ok.
#[global] Instance result_bind : MBind result := fun A B k m => Py.bind m k.
#[global] Instance outcome_ret : MRet outcome := @Done.
#[global] Instance outcome_bind : MBind outcome := fun A B k m => Py.obind m k.

(** ** float64 in real arithmetic *)

Module NumPy.

Local Open Scope R_scope.

Inductive npfloat : Type :=
| NaN
| NegInf
| PosInf
| Fin (r : R).

Definition Rltb (a b : R) : bool := if Rlt_dec a b then true else false.
Definition Rleb (a b : R) : bool := if Rle_dec a b then true else false.
Definition Reqb (a b : R) : bool := if Req_dec_T a b then true else false.

(** Comparisons: every comparison with NaN is false. *)
Definition fltb (x y : npfloat) : bool :=
  match x, y with
  | NaN, _ | _, NaN => false
  | NegInf, NegInf => false
  | NegInf, _ => true
  | _, NegInf => false
  | PosInf, _ => false
  | Fin _, PosInf => true
  | Fin a, Fin b => Rltb a b
  end.

Definition feqb (x y : npfloat) : bool :=
  match x, y with
  | NegInf, NegInf | PosInf, PosInf => true
  | Fin a, Fin b => Reqb a b
  | _, _ => false
  end.

Definition fleb (x y : npfloat) : bool := fltb x y || feqb x y.

Definition np_isnan (x : npfloat) : bool :=
  match x with NaN => true | _ => false end.

Definition np_isfinite (x : npfloat) : bool :=
  match x with Fin _ => true | _ => false end.

Definition fneg (x : npfloat) : npfloat :=
  match x with
  | NaN => NaN
  | NegInf => PosInf
  | PosInf => NegInf
  | Fin r => Fin (- r)
  end.

Definition fabs (x : npfloat) : npfloat :=
  match x with
  | NaN => NaN
  | NegInf | PosInf => PosInf
  | Fin r => Fin (Rabs r)
  end.

Definition fadd (x y : npfloat) : npfloat :=
  match x, y with
  | NaN, _ | _, NaN => NaN
  | PosInf, NegInf | NegInf, PosInf => NaN
  | PosInf, _ | _, PosInf => PosInf
  | NegInf, _ | _, NegInf => NegInf
  | Fin a, Fin b => Fin (a + b)
  end.

Definition fsub (x y : npfloat) : npfloat := fadd x (fneg y).

(** An infinity of the sign of [r]; NaN when [r] is zero. *)
Definition signed_inf (positive : bool) (r : R) : npfloat :=
  if Rlt_dec 0 r then (if positive then PosInf else NegInf)
  else if Rlt_dec r 0 then (if positive then NegInf else PosInf)
  else NaN.

Definition fmul (x y : npfloat) : npfloat :=
  match x, y with
  | NaN, _ | _, NaN => NaN
  | Fin a, Fin b => Fin (a * b)
  | PosInf, Fin b => signed_inf true b
  | NegInf, Fin b => signed_inf false b
  | Fin a, PosInf => signed_inf true a
  | Fin a, NegInf => signed_inf false a
  | PosInf, PosInf | NegInf, NegInf => PosInf
  | PosInf, NegInf | NegInf, PosInf => NegInf
  end.

(** Division of numpy scalars: a zero divisor gives an infinity or NaN. *)
Definition fdiv (x y : npfloat) : npfloat :=
  match x, y with
  | NaN, _ | _, NaN => NaN
  | Fin a, Fin b => if Req_dec_T b 0 then signed_inf true a else Fin (a / b)
  | Fin _, _ => Fin 0
  | PosInf, Fin b => if Req_dec_T b 0 then PosInf else signed_inf true b
  | NegInf, Fin b => if Req_dec_T b 0 then NegInf else signed_inf false b
  | _, _ => NaN
  end.

(** Division of Python floats: a zero divisor raises. *)
Definition py_div (x y : npfloat) : result npfloat :=
  if feqb y (Fin 0) then Raise ZeroDivisionError else Ok (fdiv x y).

Definition np_log (x : npfloat) : npfloat :=
  match x with
  | NaN | NegInf => NaN
  | PosInf => PosInf
  | Fin r => if Rlt_dec 0 r then Fin (ln r)
             else if Req_dec_T r 0 then NegInf else NaN
  end.

Definition np_exp (x : npfloat) : npfloat :=
  match x with
  | NaN => NaN
  | NegInf => Fin 0
  | PosInf => PosInf
  | Fin r => Fin (exp r)
  end.

(** Rounding to the nearest integer, ties to the even one. *)
Definition round_half_even (r : R) : Z :=
  let f := Int_part r in
  let d := r - IZR f in
  if Rlt_dec d (1 / 2) then f
  else if Rlt_dec (1 / 2) d then (f + 1)%Z
  else if Z.even f then f else (f + 1)%Z.

(** Truncation towards zero, Python's [int] on a finite float. *)
Definition trunc (r : R) : Z :=
  if Rle_dec 0 r then Int_part r else (- Int_part (- r))%Z.

(** [np.round(x, decimals)] *)
Definition np_round (x : npfloat) (decimals : nat) : npfloat :=
  match x with
  | Fin r => Fin (IZR (round_half_even (r * 10 ^ decimals)) / 10 ^ decimals)
  | _ => x
  end.

(** [int(x)] on a float *)
Definition py_int (x : npfloat) : result Z :=
  match x with
  | Fin r => Ok (trunc r)
  | NaN => Raise ValueError
  | _ => Raise OverflowError
  end.

(** The integers of 64 bits. *)
Definition int64_min : Z := (- 9223372036854775808)%Z.
Definition int64_max : Z := 9223372036854775807%Z.

Definition in_int64 (z : Z) : bool :=
  ((int64_min <=? z) && (z <=? int64_max))%Z.

(** [x.astype(int)] on a numpy scalar: the cast to a 64-bit integer.  No
    exception; a finite value is truncated, and a value that is not finite,
    or whose truncation does not fit in 64 bits, is cast to the smallest
    64-bit integer (what the conversion gives on x86-64). *)
Definition astype_int (x : npfloat) : Z :=
  match x with
  | Fin r => if in_int64 (trunc r) then trunc r else int64_min
  | _ => int64_min
  end.

(** Arithmetic on [np.int64] wraps around. *)
Definition wrap_int64 (z : Z) : Z :=
  ((z - int64_min) mod 18446744073709551616 + int64_min)%Z.

(** [np.min(1, x)]: the second positional parameter of [np.min] is [axis],
    so the scalar [1] is to be reduced along the axis [x]; numpy refuses an
    axis that is a float, for every [x]. *)
Definition np_min_1 (x : npfloat) : result npfloat := Raise TypeError.

(** [np.max((0, x))]: the maximum of a pair, NaN propagating. *)
Definition np_max_0 (x : npfloat) : npfloat :=
  match x with
  | NaN => NaN
  | _ => if fltb x (Fin 0) then Fin 0 else x
  end.

(** [np.mod(x, 1)] *)
Definition np_mod_1 (x : npfloat) : npfloat :=
  match x with
  | Fin r => Fin (r - IZR (Int_part r))
  | _ => NaN
  end.

End NumPy.
Export NumPy.

(** ** Python values *)

Module PyVal.

Local Open Scope R_scope.

Inductive pyval : Type :=
| PyNone
| PyBool (b : bool)
| PyInt (z : Z)
| PyFloat (x : npfloat)
| PyStr (s : string).

(** The number a value stands for in arithmetic and comparisons
    ([bool] is a subclass of [int]). *)
Definition py_num (v : pyval) : option npfloat :=
  match v with
  | PyBool b => Some (Fin (if b then 1 else 0))
  | PyInt z => Some (Fin (IZR z))
  | PyFloat x => Some x
  | _ => None
  end.

(** [v == w] *)
Definition py_eqb (v w : pyval) : bool :=
  match py_num v, py_num w with
  | Some x, Some y => feqb x y
  | None, None =>
      match v, w with
      | PyNone, PyNone => true
      | PyStr a, PyStr b => String.eqb a b
      | _, _ => false
      end
  | _, _ => false
  end.

(** Truth value of an object returned by a predicate. *)
Definition py_truthy (v : pyval) : bool :=
  match v with
  | PyNone => false
  | PyBool b => b
  | PyInt z => negb (z =? 0)%Z
  | PyFloat x => negb (feqb x (Fin 0))
  | PyStr s => negb (String.eqb s "")
  end.

Definition isinstance_float (v : pyval) : bool :=
  match v with PyFloat _ => true | _ => false end.

Definition isinstance_int (v : pyval) : bool :=
  match v with PyInt _ | PyBool _ => true | _ => false end.

Definition isinstance_str (v : pyval) : bool :=
  match v with PyStr _ => true | _ => false end.

Definition isinstance_bool (v : pyval) : bool :=
  match v with PyBool _ => true | _ => false end.

(** A value passed where a vector entry is expected. *)
Definition vector_entry (v : pyval) : result npfloat :=
  match py_num v with
  | Some x => Ok x
  | None => Raise TypeError
  end.

(** [v in l]; the identity of objects is not modelled, so a NaN is not
    found in a list that holds it. *)
Definition py_in (v : pyval) (l : list pyval) : bool :=
  existsb (py_eqb v) l.

(** [l.index(v)]: position of the first element equal to [v]. *)
Fixpoint list_index (l : list pyval) (v : pyval) : result Z :=
  match l with
  | [] => Raise ValueError
  | x :: l' =>
      if py_eqb x v then Ok 0%Z
      else i ← list_index l' v; Ok (i + 1)%Z
  end.

(** [l[i]]: a negative index counts from the end. *)
Definition getitem {A} (l : list A) (i : Z) : result A :=
  let n := Z.of_nat (length l) in
  let j := if (i <? 0)%Z then (i + n)%Z else i in
  if (j <? 0)%Z then Raise IndexError
  else match l !! Z.to_nat j with
       | Some x => Ok x
       | None => Raise IndexError
       end.

(** A dictionary in insertion order; keys are compared with [==]. *)
Definition pydict (V : Type) : Type := list (pyval * V).

Fixpoint dict_set {V} (d : pydict V) (k : pyval) (v : V) : pydict V :=
  match d with
  | [] => [(k, v)]
  | (k', v') :: d' =>
      if py_eqb k' k then (k', v) :: d' else (k', v') :: dict_set d' k v
  end.

Fixpoint dict_get {V} (d : pydict V) (k : pyval) : result V :=
  match d with
  | [] => Raise KeyError
  | (k', v') :: d' => if py_eqb k' k then Ok v' else dict_get d' k
  end.

End PyVal.
Export PyVal.

(** ** The random source

    [rs.normal(loc, scale)], [rs.uniform()] and [rs.randint(low, high)] of a
    [numpy.random.RandomState]: the value of a draw is a function of the
    number of draws made before it and of the arguments. *)

Record RandomState : Type := {
  normal : nat -> npfloat -> R -> npfloat;
  uniform : nat -> npfloat;
  randint : nat -> Z -> Z -> Z
}.

(** ** Builtins

    [int(v)] on a Python value.  Of a string of ASCII characters it reads
    what Python does in base 10: white space around, a sign, and decimal
    digits with single underscores between them. *)
Module Builtins.

Definition digit (c : ascii) : option Z :=
  let n := Z.of_nat (nat_of_ascii c) in
  if (48 <=? n)%Z && (n <=? 57)%Z then Some (n - 48)%Z else None.

(** The characters that [int] passes over at both ends: tab to carriage
    return, the four separators and the space. *)
Definition is_space (c : ascii) : bool :=
  let n := Z.of_nat (nat_of_ascii c) in
  ((9 <=? n)%Z && (n <=? 13)%Z) || ((28 <=? n)%Z && (n <=? 32)%Z).

Fixpoint lstrip (s : string) : string :=
  match s with
  | String c s' => if is_space c then lstrip s' else s
  | EmptyString => s
  end.

Fixpoint all_space (s : string) : bool :=
  match s with
  | String c s' => is_space c && all_space s'
  | EmptyString => true
  end.

(** What follows a digit: more digits, an underscore and a digit, or white
    space to the end. *)
Fixpoint digits (s : string) (acc : Z) : option Z :=
  match s with
  | EmptyString => Some acc
  | String c s' =>
      match digit c with
      | Some d => digits s' (10 * acc + d)%Z
      | None =>
          if Ascii.eqb c "_" then
            match s' with
            | String c' s'' =>
                match digit c' with
                | Some d => digits s'' (10 * acc + d)%Z
                | None => None
                end
            | EmptyString => None
            end
          else if all_space s then Some acc else None
      end
  end.

Definition unsigned (s : string) : option Z :=
  match s with
  | String c s' =>
      match digit c with
      | Some d => digits s' d
      | None => None
      end
  | EmptyString => None
  end.

Definition numeral (s : string) : option Z :=
  match lstrip s with
  | String "-" s' => option_map Z.opp (unsigned s')
  | String "+" s' => unsigned s'
  | s' => unsigned s'
  end.

Definition int (v : pyval) : result Z :=
  match v with
  | PyInt z => Ok z
  | PyBool b => Ok (if b then 1 else 0)%Z
  | PyFloat x => py_int x
  | PyStr s =>
      match numeral s with
      | Some z => Ok z
      | None => Raise ValueError
      end
  | PyNone => Raise TypeError
  end.

End Builtins.

(** ** hyperparameters.py: module level functions *)

Section FreeFunctions.

Local Open Scope R_scope.

Definition is_legal_uniformfloat (value : pyval) (upper lower : R) : bool :=
  if negb (isinstance_float value || isinstance_int value) then false
  else
    match py_num value with
    | Some x =>
        if fleb x (Fin upper) && fleb (Fin (lower - 0.0000000001)) x
        then true else false
    | None => false
    end.

Definition is_legal_normalfloat (value : pyval) : bool :=
  isinstance_float value || isinstance_int value.

Definition check_default_uniformfloat
    (default : option R) (upper lower : R) (log : bool) : result npfloat :=
  let default :=
    match default with
    | None =>
        if log
        then np_exp (fdiv (fadd (np_log (Fin lower)) (np_log (Fin upper)))
                          (Fin 2))
        else Fin ((lower + upper) / 2)
    | Some d => Fin d
    end in
  let default := np_round default 10 in
  if is_legal_uniformfloat (PyFloat default) upper lower
  then Ok default
  else Raise ValueError.

Definition check_default_normalfloat
    (default : option pyval) (mu : R) : result pyval :=
  match default with
  | None => Ok (PyFloat (Fin mu))
  | Some d => if is_legal_normalfloat d then Ok d else Raise ValueError
  end.

Definition is_legal_uniforminteger (value : pyval) (upper lower : R) : bool :=
  if negb (isinstance_int value) then false
  else
    match py_num value with
    | Some x =>
        if fleb x (Fin upper) && fleb (Fin (lower - 0.0000000001)) x
        then true else false
    | None => false
    end.

Definition is_legal_normalinteger (value : pyval) : bool :=
  isinstance_int value.

Definition check_default_uniforminteger
    (default : option Z) (upper lower : Z) (log : bool) : result Z :=
  let default :=
    match default with
    | None =>
        if log
        then np_exp (fdiv (fadd (np_log (Fin (IZR lower)))
                                (np_log (Fin (IZR upper))))
                          (Fin 2))
        else Fin ((IZR lower + IZR upper) / 2)
    | Some d => Fin (IZR d)
    end in
  default ← py_int (np_round default 0);
  if is_legal_uniforminteger (PyInt default) (IZR upper) (IZR lower)
  then Ok default
  else Raise ValueError.

Definition check_default_normalinteger
    (default : option pyval) (mu : Z) : result pyval :=
  match default with
  | None => Ok (PyInt mu)
  | Some d => if is_legal_normalinteger d then Ok d else Raise ValueError
  end.

(** [check_int(parameter, name)]: of a string, [int(parameter)] raises
    ValueError unless it reads a number, and then the subtraction of the
    string raises TypeError. *)
Definition check_int (parameter : pyval) (name : string) : result Z :=
  match parameter with
  | PyInt z => Ok z
  | PyBool b => Ok (if b then 1 else 0)%Z
  | PyFloat x =>
      n ← py_int x;
      if fltb (Fin 0.00000001) (fabs (fsub (Fin (IZR n)) x))
      then Raise ValueError
      else Ok n
  | PyStr _ => _ ← Builtins.int parameter; Raise TypeError
  | PyNone => Raise TypeError
  end.

End FreeFunctions.

(** ** hyperparameters.py: the classes *)

(** One module per class, with the methods the statements of Part II need;
    the abstract methods of [Hyperparameter] are dispatched after them. *)

Module Constant.

Record t : Type := {
  name : string;
  value : pyval;
  default : pyval
}.

Definition __init__ (name : string) (value : pyval) : result t :=
  if negb (isinstance_int value || isinstance_float value
           || isinstance_str value)
     || isinstance_bool value
  then Raise TypeError
  else Ok {| name := name; value := value; default := value |}.

Definition is_legal (self : t) (v : pyval) : bool := py_eqb v (value self).

Definition _transform (self : t) (vector : npfloat) : result pyval :=
  if negb (np_isfinite vector) then Ok PyNone
  else Ok (value self).

Definition _inverse_transform (self : t) (vector : pyval) : result pyval :=
  if negb (py_eqb vector (value self)) then Ok (PyFloat NaN)
  else Ok (PyInt 0).

Definition has_neighbors (self : t) : bool := false.

Definition get_num_neighbors (self : t) : Z := 0.

Definition get_neighbors (self : t) (v : pyval) (rs : RandomState)
    (number : Z) (transform : bool) : list pyval := [].

End Constant.

(** [FloatHyperparameter] and [IntegerHyperparameter]: the bodies of
    [is_legal], [check_int] and [check_default] are [pass], so each returns
    [None]. *)
Module FloatHyperparameter.

Definition is_legal (v : pyval) : pyval := PyNone.

Definition check_default (default : pyval) : pyval := PyNone.

End FloatHyperparameter.

Module IntegerHyperparameter.

Definition is_legal (v : pyval) : pyval := PyNone.

Definition check_int (parameter : Z) (name : string) : option Z := None.

Definition check_default (default : pyval) : pyval := PyNone.

End IntegerHyperparameter.

Module UniformFloatHyperparameter.

Local Open Scope R_scope.

Record t : Type := {
  name : string;
  lower : R;
  upper : R;
  q : option R;
  log : bool;
  default : npfloat;
  _lower : npfloat;
  _upper : npfloat
}.

Definition __init__ (name : string) (lower upper : R) (default : option R)
    (q : option R) (log : bool) : result t :=
  if Rleb upper lower then Raise ValueError
  else if log && Rleb lower 0 then Raise ValueError
  else
    default ← check_default_uniformfloat default upper lower log;
    let '(_lower, _upper) :=
      if log then
        let '(lo, up) :=
          match q with
          | Some q => (lower - (q / 2 - 0.0001), upper + (q / 2 - 0.0001))
          | None => (lower, upper)
          end in
        (np_log (Fin lo), np_log (Fin up))
      else
        match q with
        | Some q =>
            (Fin (lower - (q / 2 - 0.0001)), Fin (upper + (q / 2 - 0.0001)))
        | None => (Fin lower, Fin upper)
        end in
    Ok {| name := name; lower := lower; upper := upper; q := q; log := log;
          default := default; _lower := _lower; _upper := _upper |}.

(** Inherited from [FloatHyperparameter]. *)
Definition is_legal (self : t) (v : pyval) : pyval :=
  FloatHyperparameter.is_legal v.

Definition _sample (self : t) (rs : RandomState) (k : nat) : npfloat * nat :=
  (uniform rs k, S k).

Definition _transform (self : t) (vector : npfloat) : result pyval :=
  if np_isnan vector then Ok PyNone
  else
    let vector := fmul vector (fsub (_upper self) (_lower self)) in
    let vector := fadd vector (_lower self) in
    let vector := if log self then np_exp vector else vector in
    vector ←
      match q self with
      | Some q =>
          n ← py_int (np_round (fdiv vector (Fin q)) 0);
          Ok (fmul (Fin (IZR n)) (Fin q))
      | None => Ok vector
      end;
    Ok (PyFloat vector).

Definition _inverse_transform (self : t) (vector : pyval) : result pyval :=
  match vector with
  | PyNone => Ok (PyFloat NaN)
  | _ =>
      match py_num vector with
      | None => Raise TypeError
      | Some x =>
          if log self
          then Ok (PyFloat (fdiv (fsub (np_log x) (_lower self))
                                 (fsub (_upper self) (_lower self))))
          else
            r ← py_div (fsub x (_lower self))
                       (fsub (_upper self) (_lower self));
            Ok (PyFloat r)
      end
  end.

(** [__eq__] against another instance of the class: the five entries of
    the list given to [all]. *)
Definition __eq__ (self other : t) : bool :=
  forallb (fun b : bool => b)
    [String.eqb (name self) (name other);
     Rltb (Rabs (lower self - lower other)) 0.00000001;
     Rltb (Rabs (upper self - upper other)) 0.00000001;
     Bool.eqb (log self) (log other);
     match q self, q other with
     | None, None => true
     | Some q1, Some q2 => Rltb (Rabs (q1 - q2)) 0.00000001
     | _, _ => false
     end].

(** [Hyperparameter.sample], inherited. *)
Definition sample (self : t) (rs : RandomState) (k : nat)
    : result pyval * nat :=
  let '(vector, k) := _sample self rs k in
  (_transform self vector, k).

Section GetNeighbors.

Variables (self : t) (value : npfloat) (rs : RandomState).
Variables (number : Z) (transform : bool).

(** [while len(neighbors) < number]: a draw below 0 or above 1 is passed
    over; nothing counts the passes. *)
Fixpoint neighbors_loop (fuel : nat) (neighbors : list pyval) (k : nat)
    : outcome (list pyval * nat) :=
  if (Z.of_nat (length neighbors) <? number)%Z then
    match fuel with
    | O => OutOfFuel
    | S fuel' =>
        let neighbor := normal rs k value 0.2 in
        if fltb neighbor (Fin 0) || fltb (Fin 1) neighbor
        then neighbors_loop fuel' neighbors (S k)
        else
          x ← (if transform then lift (_transform self neighbor)
               else Done (PyFloat neighbor));
          neighbors_loop fuel' (neighbors ++ [x]) (S k)
    end
  else Done (neighbors, k).

Definition get_neighbors (fuel : nat) (k : nat)
    : outcome (list pyval * nat) :=
  neighbors_loop fuel [] k.

End GetNeighbors.

End UniformFloatHyperparameter.

Module NormalFloatHyperparameter.

Local Open Scope R_scope.

Record t : Type := {
  name : string;
  mu : R;
  sigma : R;
  q : option R;
  log : bool;
  default : pyval
}.

Definition __init__ (name : string) (mu sigma : R) (default : option pyval)
    (q : option R) (log : bool) : result t :=
  default ← check_default_normalfloat default mu;
  Ok {| name := name; mu := mu; sigma := sigma; q := q; log := log;
        default := default |}.

Definition is_legal (self : t) (v : pyval) : bool :=
  if isinstance_float v || isinstance_int v then true else false.

Definition _sample (self : t) (rs : RandomState) (k : nat) : npfloat * nat :=
  (normal rs k (Fin (mu self)) (sigma self), S k).

Definition _transform (self : t) (vector : npfloat) : result pyval :=
  if np_isnan vector then Ok PyNone
  else
    let vector := if log self then np_exp vector else vector in
    vector ←
      match q self with
      | Some q =>
          n ← py_int (np_round (fdiv vector (Fin q)) 0);
          Ok (fmul (Fin (IZR n)) (Fin q))
      | None => Ok vector
      end;
    Ok (PyFloat vector).

Definition _inverse_transform (self : t) (vector : pyval) : result pyval :=
  match vector with
  | PyNone => Ok (PyFloat NaN)
  | _ =>
      if log self
      then match py_num vector with
           | None => Raise TypeError
           | Some x => Ok (PyFloat (np_log x))
           end
      else Ok vector
  end.

(** [Hyperparameter.sample], inherited. *)
Definition sample (self : t) (rs : RandomState) (k : nat)
    : result pyval * nat :=
  let '(vector, k) := _sample self rs k in
  (_transform self vector, k).

Section GetNeighbors.

Variables (self : t) (value : npfloat) (rs : RandomState).

(** [for i in range(number)] *)
Fixpoint neighbors_loop (n : nat) (neighbors : list pyval) (k : nat)
    : list pyval * nat :=
  match n with
  | O => (neighbors, k)
  | S n' =>
      neighbors_loop n'
        (neighbors ++ [PyFloat (normal rs k value (sigma self))]) (S k)
  end.

Definition get_neighbors (number : Z) (transform : bool) (k : nat)
    : list pyval * nat :=
  neighbors_loop (Z.to_nat number) [] k.

End GetNeighbors.

End NormalFloatHyperparameter.

Module UniformIntegerHyperparameter.

Local Open Scope R_scope.

Record t : Type := {
  name : string;
  lower : Z;
  upper : Z;
  q : option Z;
  log : bool;
  default : Z;
  ufhp : UniformFloatHyperparameter.t
}.

Definition __init__ (name : string) (lower upper : Z) (default : option Z)
    (q : option Z) (log : bool) : result t :=
  lower ← check_int (PyInt lower) "lower";
  upper ← check_int (PyInt upper) "upper";
  default ←
    match default with
    | Some d => d ← check_int (PyInt d) name; Ok (Some d)
    | None => Ok None
    end;
  let q :=
    match q with
    | Some q0 =>
        if (q0 <? 1)%Z then None
        else IntegerHyperparameter.check_int q0 "q"
    | None => None
    end in
  if (upper <=? lower)%Z then Raise ValueError
  else if log && (lower <=? 0)%Z then Raise ValueError
  else
    default ← check_default_uniforminteger default upper lower log;
    ufhp ← UniformFloatHyperparameter.__init__ name
             (IZR lower - 0.49999) (IZR upper + 0.49999)
             (Some (IZR default)) (option_map IZR q) log;
    Ok {| name := name; lower := lower; upper := upper; q := q; log := log;
          default := default; ufhp := ufhp |}.

(** Inherited from [IntegerHyperparameter]. *)
Definition is_legal (self : t) (v : pyval) : pyval :=
  IntegerHyperparameter.is_legal v.

Definition _transform (self : t) (vector : npfloat) : result pyval :=
  if np_isnan vector then Ok PyNone
  else
    vector ← UniformFloatHyperparameter._transform (ufhp self) vector;
    match vector with
    | PyFloat vector =>
        vector ←
          match q self with
          | Some q =>
              r ← py_div vector (Fin (IZR q));
              Ok (Fin (IZR (wrap_int64 (astype_int (np_round r 0) * q))))
          | None => Ok vector
          end;
        Ok (PyInt (astype_int (np_round vector 0)))
    | _ => Raise TypeError
    end.

Definition _inverse_transform (self : t) (vector : pyval) : result pyval :=
  UniformFloatHyperparameter._inverse_transform (ufhp self) vector.

Definition _sample (self : t) (rs : RandomState) (k : nat)
    : result pyval * nat :=
  let '(value, k) := UniformFloatHyperparameter._sample (ufhp self) rs k in
  (value ← _transform self value; _inverse_transform self value, k).

Definition has_neighbors (self : t) : bool :=
  let '(upper, lower) :=
    if log self
    then (np_exp (UniformFloatHyperparameter._upper (ufhp self)),
          np_exp (UniformFloatHyperparameter._lower (ufhp self)))
    else (UniformFloatHyperparameter._upper (ufhp self),
          UniformFloatHyperparameter._lower (ufhp self)) in
  if fleb (Fin 1) (fsub upper lower) then true else false.

Section GetNeighbors.

Variables (self : t) (value : npfloat) (rs : RandomState).
Variables (number : Z) (transform : bool).

(** The inner [while rejected] loop; [iteration] is tested, never changed. *)
Fixpoint reject_loop (fuel : nat) (k : nat) (iteration : Z)
    : outcome (npfloat * nat) :=
  match fuel with
  | O => OutOfFuel
  | S fuel' =>
      new_min_value ← lift (np_min_1 (normal rs k value 0.2));
      let new_value := np_max_0 new_min_value in
      int_value ← lift (_transform self value);
      new_int_value ← lift (_transform self new_value);
      if negb (py_eqb int_value new_int_value) then Done (new_value, S k)
      else if (100000 <? iteration)%Z then Fail ValueError
      else reject_loop fuel' (S k) iteration
  end.

Fixpoint collect (fuel inner : nat) (neighbors : list pyval) (k : nat)
    : outcome (list pyval * nat) :=
  if (Z.of_nat (length neighbors) <? number)%Z then
    match fuel with
    | O => OutOfFuel
    | S fuel' =>
        '(new_value, k) ← reject_loop inner k 0%Z;
        x ← (if transform then lift (_transform self new_value)
             else Done (PyFloat new_value));
        collect fuel' inner (neighbors ++ [x]) k
    end
  else Done (neighbors, k).

(** Every loop may run for at most [fuel] iterations. *)
Definition get_neighbors (fuel : nat) (k : nat)
    : outcome (list pyval * nat) :=
  collect fuel fuel [] k.

End GetNeighbors.

(** [Hyperparameter.sample], inherited. *)
Definition sample (self : t) (rs : RandomState) (k : nat)
    : result pyval * nat :=
  let '(vector, k) := _sample self rs k in
  (vector ← vector; vector ← vector_entry vector; _transform self vector,
   k).

End UniformIntegerHyperparameter.

Module NormalIntegerHyperparameter.

Local Open Scope R_scope.

Record t : Type := {
  name : string;
  mu : Z;
  sigma : R;
  q : option Z;
  log : bool;
  default : pyval;
  nfhp : NormalFloatHyperparameter.t
}.

Definition __init__ (name : string) (mu : Z) (sigma : R)
    (default : option Z) (q : option Z) (log : bool) : result t :=
  default ←
    match default with
    | Some d => d ← check_int (PyInt d) name; Ok (Some (PyInt d))
    | None => Ok None
    end;
  q ←
    match q with
    | Some q0 =>
        if (q0 <? 1)%Z then Ok None
        else q0 ← check_int (PyInt q0) "q"; Ok (Some q0)
    | None => Ok None
    end;
  default ← check_default_normalinteger default mu;
  nfhp ← NormalFloatHyperparameter.__init__ name (IZR mu) sigma
           (Some default) (option_map IZR q) log;
  Ok {| name := name; mu := mu; sigma := sigma; q := q; log := log;
        default := default; nfhp := nfhp |}.

Definition is_legal (self : t) (v : pyval) : bool :=
  if isinstance_int v then true else false.

Definition _transform (self : t) (vector : npfloat) : result pyval :=
  if np_isnan vector then Ok PyNone
  else
    vector ← NormalFloatHyperparameter._transform (nfhp self) vector;
    match vector with
    | PyFloat vector => Ok (PyInt (astype_int (np_round vector 0)))
    | _ => Raise TypeError
    end.

Definition _inverse_transform (self : t) (vector : pyval) : result pyval :=
  NormalFloatHyperparameter._inverse_transform (nfhp self) vector.

Definition _sample (self : t) (rs : RandomState) (k : nat)
    : result pyval * nat :=
  let '(value, k) := NormalFloatHyperparameter._sample (nfhp self) rs k in
  (value ← _transform self value; _inverse_transform self value, k).

Definition has_neighbors (self : t) : bool := true.

Section GetNeighbors.

Variables (self : t) (value : npfloat) (rs : RandomState).
Variables (number : Z) (transform : bool).

(** The inner [while rejected] loop; [iteration] counts its passes. *)
Fixpoint reject_loop (fuel : nat) (k : nat) (iteration : Z)
    : outcome (npfloat * nat) :=
  match fuel with
  | O => OutOfFuel
  | S fuel' =>
      let iteration := (iteration + 1)%Z in
      let new_value := normal rs k value (sigma self) in
      int_value ← lift (_transform self value);
      new_int_value ← lift (_transform self new_value);
      if negb (py_eqb int_value new_int_value) then Done (new_value, S k)
      else if (100000 <? iteration)%Z then Fail ValueError
      else reject_loop fuel' (S k) iteration
  end.

Fixpoint collect (fuel inner : nat) (neighbors : list pyval) (k : nat)
    : outcome (list pyval * nat) :=
  if (Z.of_nat (length neighbors) <? number)%Z then
    match fuel with
    | O => OutOfFuel
    | S fuel' =>
        '(new_value, k) ← reject_loop inner k 0%Z;
        x ← (if transform then lift (_transform self new_value)
             else Done (PyFloat new_value));
        collect fuel' inner (neighbors ++ [x]) k
    end
  else Done (neighbors, k).

Definition get_neighbors (fuel : nat) (k : nat)
    : outcome (list pyval * nat) :=
  collect fuel fuel [] k.

End GetNeighbors.

End NormalIntegerHyperparameter.

Module CategoricalHyperparameter.

Record t : Type := {
  name : string;
  choices : list pyval;
  _num_choices : Z;
  default : pyval
}.

Definition is_legal_in (choices : list pyval) (v : pyval) : bool :=
  if py_in v choices then true else false.

Definition check_default_in (choices : list pyval) (default : option pyval)
    : result pyval :=
  match default with
  | None => getitem choices 0
  | Some d => if is_legal_in choices d then Ok d else Raise ValueError
  end.

Definition __init__ (name : string) (choices : list pyval)
    (default : option pyval) : result t :=
  default ← check_default_in choices default;
  Ok {| name := name; choices := choices;
        _num_choices := Z.of_nat (length choices); default := default |}.

Definition is_legal (self : t) (v : pyval) : bool :=
  is_legal_in (choices self) v.

Definition check_default (self : t) (default : option pyval)
    : result pyval :=
  check_default_in (choices self) default.

Definition _sample (self : t) (rs : RandomState) (k : nat) : Z * nat :=
  (randint rs k 0 (_num_choices self), S k).

Definition _transform (self : t) (vector : npfloat) : result pyval :=
  if negb (np_isfinite vector) then Ok PyNone
  else if feqb (np_mod_1 vector) (Fin 0)
       then i ← py_int vector; getitem (choices self) i
       else Raise ValueError.

Definition _inverse_transform (self : t) (vector : pyval) : result pyval :=
  match vector with
  | PyNone => Ok (PyFloat NaN)
  | _ => i ← list_index (choices self) vector; Ok (PyInt i)
  end.

Definition has_neighbors (self : t) : bool :=
  (1 <? Z.of_nat (length (choices self)))%Z.

Definition get_num_neighbors (self : t) : Z :=
  (Z.of_nat (length (choices self)) - 1)%Z.

Section GetNeighbors.

Variables (self : t) (value : pyval) (rs : RandomState).
Variables (number : npfloat) (transform : bool).

(** [while rejected]: draw an index until it differs from [index]. *)
Fixpoint reject_loop (fuel : nat) (index : Z) (k : nat)
    : outcome (Z * nat) :=
  match fuel with
  | O => OutOfFuel
  | S fuel' =>
      let neighbor_idx := randint rs k 0 (_num_choices self) in
      if negb (neighbor_idx =? index)%Z then Done (neighbor_idx, S k)
      else reject_loop fuel' index (S k)
  end.

Definition encode (idx : Z) : result pyval :=
  if transform then _transform self (Fin (IZR idx))
  else Ok (PyFloat (Fin (IZR idx))).

(** [while len(neighbors) < number] *)
Fixpoint sample_loop (fuel inner : nat) (neighbors : list pyval) (k : nat)
    : outcome (list pyval * nat) :=
  if fltb (Fin (INR (length neighbors))) number then
    match fuel with
    | O => OutOfFuel
    | S fuel' =>
        index ← lift (Builtins.int value);
        '(neighbor_idx, k) ← reject_loop inner index k;
        candidate ← lift (encode neighbor_idx);
        if py_in candidate neighbors
        then sample_loop fuel' inner neighbors k
        else sample_loop fuel' inner (neighbors ++ [candidate]) k
    end
  else Done (neighbors, k).

(** [for candidate_idx, candidate_value in enumerate(self.choices)] *)
Fixpoint enumerate_loop (rest : list pyval) (candidate_idx : Z)
    (neighbors : list pyval) : result (list pyval) :=
  match rest with
  | [] => Ok neighbors
  | candidate_value :: rest' =>
      index ← Builtins.int value;
      if (index =? candidate_idx)%Z
      then enumerate_loop rest' (candidate_idx + 1)%Z neighbors
      else
        candidate ← encode candidate_idx;
        enumerate_loop rest' (candidate_idx + 1)%Z (neighbors ++ [candidate])
  end.

Definition get_neighbors (fuel : nat) (k : nat)
    : outcome (list pyval * nat) :=
  if fltb number (Fin (INR (length (choices self))))
  then sample_loop fuel fuel [] k
  else
    neighbors ← lift (enumerate_loop (choices self) 0%Z []);
    Done (neighbors, k).

End GetNeighbors.

(** [Hyperparameter.sample], inherited. *)
Definition sample (self : t) (rs : RandomState) (k : nat)
    : result pyval * nat :=
  let '(vector, k) := _sample self rs k in
  (_transform self (Fin (IZR vector)), k).

End CategoricalHyperparameter.

Module OrdinalHyperparameter.

Record t : Type := {
  name : string;
  sequence : list pyval;
  _num_elements : Z;
  default : pyval;
  value_dict : pydict Z
}.

Definition is_legal_in (sequence : list pyval) (v : pyval) : bool :=
  py_in v sequence.

Definition check_default_in (sequence : list pyval) (default : option pyval)
    : result pyval :=
  match default with
  | None => getitem sequence 0
  | Some d => if is_legal_in sequence d then Ok d else Raise ValueError
  end.

(** [for element in self.sequence: value_dict[element] = counter] *)
Fixpoint fill_value_dict (rest : list pyval) (counter : Z) (d : pydict Z)
    : pydict Z :=
  match rest with
  | [] => d
  | element :: rest' =>
      fill_value_dict rest' (counter + 1)%Z (dict_set d element counter)
  end.

Definition __init__ (name : string) (sequence : list pyval)
    (default : option pyval) : result t :=
  default ← check_default_in sequence default;
  Ok {| name := name; sequence := sequence;
        _num_elements := Z.of_nat (length sequence); default := default;
        value_dict := fill_value_dict sequence 1%Z [] |}.

Definition is_legal (self : t) (v : pyval) : bool :=
  is_legal_in (sequence self) v.

Definition _transform (self : t) (vector : npfloat) : result pyval :=
  if negb (feqb vector vector) then Ok PyNone
  else if feqb (np_mod_1 vector) (Fin 0)
       then i ← py_int vector; getitem (sequence self) i
       else Raise ValueError.

Definition _inverse_transform (self : t) (vector : pyval) : result pyval :=
  match vector with
  | PyNone => Ok (PyFloat NaN)
  | _ => i ← list_index (sequence self) vector; Ok (PyInt i)
  end.

(** [np.arange(1, self._num_elements + 1)] *)
Definition get_seq_order (self : t) : list Z :=
  map (fun i => Z.of_nat i + 1)%Z (seq 0 (Z.to_nat (_num_elements self))).

Definition get_order (self : t) (v : pyval) : result Z :=
  dict_get (value_dict self) v.

(** [list(values).index(idx)] *)
Fixpoint index_of_order (orders : list Z) (idx : Z) : result Z :=
  match orders with
  | [] => Raise ValueError
  | o :: orders' =>
      if (o =? idx)%Z then Ok 0%Z
      else i ← index_of_order orders' idx; Ok (i + 1)%Z
  end.

Definition get_value (self : t) (idx : Z) : result pyval :=
  i ← index_of_order (map snd (value_dict self)) idx;
  getitem (map fst (value_dict self)) i.

Definition check_order (self : t) (val1 val2 : pyval) : result bool :=
  idx1 ← get_order self val1;
  idx2 ← get_order self val2;
  Ok (if (idx1 <? idx2)%Z then true else false).

Definition _sample (self : t) (rs : RandomState) (k : nat) : Z * nat :=
  (randint rs k 0 (_num_elements self), S k).

Definition has_neighbors (self : t) : bool :=
  (1 <? Z.of_nat (length (sequence self)))%Z.

Definition get_num_neighbors (self : t) (v : pyval) : result Z :=
  first ← getitem (sequence self) 0;
  if py_eqb v first then Ok 1%Z
  else
    last ← getitem (sequence self) (-1);
    if py_eqb v last then Ok 1%Z else Ok 2%Z.

Definition get_neighbors (self : t) (v : pyval) (rs : RandomState)
    (number : Z) (transform : bool) : result (list pyval) :=
  let neighbors : list pyval := [] in
  if (number <? Z.of_nat (length (sequence self)))%Z then
    index ← get_order self v;
    let neighbor_idx1 := (index - 1)%Z in
    let neighbor_idx2 := (index + 1)%Z in
    let seq := get_seq_order self in
    if transform then
      seq0 ← getitem seq 0;
      neighbors ←
        (if (seq0 <=? neighbor_idx1)%Z then
           candidate1 ← get_value self neighbor_idx1;
           b ← check_order self candidate1 v;
           Ok (if b : bool then neighbors ++ [candidate1] else neighbors)
         else Ok neighbors);
      if (neighbor_idx2 <=? _num_elements self)%Z then
        candidate2 ← get_value self neighbor_idx2;
        b ← check_order self v candidate2;
        Ok (if b : bool then neighbors ++ [candidate2] else neighbors)
      else Ok neighbors
    else
      seq0 ← getitem seq 0;
      let neighbors :=
        if (neighbor_idx1 <? index)%Z && (seq0 <=? neighbor_idx1)%Z
        then neighbors ++ [PyInt neighbor_idx1] else neighbors in
      Ok (if (index <? neighbor_idx2)%Z
             && (neighbor_idx2 <=? _num_elements self)%Z
          then neighbors ++ [PyInt neighbor_idx2] else neighbors)
  else Ok neighbors.

(** [Hyperparameter.sample], inherited. *)
Definition sample (self : t) (rs : RandomState) (k : nat)
    : result pyval * nat :=
  let '(vector, k) := _sample self rs k in
  (_transform self (Fin (IZR vector)), k).

End OrdinalHyperparameter.

(** ** Conversions between the numeric classes *)

(** [UniformFloatHyperparameter.to_integer]: the arguments of the
    constructor call are evaluated from left to right. *)
Definition UniformFloat_to_integer (self : UniformFloatHyperparameter.t)
    : result UniformIntegerHyperparameter.t :=
  lower ← py_int (Fin (UniformFloatHyperparameter.lower self));
  upper ← py_int (Fin (UniformFloatHyperparameter.upper self));
  default ← py_int (np_round (UniformFloatHyperparameter.default self) 0);
  q ← match UniformFloatHyperparameter.q self with
      | Some q => py_int (Fin q)
      | None => Raise TypeError
      end;
  UniformIntegerHyperparameter.__init__
    (UniformFloatHyperparameter.name self) lower upper (Some default)
    (Some q) (UniformFloatHyperparameter.log self).

(** [NormalFloatHyperparameter.to_uniform] *)
Definition NormalFloat_to_uniform (self : NormalFloatHyperparameter.t)
    (z : Z) : result UniformFloatHyperparameter.t :=
  default ←
    match py_num (NormalFloatHyperparameter.default self) with
    | Some x => py_int (np_round x 0)
    | None => Raise TypeError
    end;
  UniformFloatHyperparameter.__init__
    (NormalFloatHyperparameter.name self)
    (NormalFloatHyperparameter.mu self
     - IZR z * NormalFloatHyperparameter.sigma self)%R
    (NormalFloatHyperparameter.mu self
     + IZR z * NormalFloatHyperparameter.sigma self)%R
    (Some (IZR default))
    (NormalFloatHyperparameter.q self)
    (NormalFloatHyperparameter.log self).

(** ** The capability contract: one operation per class *)

Inductive Hyperparameter : Type :=
| HConstant (h : Constant.t)
| HUniformFloat (h : UniformFloatHyperparameter.t)
| HNormalFloat (h : NormalFloatHyperparameter.t)
| HUniformInteger (h : UniformIntegerHyperparameter.t)
| HNormalInteger (h : NormalIntegerHyperparameter.t)
| HCategorical (h : CategoricalHyperparameter.t)
| HOrdinal (h : OrdinalHyperparameter.t).

(** [hp.is_legal(value)]: the object the method returns. *)
Definition is_legal (hp : Hyperparameter) (v : pyval) : pyval :=
  match hp with
  | HConstant h => PyBool (Constant.is_legal h v)
  | HUniformFloat h => UniformFloatHyperparameter.is_legal h v
  | HNormalFloat h => PyBool (NormalFloatHyperparameter.is_legal h v)
  | HUniformInteger h => UniformIntegerHyperparameter.is_legal h v
  | HNormalInteger h => PyBool (NormalIntegerHyperparameter.is_legal h v)
  | HCategorical h => PyBool (CategoricalHyperparameter.is_legal h v)
  | HOrdinal h => PyBool (OrdinalHyperparameter.is_legal h v)
  end.

(** [hp._transform(vector)], the spec's [to_value]. *)
Definition _transform (hp : Hyperparameter) (vector : npfloat)
    : result pyval :=
  match hp with
  | HConstant h => Constant._transform h vector
  | HUniformFloat h => UniformFloatHyperparameter._transform h vector
  | HNormalFloat h => NormalFloatHyperparameter._transform h vector
  | HUniformInteger h => UniformIntegerHyperparameter._transform h vector
  | HNormalInteger h => NormalIntegerHyperparameter._transform h vector
  | HCategorical h => CategoricalHyperparameter._transform h vector
  | HOrdinal h => OrdinalHyperparameter._transform h vector
  end.

(** [hp._inverse_transform(value)], the spec's [to_vector]. *)
Definition _inverse_transform (hp : Hyperparameter) (v : pyval)
    : result pyval :=
  match hp with
  | HConstant h => Constant._inverse_transform h v
  | HUniformFloat h => UniformFloatHyperparameter._inverse_transform h v
  | HNormalFloat h => NormalFloatHyperparameter._inverse_transform h v
  | HUniformInteger h => UniformIntegerHyperparameter._inverse_transform h v
  | HNormalInteger h => NormalIntegerHyperparameter._inverse_transform h v
  | HCategorical h => CategoricalHyperparameter._inverse_transform h v
  | HOrdinal h => OrdinalHyperparameter._inverse_transform h v
  end.

(** [hp._transform(hp._inverse_transform(value))] *)
Definition round_trip (hp : Hyperparameter) (v : pyval) : result pyval :=
  x ← _inverse_transform hp v;
  x ← vector_entry x;
  _transform hp x.

(** Objects that a constructor has returned. *)
Inductive constructed : Hyperparameter -> Prop :=
| constructed_Constant name value h :
    Constant.__init__ name value = Ok h -> constructed (HConstant h)
| constructed_UniformFloat name lower upper default q log h :
    UniformFloatHyperparameter.__init__ name lower upper default q log
    = Ok h ->
    constructed (HUniformFloat h)
| constructed_NormalFloat name mu sigma default q log h :
    NormalFloatHyperparameter.__init__ name mu sigma default q log = Ok h ->
    constructed (HNormalFloat h)
| constructed_UniformInteger name lower upper default q log h :
    UniformIntegerHyperparameter.__init__ name lower upper default q log
    = Ok h ->
    constructed (HUniformInteger h)
| constructed_NormalInteger name mu sigma default q log h :
    NormalIntegerHyperparameter.__init__ name mu sigma default q log
    = Ok h ->
    constructed (HNormalInteger h)
| constructed_Categorical name choices default h :
    CategoricalHyperparameter.__init__ name choices default = Ok h ->
    constructed (HCategorical h)
| constructed_Ordinal name sequence default h :
    OrdinalHyperparameter.__init__ name sequence default = Ok h ->
    constructed (HOrdinal h).

(** The legality test of each class; for the two uniform classes, whose
    method is the empty one they inherit, the module level test. *)
Definition legal (hp : Hyperparameter) (v : pyval) : bool :=
  match hp with
  | HUniformFloat h =>
      is_legal_uniformfloat v (UniformFloatHyperparameter.upper h)
                              (UniformFloatHyperparameter.lower h)
  | HUniformInteger h =>
      is_legal_uniforminteger v
        (IZR (UniformIntegerHyperparameter.upper h))
        (IZR (UniformIntegerHyperparameter.lower h))
  | _ => py_truthy (is_legal hp v)
  end.


Definition on_log_scale (hp : Hyperparameter) : bool :=
  match hp with
  | HUniformFloat h => UniformFloatHyperparameter.log h
  | HNormalFloat h => NormalFloatHyperparameter.log h
  | HUniformInteger h => UniformIntegerHyperparameter.log h
  | HNormalInteger h => NormalIntegerHyperparameter.log h
  | _ => false
  end.


(** ** configuration.py *)

Module Configuration.

(** A hyperparameter as the configuration record uses it: [legal_value],
    [to_vector], [to_value] and membership in [FloatHyperparameter]. *)
Record hyperparameter : Type := {
  hp_name : string;
  legal_value : pyval -> bool;
  to_vector : pyval -> result pyval;
  to_value : npfloat -> result pyval;
  isinstance_FloatHyperparameter : bool
}.

(** The hyperparameters of hyperparameters.py behind that interface. *)
Definition of_Hyperparameter (name : string) (hp : Hyperparameter)
    : hyperparameter :=
  {| hp_name := name;
     legal_value := fun v => py_truthy (is_legal hp v);
     to_vector := _inverse_transform hp;
     to_value := _transform hp;
     isinstance_FloatHyperparameter :=
       match hp with
       | HUniformFloat _ | HNormalFloat _ => true
       | _ => false
       end |}.

(** The owning collection: its items in canonical order and the slot of
    each name. *)
Record ConfigurationSpace : Type := {
  items : list (string * hyperparameter);
  index_of : string -> option nat
}.

Definition keys (cs : ConfigurationSpace) : list string :=
  map fst (items cs).

Fixpoint assoc {V} (l : list (string * V)) (key : string) : option V :=
  match l with
  | [] => None
  | (k, v) :: l' => if String.eqb k key then Some v else assoc l' key
  end.

(** [d[key] = v] on a dictionary with string keys. *)
Fixpoint assoc_set {V} (l : list (string * V)) (key : string) (v : V)
    : list (string * V) :=
  match l with
  | [] => [(key, v)]
  | (k, v') :: l' =>
      if String.eqb k key then (k, v) :: l'
      else (k, v') :: assoc_set l' key v
  end.

(** [config_space[key]] *)
Definition cs_getitem (cs : ConfigurationSpace) (key : string)
    : result hyperparameter :=
  match assoc (items cs) key with
  | Some hp => Ok hp
  | None => Raise KeyError
  end.

Definition cs_contains (cs : ConfigurationSpace) (key : string) : bool :=
  match assoc (items cs) key with Some _ => true | None => false end.

(** [config_space.index_of[key]] *)
Definition cs_index_of (cs : ConfigurationSpace) (key : string)
    : result nat :=
  match index_of cs key with
  | Some i => Ok i
  | None => Raise KeyError
  end.

(** What the record takes from outside: the validation layer [c_util],
    the equality of the owning collection, and the built-ins [repr] of a
    float, [hash] of a string and the content of a fresh [np.empty]. *)
Record Collaborators : Type := {
  check_configuration :
    ConfigurationSpace -> list npfloat -> bool -> result unit;
  change_hp_value :
    ConfigurationSpace -> list npfloat -> string -> npfloat -> nat ->
    result (list npfloat);
  cs_eqb : ConfigurationSpace -> ConfigurationSpace -> bool;
  repr_float : npfloat -> string;
  hash_str : string -> Z;
  np_empty : nat -> list npfloat
}.

(** Arrays live in a store; a configuration holds a reference. *)
Abbreviation heap := (list (list npfloat)).

Definition alloc (h : heap) (a : list npfloat) : nat * heap :=
  (length h, h ++ [a]).

Definition array_at (h : heap) (l : nat) : list npfloat :=
  default [] (h !! l).

Record t : Type := {
  config_space : ConfigurationSpace;
  allow_inactive_with_values : bool;
  origin : option pyval;
  config_id : option Z;
  _values : option (list (string * pyval));
  _vector : nat
}.

(** Methods read and write the store and the object; a raised exception
    leaves both as they are at that moment. *)
Definition state : Type := heap * t.

Definition M (A : Type) : Type := state -> result A * state.

Definition ret {A} (a : A) : M A := fun s => (Ok a, s).

Definition raise {A} (e : exn) : M A := fun s => (Raise e, s).

Definition mbind {A B} (m : M A) (k : A -> M B) : M B :=
  fun s =>
    match m s with
    | (Ok a, s') => k a s'
    | (Raise e, s') => (Raise e, s')
    end.

Definition liftR {A} (r : result A) : M A := fun s => (r, s).

Definition get_self : M t := fun s => (Ok (snd s), s).

Definition get_heap : M heap := fun s => (Ok (fst s), s).

Definition set_vector (l : nat) : M unit :=
  fun '(h, self) =>
    (Ok (),
     (h, {| config_space := config_space self;
            allow_inactive_with_values := allow_inactive_with_values self;
            origin := origin self; config_id := config_id self;
            _values := _values self; _vector := l |})).

Definition set_values (d : option (list (string * pyval))) : M unit :=
  fun '(h, self) =>
    (Ok (),
     (h, {| config_space := config_space self;
            allow_inactive_with_values := allow_inactive_with_values self;
            origin := origin self; config_id := config_id self;
            _values := d; _vector := _vector self |})).

(** [a.copy()] *)
Definition copy_array (l : nat) : M nat :=
  fun '(h, self) =>
    let '(l', h') := alloc h (array_at h l) in (Ok l', (h', self)).

Definition write_array (l : nat) (a : list npfloat) : M unit :=
  fun '(h, self) => (Ok (), (<[l := a]> h, self)).

#[global] Instance M_ret : MRet M := @ret.
#[global] Instance M_bind : MBind M := fun A B k m => mbind m k.

(** [float(np.round(value, 16))] *)
Definition round16 (v : pyval) : result pyval :=
  match py_num v with
  | Some x => Ok (PyFloat (np_round x 16))
  | None => Raise TypeError
  end.

Section Methods.

Variable C : Collaborators.

Definition is_valid_configuration : M unit :=
  self ← get_self;
  h ← get_heap;
  liftR (check_configuration C (config_space self)
           (array_at h (_vector self)) (allow_inactive_with_values self)).

Definition get_array : M nat :=
  self ← get_self; ret (_vector self).

(** [self._vector[i] = x] *)
Definition vector_setitem (i : nat) (x : npfloat) : M unit :=
  self ← get_self;
  h ← get_heap;
  let a := array_at h (_vector self) in
  if decide (i < length a)%nat
  then write_array (_vector self) (<[i := x]> a)
  else raise IndexError.

(** The loop of [__init__] over [configuration_space.items()]. *)
Fixpoint init_loop (its : list (string * hyperparameter))
    (values : list (string * pyval)) : M unit :=
  match its with
  | [] => ret ()
  | (key, hp) :: its' =>
      self ← get_self;
      i ← liftR (cs_index_of (config_space self) key);
      match assoc values key with
      | None =>
          vector_setitem i NaN;; init_loop its' values
      | Some value =>
          if negb (legal_value hp value) then raise IllegalValueError
          else
            value ← liftR (if isinstance_FloatHyperparameter hp
                            then round16 value else Ok value);
            set_values (Some (assoc_set (default [] (_values self))
                                        key value));;
            x ← liftR (to_vector hp value);
            x ← liftR (vector_entry x);
            vector_setitem i x;;
            init_loop its' values
      end
  end.

(** [Configuration(configuration_space, values=..., vector=...)] *)
Definition __init__ (configuration_space : ConfigurationSpace)
    (values : option (list (string * pyval)))
    (vector : option (list npfloat))
    (allow_inactive_with_values : bool)
    (origin : option pyval) (config_id : option Z)
    (h : heap) : result t * heap :=
  let self := {| config_space := configuration_space;
                 allow_inactive_with_values := allow_inactive_with_values;
                 origin := origin; config_id := config_id;
                 _values := None; _vector := length h |} in
  let finish (r : result unit * state) : result t * heap :=
    match r with
    | (Ok _, (h', self')) => (Ok self', h')
    | (Raise e, (h', _)) => (Raise e, h')
    end in
  match values, vector with
  | Some _, Some _ | None, None => (Raise ValueError, h)
  | Some values, None =>
      if existsb (fun k => negb (cs_contains configuration_space k)
                           && negb (String.eqb k ""))
                 (map fst values)
      then (Raise ValueError, h)
      else
        let '(l, h) :=
          alloc h (np_empty C (length (items configuration_space))) in
        finish
          ((set_values (Some []);;
            set_vector l;;
            init_loop (items configuration_space) values;;
            is_valid_configuration) (h, self))
  | None, Some vector =>
      if decide (length vector = length (items configuration_space))
      then let '(l, h) := alloc h vector in
           finish (set_vector l (h, self))
      else (Raise ValueError, h)
  end.

Definition __setitem__ (key : string) (value : pyval) : M unit :=
  self ← get_self;
  param ← liftR (cs_getitem (config_space self) key);
  if negb (legal_value param value) then raise IllegalValueError
  else
    idx ← liftR (cs_index_of (config_space self) key);
    vector_value ← liftR (to_vector param value);
    vector_value ← liftR (vector_entry vector_value);
    a ← get_array;
    a ← copy_array a;
    h ← get_heap;
    new_array ← liftR (change_hp_value C (config_space self)
                         (array_at h a) (hp_name param) vector_value idx);
    write_array a new_array;;
    h ← get_heap;
    liftR (check_configuration C (config_space self) (array_at h a) false);;
    set_vector a;;
    set_values None.

(** [self._vector[i]] *)
Definition vector_getitem (i : nat) : M npfloat :=
  self ← get_self;
  h ← get_heap;
  match array_at h (_vector self) !! i with
  | Some x => ret x
  | None => raise IndexError
  end.

Definition __getitem__ (key : string) : M pyval :=
  self ← get_self;
  match from_option (fun d => assoc d key) None (_values self) with
  | Some v => ret v
  | None =>
      if negb (cs_contains (config_space self) key) then raise KeyError
      else
        item_idx ← liftR (cs_index_of (config_space self) key);
        vector ← vector_getitem item_idx;
        if np_isnan vector then raise KeyError
        else
          hyperparameter ← liftR (cs_getitem (config_space self) key);
          value ← liftR (to_value hyperparameter vector);
          value ← liftR (if isinstance_FloatHyperparameter hyperparameter
                          then round16 value else Ok value);
          set_values (Some (assoc_set (default [] (_values self))
                                      key value));;
          ret value
  end.

(** [dict(self)]: the keys that [__iter__] yields, each looked up with
    [__getitem__]. *)
Fixpoint dict_loop (ks : list string) (d : list (string * pyval))
    : M (list (string * pyval)) :=
  match ks with
  | [] => ret d
  | key :: ks' =>
      self ← get_self;
      idx ← liftR (cs_index_of (config_space self) key);
      x ← vector_getitem idx;
      if np_isnan x then dict_loop ks' d
      else v ← __getitem__ key; dict_loop ks' (assoc_set d key v)
  end.

Definition dict_of_self : M (list (string * pyval)) :=
  self ← get_self; dict_loop (keys (config_space self)) [].

(** [d1 == d2] on dictionaries *)
Definition dict_eqb (d1 d2 : list (string * pyval)) : bool :=
  (length d1 =? length d2)%nat
  && forallb (fun '(k, v) =>
                match assoc d2 k with
                | Some v' => py_eqb v v'
                | None => false
                end) d1.

Definition __eq__ (h : heap) (self other : t)
    : result bool * (heap * t * t) :=
  match dict_of_self (h, self) with
  | (Raise e, (h, self)) => (Raise e, (h, self, other))
  | (Ok d1, (h, self)) =>
      match dict_of_self (h, other) with
      | (Raise e, (h, other)) => (Raise e, (h, self, other))
      | (Ok d2, (h, other)) =>
          (Ok (dict_eqb d1 d2
               && cs_eqb C (config_space self) (config_space other)),
           (h, self, other))
      end
  end.

(** [repr(v)]; a string is quoted as it stands. *)
Definition py_repr (v : pyval) : string :=
  match v with
  | PyNone => "None"
  | PyBool b => if b then "True" else "False"
  | PyInt z => pretty z
  | PyFloat x => repr_float C x
  | PyStr s => "'" +:+ s +:+ "'"
  end.

Fixpoint insert_sorted (k : string) (l : list string) : list string :=
  match l with
  | [] => [k]
  | k' :: l' =>
      if String.leb k k' then k :: l else k' :: insert_sorted k l'
  end.

(** [sorted(keys)] *)
Definition sorted (l : list string) : list string :=
  foldr insert_sorted [] l.

Definition newline : string := String (ascii_of_nat 10) EmptyString.

Definition __repr__ : M string :=
  values ← dict_of_self;
  let header := "Configuration(values={" in
  let lines :=
    map (fun key =>
           "  '" +:+ key +:+ "': "
           +:+ py_repr (default PyNone (assoc values key)) +:+ ",")
        (sorted (map fst values)) in
  let end_ := "})" in
  ret (String.concat newline (header :: lines ++ [end_])).

Definition __hash__ : M Z :=
  r ← __repr__; ret (hash_str C r).

(** [__contains__]: [item in self] calls the method again; [depth] bounds
    the nesting of the calls. *)
Fixpoint __contains__ (depth : nat) (item : pyval) : outcome bool :=
  match depth with
  | O => OutOfFuel
  | S depth' =>
      if negb (isinstance_str item) then Done false
      else __contains__ depth' item
  end.

(** The keys that [__iter__] yields. *)
Fixpoint iter_loop (ks : list string) : M (list string) :=
  match ks with
  | [] => ret []
  | key :: ks' =>
      self ← get_self;
      idx ← liftR (cs_index_of (config_space self) key);
      x ← vector_getitem idx;
      rest ← iter_loop ks';
      ret (if np_isnan x then rest else key :: rest)
  end.

Definition __iter__ : M (list string) :=
  self ← get_self; iter_loop (keys (config_space self)).

Definition __len__ : M nat :=
  self ← get_self; ret (length (items (config_space self))).

End Methods.

End Configuration.

(** ** Vocabulary of the statements *)

(** The nearest multiple of the quantization step. *)
Definition snap (q : option R) (y : R) : R :=
  match q with
  | Some q => (IZR (round_half_even (y / q)) * q)%R
  | None => y
  end.


(** No two elements at different positions are equal. *)
Definition pairwise_distinct (l : list pyval) : Prop :=
  forall (i j : nat) x y, l !! i = Some x -> l !! j = Some y -> i <> j ->
                          py_eqb x y = false.

(** The dictionary that numbers the elements of a list from [c] on. *)
Fixpoint enum_from (c : Z) (l : list pyval) : pydict Z :=
  match l with
  | [] => []
  | x :: l' => (x, c) :: enum_from (c + 1)%Z l'
  end.

(** All choices of a categorical hyperparameter in sequence order, as
    values or as vector entries. *)
Definition all_encoded (self : CategoricalHyperparameter.t)
    (transform : bool) : list pyval :=
  if transform then CategoricalHyperparameter.choices self
  else map (fun i : nat => PyFloat (Fin (INR i)))
           (seq 0 (length (CategoricalHyperparameter.choices self))).

Section Draws.

Variables (self : CategoricalHyperparameter.t) (rs : RandomState).
Variables (number : npfloat) (transform : bool) (index : Z).

(** [draws_to m k nb res]: from the list [nb], the draws number [k] to
    [k + m - 1] complete the neighbors to [res]: draws of [index] are
    passed over, the draw after them is encoded and appended unless it is
    in the list already. *)
Inductive draws_to : nat -> nat -> list pyval -> list pyval * nat -> Prop :=
| draws_done k nb :
    fltb (Fin (INR (length nb))) number = false ->
    draws_to 0 k nb (nb, k)
| draws_step m j k nb c res :
    fltb (Fin (INR (length nb))) number = true ->
    (forall j', (j' < j)%nat ->
       randint rs (k + j') 0 (CategoricalHyperparameter._num_choices self)
       = index) ->
    randint rs (k + j) 0 (CategoricalHyperparameter._num_choices self)
    <> index ->
    CategoricalHyperparameter.encode self transform
      (randint rs (k + j) 0 (CategoricalHyperparameter._num_choices self))
    = Ok c ->
    draws_to m (S (k + j)) (if py_in c nb then nb else nb ++ [c]) res ->
    draws_to (S (m + j)) k nb res.

(** [c] encodes a drawn index other than [index]. *)
Definition drawn_other (c : pyval) : Prop :=
  exists p : nat,
    randint rs p 0 (CategoricalHyperparameter._num_choices self) <> index
    /\ CategoricalHyperparameter.encode self transform
         (randint rs p 0 (CategoricalHyperparameter._num_choices self))
       = Ok c.

End Draws.

(** The default an object carries. *)
Definition default_of (hp : Hyperparameter) : pyval :=
  match hp with
  | HConstant h => Constant.default h
  | HUniformFloat h => PyFloat (UniformFloatHyperparameter.default h)
  | HNormalFloat h => NormalFloatHyperparameter.default h
  | HUniformInteger h => PyInt (UniformIntegerHyperparameter.default h)
  | HNormalInteger h => NormalIntegerHyperparameter.default h
  | HCategorical h => CategoricalHyperparameter.default h
  | HOrdinal h => OrdinalHyperparameter.default h
  end.

(** A draw that the loop of [UniformFloatHyperparameter.get_neighbors]
    keeps: it is neither below 0 nor above 1. *)
Definition within_unit (x : npfloat) : bool :=
  negb (fltb x (Fin 0) || fltb (Fin 1) x).

(** [v] is a kept draw of [rs.normal(value, 0.2)], made after [k] draws
    and before [k']. *)
Definition kept_draw (value : npfloat) (rs : RandomState) (k k' : nat)
    (v : pyval) : Prop :=
  exists p : nat,
    (k <= p < k')%nat /\ v = PyFloat (normal rs p value 0.2)
    /\ within_unit (normal rs p value 0.2) = true.

(** A neighbor of the normal integer: the entry [v] of the result stems
    from a draw of [rs.normal(value, sigma)], made after [k] draws and
    before [k'], that decodes to an integer other than that of [value];
    with [transform] it is that integer, else the draw itself. *)
Definition accepted_draw (self : NormalIntegerHyperparameter.t)
    (value : npfloat) (rs : RandomState) (transform : bool) (k k' : nat)
    (v : pyval) : Prop :=
  exists (p : nat) (a b : pyval),
    (k <= p < k')%nat
    /\ NormalIntegerHyperparameter._transform self value = Ok a
    /\ NormalIntegerHyperparameter._transform self
         (normal rs p value (NormalIntegerHyperparameter.sigma self)) = Ok b
    /\ py_eqb a b = false
    /\ v = (if transform then b
            else PyFloat (normal rs p value
                            (NormalIntegerHyperparameter.sigma self))).

(** The elements of a list next to position [i]: the one before, then the
    one after. *)
Definition adjacent (l : list pyval) (i : nat) : list pyval :=
  (match i with
   | O => []
   | S i' => option_list (l !! i')
   end) ++ option_list (l !! S i).

(** The value that a configuration keeps for a hyperparameter: rounded to
    16 places when the hyperparameter is a float one. *)
Definition stored (hp : Configuration.hyperparameter) (value : pyval)
    : result pyval :=
  if Configuration.isinstance_FloatHyperparameter hp
  then Configuration.round16 value
  else Ok value.

(** The value that [__getitem__] computes from a vector entry. *)
Definition decoded (hp : Configuration.hyperparameter) (x : npfloat)
    : result pyval :=
  value ← Configuration.to_value hp x; stored hp value.

(** A configuration with another cache. *)
Definition with_values (self : Configuration.t)
    (d : option (list (string * pyval))) : Configuration.t :=
  {| Configuration.config_space := Configuration.config_space self;
     Configuration.allow_inactive_with_values :=
       Configuration.allow_inactive_with_values self;
     Configuration.origin := Configuration.origin self;
     Configuration.config_id := Configuration.config_id self;
     Configuration._values := d;
     Configuration._vector := Configuration._vector self |}.

(** The slot of a key in the vector [a] holds a number. *)
Definition active (cs : Configuration.ConfigurationSpace) (a : list npfloat)
    (key : string) : bool :=
  match Configuration.index_of cs key with
  | Some idx =>
      match a !! idx with
      | Some x => negb (np_isnan x)
      | None => false
      end
  | None => false
  end.

(** The cache of a configuration holds [v] for [key]. *)
Definition cached (self : Configuration.t) (key : string) (v : pyval)
    : Prop :=
  from_option (fun d => Configuration.assoc d key) None
    (Configuration._values self) = Some v.

(** ** Objects of the examples *)

Module Examples.

Local Open Scope R_scope.

(** [UniformIntegerHyperparameter("x", 0, 10)] *)
Definition zero_to_ten : UniformIntegerHyperparameter.t :=
  {| UniformIntegerHyperparameter.name := "x";
     UniformIntegerHyperparameter.lower := 0;
     UniformIntegerHyperparameter.upper := 10;
     UniformIntegerHyperparameter.q := None;
     UniformIntegerHyperparameter.log := false;
     UniformIntegerHyperparameter.default := 5;
     UniformIntegerHyperparameter.ufhp :=
       {| UniformFloatHyperparameter.name := "x";
          UniformFloatHyperparameter.lower := 0 - 0.49999;
          UniformFloatHyperparameter.upper := 10 + 0.49999;
          UniformFloatHyperparameter.q := None;
          UniformFloatHyperparameter.log := false;
          UniformFloatHyperparameter.default := Fin 5;
          UniformFloatHyperparameter._lower := Fin (0 - 0.49999);
          UniformFloatHyperparameter._upper := Fin (10 + 0.49999) |} |}.

(** [NormalIntegerHyperparameter("n", 0, 1)] *)
Definition standard_normal_integer : NormalIntegerHyperparameter.t :=
  {| NormalIntegerHyperparameter.name := "n";
     NormalIntegerHyperparameter.mu := 0;
     NormalIntegerHyperparameter.sigma := 1;
     NormalIntegerHyperparameter.q := None;
     NormalIntegerHyperparameter.log := false;
     NormalIntegerHyperparameter.default := PyInt 0;
     NormalIntegerHyperparameter.nfhp :=
       {| NormalFloatHyperparameter.name := "n";
          NormalFloatHyperparameter.mu := 0;
          NormalFloatHyperparameter.sigma := 1;
          NormalFloatHyperparameter.q := None;
          NormalFloatHyperparameter.log := false;
          NormalFloatHyperparameter.default := PyInt 0 |} |}.


(** [NormalFloatHyperparameter("x", 0, 1)] *)
Definition standard_normal : NormalFloatHyperparameter.t :=
  {| NormalFloatHyperparameter.name := "x";
     NormalFloatHyperparameter.mu := 0;
     NormalFloatHyperparameter.sigma := 1;
     NormalFloatHyperparameter.q := None;
     NormalFloatHyperparameter.log := false;
     NormalFloatHyperparameter.default := PyFloat (Fin 0) |}.

(** [UniformFloatHyperparameter("x", 0, 0.0001, q=0.0001)]: the widened
    bounds coincide. *)
Definition narrow : UniformFloatHyperparameter.t :=
  {| UniformFloatHyperparameter.name := "x";
     UniformFloatHyperparameter.lower := 0;
     UniformFloatHyperparameter.upper := 0.0001;
     UniformFloatHyperparameter.q := Some 0.0001;
     UniformFloatHyperparameter.log := false;
     UniformFloatHyperparameter.default := Fin 0.00005;
     UniformFloatHyperparameter._lower := Fin (0 - (0.0001 / 2 - 0.0001));
     UniformFloatHyperparameter._upper :=
       Fin (0.0001 + (0.0001 / 2 - 0.0001)) |}.

(** [Constant("c", "v")] *)
Definition constant_v : Constant.t :=
  {| Constant.name := "c"; Constant.value := PyStr "v";
     Constant.default := PyStr "v" |}.

(** [CategoricalHyperparameter("c", ["a", "b", "c"])] *)
Definition abc : CategoricalHyperparameter.t :=
  {| CategoricalHyperparameter.name := "c";
     CategoricalHyperparameter.choices := [PyStr "a"; PyStr "b"; PyStr "c"];
     CategoricalHyperparameter._num_choices := 3;
     CategoricalHyperparameter.default := PyStr "a" |}.

(** [CategoricalHyperparameter("c", [1, 2])] *)
Definition one_two : CategoricalHyperparameter.t :=
  {| CategoricalHyperparameter.name := "c";
     CategoricalHyperparameter.choices := [PyInt 1; PyInt 2];
     CategoricalHyperparameter._num_choices := 2;
     CategoricalHyperparameter.default := PyInt 1 |}.

(** [OrdinalHyperparameter("o", ["lo", "hi"])] *)
Definition lo_hi : OrdinalHyperparameter.t :=
  {| OrdinalHyperparameter.name := "o";
     OrdinalHyperparameter.sequence := [PyStr "lo"; PyStr "hi"];
     OrdinalHyperparameter._num_elements := 2;
     OrdinalHyperparameter.default := PyStr "lo";
     OrdinalHyperparameter.value_dict :=
       [(PyStr "lo", 1%Z); (PyStr "hi", 2%Z)] |}.

(** [OrdinalHyperparameter("o", ["a", "b", "c"])] *)
Definition ordinal_abc : OrdinalHyperparameter.t :=
  {| OrdinalHyperparameter.name := "o";
     OrdinalHyperparameter.sequence := [PyStr "a"; PyStr "b"; PyStr "c"];
     OrdinalHyperparameter._num_elements := 3;
     OrdinalHyperparameter.default := PyStr "a";
     OrdinalHyperparameter.value_dict :=
       [(PyStr "a", 1%Z); (PyStr "b", 2%Z); (PyStr "c", 3%Z)] |}.

(** A source whose normal draw is its mean, whose uniform draws are 0.5
    and then 0.52, and whose integer draws are 2 and then 1. *)
Definition fixed_source : RandomState :=
  {| normal := fun _ loc _ => loc;
     uniform := fun k => match k with O => Fin 0.5 | _ => Fin 0.52 end;
     randint := fun k _ _ => match k with O => 2%Z | _ => 1%Z end |}.

(** A configuration space with the one hyperparameter [one_two]. *)
Definition space_c : Configuration.ConfigurationSpace :=
  {| Configuration.items :=
       [("c", Configuration.of_Hyperparameter "c" (HCategorical one_two))];
     Configuration.index_of :=
       fun key => if String.eqb key "c" then Some 0%nat else None |}.

(** Collaborators of a space without conditions: every vector is valid and
    a change touches its own slot only. *)
Definition unconditional (repr_float : npfloat -> string)
    (hash_str : string -> Z) : Configuration.Collaborators :=
  {| Configuration.check_configuration := fun _ _ _ => Ok ();
     Configuration.change_hp_value := fun _ a _ x i => Ok (<[i := x]> a);
     Configuration.cs_eqb := fun _ _ => true;
     Configuration.repr_float := repr_float;
     Configuration.hash_str := hash_str;
     Configuration.np_empty := fun n => replicate n (Fin 0) |}.

(** A float printer that is right at 1.0, and a string hash: the length. *)
Definition repr_float_stub (x : npfloat) : string := "1.0".

Definition length_hash (s : string) : Z := Z.of_nat (String.length s).

(** Collaborators whose validation refuses every vector. *)
Definition refusing : Configuration.Collaborators :=
  {| Configuration.check_configuration := fun _ _ _ => Raise ValueError;
     Configuration.change_hp_value := fun _ a _ x i => Ok (<[i := x]> a);
     Configuration.cs_eqb := fun _ _ => true;
     Configuration.repr_float := fun _ => "";
     Configuration.hash_str := fun _ => 0%Z;
     Configuration.np_empty := fun n => replicate n (Fin 0) |}.

(** [Configuration(space_c, values={"c": 1})] and
    [Configuration(space_c, values={"c": 1.0})] *)
Definition config_int : Configuration.t :=
  {| Configuration.config_space := space_c;
     Configuration.allow_inactive_with_values := false;
     Configuration.origin := None;
     Configuration.config_id := None;
     Configuration._values := Some [("c", PyInt 1)];
     Configuration._vector := 0 |}.

Definition config_float : Configuration.t :=
  {| Configuration.config_space := space_c;
     Configuration.allow_inactive_with_values := false;
     Configuration.origin := None;
     Configuration.config_id := None;
     Configuration._values := Some [("c", PyFloat (Fin 1))];
     Configuration._vector := 1 |}.

Definition repr_int : string :=
  "Configuration(values={" +:+ Configuration.newline
  +:+ "  'c': 1," +:+ Configuration.newline +:+ "})".

Definition repr_float_one : string :=
  "Configuration(values={" +:+ Configuration.newline
  +:+ "  'c': 1.0," +:+ Configuration.newline +:+ "})".

(** [UniformFloatHyperparameter("x", 0, 1)] *)
Definition zero_one : UniformFloatHyperparameter.t :=
  {| UniformFloatHyperparameter.name := "x";
     UniformFloatHyperparameter.lower := 0;
     UniformFloatHyperparameter.upper := 1;
     UniformFloatHyperparameter.q := None;
     UniformFloatHyperparameter.log := false;
     UniformFloatHyperparameter.default := Fin 0.5;
     UniformFloatHyperparameter._lower := Fin 0;
     UniformFloatHyperparameter._upper := Fin 1 |}.

(** [standard_normal.to_uniform(3)]: the range from -3 to 3 with the
    default 0. *)
Definition three_sigma : UniformFloatHyperparameter.t :=
  {| UniformFloatHyperparameter.name := "x";
     UniformFloatHyperparameter.lower := 0 - 3 * 1;
     UniformFloatHyperparameter.upper := 0 + 3 * 1;
     UniformFloatHyperparameter.q := None;
     UniformFloatHyperparameter.log := false;
     UniformFloatHyperparameter.default := Fin 0;
     UniformFloatHyperparameter._lower := Fin (0 - 3 * 1);
     UniformFloatHyperparameter._upper := Fin (0 + 3 * 1) |}.

(** A source whose normal draw lies 1 above its mean. *)
Definition stepping_source : RandomState :=
  {| normal := fun _ loc _ => fadd loc (Fin 1);
     uniform := fun _ => Fin 0.5;
     randint := fun _ _ _ => 1%Z |}.

(** [config_int] after [config_int["c"] = 2]: the cache is empty and the
    vector is the second array of the store. *)
Definition config_written : Configuration.t :=
  {| Configuration.config_space := space_c;
     Configuration.allow_inactive_with_values := false;
     Configuration.origin := None;
     Configuration.config_id := None;
     Configuration._values := None;
     Configuration._vector := 1 |}.

(** ... and after a read of "c". *)
Definition config_read : Configuration.t :=
  {| Configuration.config_space := space_c;
     Configuration.allow_inactive_with_values := false;
     Configuration.origin := None;
     Configuration.config_id := None;
     Configuration._values := Some [("c", PyInt 2)];
     Configuration._vector := 1 |}.

End Examples.

(** * Part II: properties *)

Import Examples.

Module UF := UniformFloatHyperparameter.
Module NF := NormalFloatHyperparameter.
Module UI := UniformIntegerHyperparameter.
Module NI := NormalIntegerHyperparameter.
Module Cat := CategoricalHyperparameter.
Module Ord := OrdinalHyperparameter.
Module Cfg := Configuration.

Local Open Scope R_scope.

(** ** Comparisons and rounding *)
Lemma Rltb_true a b : Rltb a b = true <-> a < b.
Proof. unfold Rltb. destruct (Rlt_dec a b); split; intros; try done; lra. Qed.
Lemma Rleb_true a b : Rleb a b = true <-> a <= b.
Proof. unfold Rleb. destruct (Rle_dec a b); split; intros; try done; lra. Qed.
Lemma Reqb_true a b : Reqb a b = true <-> a = b.
Proof. unfold Reqb. destruct (Req_dec_T a b); split; intros; try done; lra. Qed.

Lemma fleb_Fin a b : fleb (Fin a) (Fin b) = true <-> a <= b.
Proof.
  unfold fleb; simpl. rewrite orb_true_iff, Rltb_true, Reqb_true. lra.
Qed.

Ltac rdec :=
  repeat match goal with
  | |- context [Rlt_dec ?a ?b] => destruct (Rlt_dec a b); try lra
  | |- context [Rle_dec ?a ?b] => destruct (Rle_dec a b); try lra
  | |- context [Req_dec_T ?a ?b] => destruct (Req_dec_T a b); try lra
  end.

Lemma uniform_bounds_iff (value : pyval) (upper lower : R) :
  match py_num value with
  | Some x => if fleb x (Fin upper) && fleb (Fin (lower - 0.0000000001)) x then true else false
  | None => false
  end = true
  <-> exists x, py_num value = Some (Fin x) /\ lower - 0.0000000001 <= x <= upper.
Proof.
  destruct (py_num value) as [x|].
  - split.
    + intros H. destruct (fleb x (Fin upper)) eqn:E1; [|discriminate].
      destruct (fleb (Fin (lower - 0.0000000001)) x) eqn:E2; [|discriminate].
      destruct x; try discriminate.
      exists r. apply fleb_Fin in E1, E2. split; [done|lra].
    + intros (r & [= ->] & H1 & H2).
      assert (fleb (Fin r) (Fin upper) = true) as -> by now apply fleb_Fin.
      assert (fleb (Fin (lower - 0.0000000001)) (Fin r) = true) as -> by now apply fleb_Fin.
      done.
  - split; [discriminate|]. intros (x & ? & _). discriminate.
Qed.

Lemma is_legal_uniformfloat_iff (value : pyval) (upper lower : R) :
  is_legal_uniformfloat value upper lower = true
  <-> exists x, py_num value = Some (Fin x)
                /\ lower - 0.0000000001 <= x <= upper.
Proof.
  unfold is_legal_uniformfloat.
  destruct (isinstance_float value || isinstance_int value) eqn:E; simpl.
  - apply uniform_bounds_iff.
  - split; [discriminate|]. intros (x & Hx & _).
    destruct value; simpl in *; discriminate.
Qed.

Lemma is_legal_uniforminteger_iff (value : pyval) (upper lower : R) :
  is_legal_uniforminteger value upper lower = true
  <-> isinstance_int value = true
      /\ exists x, py_num value = Some (Fin x)
                   /\ lower - 0.0000000001 <= x <= upper.
Proof.
  unfold is_legal_uniforminteger.
  destruct (isinstance_int value) eqn:E; simpl.
  - rewrite uniform_bounds_iff. tauto.
  - split; [discriminate|]. intros [? _]. discriminate.
Qed.

(** C2 (amended): the module level legality tests of the uniform classes
    accept exactly the finite numbers [x] with
    [lower - 1e-10 <= x <= upper] (for the integer class, only numbers of
    type int); in particular, between 0 and 1, [-1e-10] is legal and
    [-1e-7] is not. *)
Theorem is_legal_uniform_slack :
  (forall (value : pyval) (upper lower : R),
     is_legal_uniformfloat value upper lower = true
     <-> exists x, py_num value = Some (Fin x)
                   /\ lower - 0.0000000001 <= x <= upper)
  /\ (forall (value : pyval) (upper lower : R),
     is_legal_uniforminteger value upper lower = true
     <-> isinstance_int value = true
         /\ exists x, py_num value = Some (Fin x)
                      /\ lower - 0.0000000001 <= x <= upper)
  /\ is_legal_uniformfloat (PyFloat (Fin (- 0.0000000001))) 1 0 = true
  /\ is_legal_uniformfloat (PyFloat (Fin (- 0.0000001))) 1 0 = false.
Proof.
  split; [|split; [|split]].
  - apply is_legal_uniformfloat_iff.
  - apply is_legal_uniforminteger_iff.
  - unfold is_legal_uniformfloat; simpl.
    unfold fleb; simpl. unfold Rltb, Reqb. rdec; reflexivity.
  - unfold is_legal_uniformfloat; simpl.
    unfold fleb; simpl. unfold Rltb, Reqb. rdec; reflexivity.
Qed.

(** C2 as stated fails: [-5e-9] lies within a slack of [1e-8] below the
    lower bound 0 and is not legal. *)
Lemma is_legal_slack_counterexample :
  0 - 0.00000001 <= - 0.000000005 <= 1
  /\ is_legal_uniformfloat (PyFloat (Fin (- 0.000000005))) 1 0 = false.
Proof.
  split; [lra|].
  unfold is_legal_uniformfloat; simpl.
  unfold fleb; simpl. unfold Rltb, Reqb. rdec; reflexivity.
Qed.

(** The method [is_legal] that the two uniform classes inherit has an empty
    body: it answers [None], which is not true, for every value. *)
Lemma uniform_is_legal_method_is_None (hp : Hyperparameter) (v : pyval) :
  (exists h, hp = HUniformFloat h) \/ (exists h, hp = HUniformInteger h) ->
  is_legal hp v = PyNone /\ py_truthy (is_legal hp v) = false.
Proof. intros [[h ->]|[h ->]]; done. Qed.

Lemma Int_part_bounds r : IZR (Int_part r) <= r < IZR (Int_part r) + 1.
Proof.
  unfold Int_part. rewrite minus_IZR. destruct (archimed r). lra.
Qed.

Lemma Int_part_unique r (z : Z) : IZR z <= r < IZR z + 1 -> Int_part r = z.
Proof.
  intros [H1 H2]. unfold Int_part.
  assert ((z + 1)%Z = up r) as <-; [|lia].
  apply tech_up; rewrite plus_IZR; lra.
Qed.

Lemma Int_part_IZR z : Int_part (IZR z) = z.
Proof. apply Int_part_unique. lra. Qed.

Lemma round_half_even_IZR z : round_half_even (IZR z) = z.
Proof.
  unfold round_half_even. rewrite Int_part_IZR.
  destruct (Rlt_dec _ _); [done|lra].
Qed.

Lemma round_half_even_near r : Rabs (IZR (round_half_even r) - r) <= 1 / 2.
Proof.
  unfold round_half_even. pose proof (Int_part_bounds r) as [H1 H2].
  destruct (Rlt_dec _ _).
  - apply Rabs_le. lra.
  - destruct (Rlt_dec _ _).
    + rewrite plus_IZR. apply Rabs_le. lra.
    + destruct (Z.even _); [|rewrite plus_IZR]; apply Rabs_le; lra.
Qed.

Lemma Rabs_le_inv x a : Rabs x <= a -> - a <= x <= a.
Proof. unfold Rabs. destruct (Rcase_abs x); lra. Qed.

Lemma round_half_even_unique r (z : Z) :
  IZR z - 1 / 2 < r < IZR z + 1 / 2 -> round_half_even r = z.
Proof.
  intros [H1 H2]. pose proof (round_half_even_near r) as H.
  apply Rabs_le_inv in H.
  assert (IZR (round_half_even r) - IZR z < 1) by lra.
  assert (-1 < IZR (round_half_even r) - IZR z) by lra.
  rewrite <- minus_IZR in *.
  apply lt_IZR in H0. apply lt_IZR in H3. lia.
Qed.

Lemma trunc_IZR z : trunc (IZR z) = z.
Proof.
  unfold trunc. destruct (Rle_dec 0 (IZR z)).
  - apply Int_part_IZR.
  - rewrite <- opp_IZR, Int_part_IZR. lia.
Qed.

Lemma np_round_0_Fin r : np_round (Fin r) 0 = Fin (IZR (round_half_even r)).
Proof. simpl. f_equal. rewrite Rmult_1_r. field. Qed.

Lemma in_int64_true z :
  in_int64 z = true <-> (int64_min <= z <= int64_max)%Z.
Proof. unfold in_int64. rewrite andb_true_iff, !Z.leb_le. tauto. Qed.


Lemma in_int64_between (lo up z : Z) :
  in_int64 lo = true -> in_int64 up = true -> (lo <= z <= up)%Z ->
  in_int64 z = true.
Proof. rewrite !in_int64_true. lia. Qed.

(** Within 64 bits the cast of a rounded number is the rounding. *)
Lemma astype_int_round r :
  in_int64 (round_half_even r) = true ->
  astype_int (np_round (Fin r) 0) = round_half_even r.
Proof.
  intros H. rewrite np_round_0_Fin. unfold astype_int.
  now rewrite trunc_IZR, H.
Qed.

Lemma astype_int_IZR z :
  in_int64 z = true -> astype_int (np_round (Fin (IZR z)) 0) = z.
Proof.
  intros H. rewrite astype_int_round; rewrite round_half_even_IZR; done.
Qed.

(** ** Absence and sampling *)
Lemma Constant_init_value name value h :
  Constant.__init__ name value = Ok h ->
  Constant.value h = value /\ value <> PyNone.
Proof.
  unfold Constant.__init__. destruct value; simpl; intros [= <-]; done.
Qed.

(** C6: for every constructed hyperparameter, of whatever class, the
    transform of the NaN vector entry is [None] and the inverse transform of
    [None] is NaN. *)
Theorem absence_symmetry (hp : Hyperparameter) :
  constructed hp ->
  _transform hp NaN = Ok PyNone
  /\ _inverse_transform hp PyNone = Ok (PyFloat NaN).
Proof.
  intros Hc. split.
  - destruct hp; reflexivity.
  - destruct Hc as [name value h H| | | | | |]; try reflexivity.
    apply Constant_init_value in H as [Hv Hn]. simpl.
    unfold Constant._inverse_transform. rewrite Hv.
    destruct value; try done.
Qed.

Lemma absence_symmetry_witness :
  constructed (HConstant constant_v)
  /\ _transform (HConstant constant_v) NaN = Ok PyNone
  /\ _inverse_transform (HConstant constant_v) PyNone = Ok (PyFloat NaN).
Proof.
  assert (Hc : constructed (HConstant constant_v)).
  { apply (constructed_Constant "c" (PyStr "v")). reflexivity. }
  split; [exact Hc|]. exact (absence_symmetry _ Hc).
Defined.

(** C7: the vector that [UniformIntegerHyperparameter._sample] returns is
    the inverse transform of the transform of the raw draw of the inner
    float instance; so two draws that decode to the same integer give the
    same vector value. *)
Theorem UniformInteger_sample_collapses
    (self : UI.t)
    (rs1 rs2 : RandomState) (k1 k2 : nat) :
  UI._transform self (uniform rs1 k1)
  = UI._transform self (uniform rs2 k2) ->
  (UI._sample self rs1 k1).1
  = (UI._sample self rs2 k2).1
  /\ (UI._sample self rs1 k1).1
     = (v ← UI._transform self (uniform rs1 k1);
        UI._inverse_transform self v).
Proof.
  intros H. unfold UI._sample. simpl.
  rewrite H. done.
Qed.

(** ** Rejection loops of the integer classes *)
Section RejectionLoops.

Variable rs : RandomState.
Variable value : npfloat.

(** A draw is accepted only if it decodes to another integer. *)
Lemma NormalInteger_accepts_distinct (self : NI.t) fuel k iteration new_value k' :
  NI.reject_loop self value rs fuel k iteration = Done (new_value, k') ->
  exists a b, NI._transform self value = Ok a
              /\ NI._transform self new_value = Ok b
              /\ py_eqb a b = false.
Proof.
  revert k iteration. induction fuel as [|fuel IH]; intros k iteration; simpl; [discriminate|].
  destruct (NI._transform self value) as [a|e] eqn:Ea; simpl; [|discriminate].
  destruct (NI._transform self (normal rs k value (NI.sigma self))) as [b|e] eqn:Eb;
    simpl; [|discriminate].
  destruct (py_eqb a b) eqn:E; simpl.
  - destruct (100000 <? iteration + 1)%Z; [discriminate|]. apply IH.
  - intros [= <- <-]. eauto.
Qed.

(** The loop of the normal variant stops within 100001 passes. *)
Lemma NormalInteger_loop_capped (self : NI.t) fuel k iteration :
  (0 <= iteration <= 100000)%Z ->
  (100001 - iteration <= Z.of_nat fuel)%Z ->
  NI.reject_loop self value rs fuel k iteration <> OutOfFuel.
Proof.
  revert k iteration. induction fuel as [|fuel IH]; intros k iteration Hi Hf; simpl; [lia|].
  destruct (NI._transform self value) as [a|e]; simpl; [|discriminate].
  destruct (NI._transform self _) as [b|e]; simpl; [|discriminate].
  destruct (py_eqb a b); simpl; [|discriminate].
  destruct (100000 <? iteration + 1)%Z eqn:E; [discriminate|].
  apply Z.ltb_ge in E. apply IH; lia.
Qed.

(** When every candidate decodes to the integer of [value], the loop of the
    normal variant raises once its counter has passed 100000. *)
Lemma NormalInteger_loop_raises (self : NI.t) :
  (forall k, exists a b,
      NI._transform self value = Ok a
      /\ NI._transform self (normal rs k value (NI.sigma self)) = Ok b
      /\ py_eqb a b = true) ->
  forall fuel k iteration,
    (0 <= iteration <= 100000)%Z ->
    (100001 - iteration <= Z.of_nat fuel)%Z ->
    NI.reject_loop self value rs fuel k iteration = Fail ValueError.
Proof.
  intros H. induction fuel as [|fuel IH]; intros k iteration Hi Hf; simpl;
    [lia|].
  destruct (H k) as (a & b & -> & -> & E). simpl. rewrite E. simpl.
  destruct (100000 <? iteration + 1)%Z eqn:El; [done|].
  apply Z.ltb_ge in El. apply IH; lia.
Qed.

(** The loop of the uniform variant does not complete a pass: the call
    [np.min(1, draw)] that opens it raises. *)
Lemma UniformInteger_loop_raises (self : UI.t) fuel k iteration :
  UI.reject_loop self value rs (S fuel) k iteration = Fail TypeError.
Proof. reflexivity. Qed.

(** So the uniform variant returns the empty list when no neighbor is asked
    for, and raises otherwise. *)
Lemma UniformInteger_neighbors_unfold (self : UI.t) number transform fuel k :
  UI.get_neighbors self value rs number transform (S fuel) k
  = if (0 <? number)%Z then Fail TypeError else Done ([], k).
Proof.
  unfold UI.get_neighbors. cbn [UI.collect length].
  change (Z.of_nat 0) with 0%Z.
  destruct (0 <? number)%Z; [|done].
  now rewrite UniformInteger_loop_raises.
Qed.

End RejectionLoops.

(** C3 (the code departs from it):
    [NormalIntegerHyperparameter.get_neighbors] does what the claim says: a
    draw leaves the rejection loop only when it decodes to an integer other
    than that of the value, the loop stops by the pass after the 100000th,
    and when every draw decodes to the integer of the value it raises
    ValueError there.  [UniformIntegerHyperparameter.get_neighbors] does
    not: the first pass of its loop calls [np.min(1, draw)], which raises
    TypeError, so whenever a neighbor is asked for the call raises before
    any candidate is decoded, accepted or counted. *)
Theorem integer_neighbors_rejection_cap
    (rs : RandomState) (value : npfloat) (transform : bool) (number : Z)
    (ni : NI.t) (ui : UI.t) :
  (0 < number)%Z ->
  (forall fuel k new_value k',
     NI.reject_loop ni value rs fuel k 0 = Done (new_value, k') ->
     exists a b, NI._transform ni value = Ok a
                 /\ NI._transform ni new_value = Ok b
                 /\ py_eqb a b = false)
  /\ (forall fuel k, (100001 <= Z.of_nat fuel)%Z ->
     NI.reject_loop ni value rs fuel k 0 <> OutOfFuel)
  /\ ((forall k, exists a b,
        NI._transform ni value = Ok a
        /\ NI._transform ni (normal rs k value (NI.sigma ni)) = Ok b
        /\ py_eqb a b = true) ->
     forall fuel k, (100001 <= Z.of_nat fuel)%Z ->
       NI.reject_loop ni value rs fuel k 0 = Fail ValueError)
  /\ (forall fuel k,
     UI.get_neighbors ui value rs number transform (S fuel) k
     = Fail TypeError).
Proof.
  intros Hn. split; [|split; [|split]].
  - intros fuel k new_value k'. apply NormalInteger_accepts_distinct.
  - intros fuel k Hf. apply NormalInteger_loop_capped; lia.
  - intros H fuel k Hf. apply NormalInteger_loop_raises; auto; lia.
  - intros fuel k. rewrite UniformInteger_neighbors_unfold.
    apply Z.ltb_lt in Hn. now rewrite Hn.
Qed.

(** ** Ordinal neighbors *)
Lemma np_mod_1_IZR z : np_mod_1 (Fin (IZR z)) = Fin 0.
Proof. simpl. rewrite Int_part_IZR. f_equal. lra. Qed.

Lemma feqb_refl_Fin r : feqb (Fin r) (Fin r) = true.
Proof. simpl. now apply Reqb_true. Qed.

Lemma py_int_IZR z : py_int (Fin (IZR z)) = Ok z.
Proof. simpl. now rewrite trunc_IZR. Qed.

Lemma Ordinal_transform_index (self : Ord.t) (i : Z) :
  Ord._transform self (Fin (IZR i)) = getitem (Ord.sequence self) i.
Proof.
  unfold Ord._transform. rewrite feqb_refl_Fin, np_mod_1_IZR, feqb_refl_Fin.
  simpl. rewrite trunc_IZR. reflexivity.
Qed.

Lemma Ordinal_init_fields name sequence default self :
  Ord.__init__ name sequence default = Ok self ->
  Ord.sequence self = sequence
  /\ Ord._num_elements self = Z.of_nat (length sequence)
  /\ Ord.value_dict self = Ord.fill_value_dict sequence 1 [].
Proof.
  unfold Ord.__init__. destruct (Ord.check_default_in _ _); simpl; [|discriminate].
  intros [= <-]. done.
Qed.

(** C10: whenever the requested number is at least the length of the
    sequence, [OrdinalHyperparameter.get_neighbors] returns the empty list,
    whatever the value and [transform]; for a sequence of two elements
    (and the default number 2) that is so although [get_num_neighbors]
    answers 1 for each of its elements. *)
Theorem Ordinal_neighbors_gate (self : Ord.t) (v : pyval)
    (rs : RandomState) (number : Z) (transform : bool) :
  (Z.of_nat (length (Ord.sequence self)) <= number)%Z ->
  Ord.get_neighbors self v rs number transform = Ok []
  /\ (length (Ord.sequence self) = 2%nat ->
      Ord.get_neighbors self v rs 2 transform = Ok []
      /\ forall w, Ord.is_legal self w = true ->
                   Ord.get_num_neighbors self w = Ok 1%Z).
Proof.
  intros H.
  assert (G : forall n,
      (Z.of_nat (length (Ord.sequence self)) <= n)%Z ->
      Ord.get_neighbors self v rs n transform = Ok []).
  { intros n Hn. unfold Ord.get_neighbors.
    destruct (n <? _)%Z eqn:E; [|done]. apply Z.ltb_lt in E. lia. }
  split; [now apply G|].
  intros Hlen. split; [apply G; lia|].
  intros w. unfold Ord.is_legal,
    Ord.is_legal_in, Ord.get_num_neighbors.
  destruct (Ord.sequence self) as [|a [|b [|c l]]];
    try discriminate.
  simpl. rewrite orb_false_r. intros Hw.
  destruct (py_eqb w a) eqn:Ea; [done|]. simpl in Hw. now rewrite Hw.
Qed.

Lemma Ordinal_neighbors_gate_witness :
  Ord.__init__ "o" [PyStr "lo"; PyStr "hi"] None = Ok lo_hi
  /\ (Z.of_nat (length (Ord.sequence lo_hi)) <= 2)%Z
  /\ Ord.get_neighbors lo_hi (PyStr "lo") fixed_source 2
       false = Ok []
  /\ Ord.get_num_neighbors lo_hi (PyStr "lo") = Ok 1%Z
  /\ Ord.get_num_neighbors lo_hi (PyStr "hi") = Ok 1%Z.
Proof.
  assert (H : (Z.of_nat (length (Ord.sequence lo_hi))
               <= 2)%Z) by (simpl; lia).
  pose proof (Ordinal_neighbors_gate lo_hi (PyStr "lo") fixed_source 2 false
                H) as [H1 H2].
  destruct (H2 eq_refl) as [_ H3].
  split; [reflexivity|]. split; [exact H|]. split; [exact H1|].
  split; apply H3; reflexivity.
Defined.

Lemma pairwise_distinct_tail x l : pairwise_distinct (x :: l) -> pairwise_distinct l.
Proof. intros H i j a b Ha Hb Hn. apply (H (S i) (S j)); auto. Qed.

Lemma pairwise_distinct_head x l j y :
  pairwise_distinct (x :: l) -> l !! j = Some y -> py_eqb x y = false.
Proof. intros H Hy. apply (H 0%nat (S j)); auto. Qed.

Lemma dict_set_fresh {V} (d : pydict V) k (v : V) :
  (forall k' v', (k', v') ∈ d -> py_eqb k' k = false) ->
  dict_set d k v = d ++ [(k, v)].
Proof.
  induction d as [|[k' v'] d IH]; intros H; simpl; [done|].
  rewrite (H k' v') by left. rewrite IH; [done|].
  intros k2 v2 Hin. apply (H k2 v2). now right.
Qed.

Lemma fill_value_dict_distinct rest : forall c d,
  (forall k v x, (k, v) ∈ d -> x ∈ rest -> py_eqb k x = false) ->
  pairwise_distinct rest ->
  Ord.fill_value_dict rest c d = d ++ enum_from c rest.
Proof.
  induction rest as [|x rest IH]; intros c d Hd Hp; simpl.
  - now rewrite app_nil_r.
  - rewrite dict_set_fresh.
    2:{ intros k' v' Hin. apply (Hd k' v' x Hin). left. }
    rewrite IH.
    + now rewrite <- app_assoc.
    + intros k v y Hin Hy. apply elem_of_app in Hin as [Hin|Hin].
      * apply (Hd k v y Hin). now right.
      * apply list_elem_of_singleton in Hin as [= -> ->].
        apply list_elem_of_lookup in Hy as [j Hj].
        eapply pairwise_distinct_head; eauto.
    + eapply pairwise_distinct_tail; eauto.
Qed.

Lemma dict_get_enum_from l : forall (i : nat) c v,
  pairwise_distinct l -> l !! i = Some v -> py_eqb v v = true ->
  dict_get (enum_from c l) v = Ok (c + Z.of_nat i)%Z.
Proof.
  induction l as [|x l IH]; intros i c v Hp Hi Hv; [done|].
  destruct i as [|i]; simpl in *.
  - injection Hi as ->. rewrite Hv. f_equal. lia.
  - rewrite (pairwise_distinct_head _ _ _ _ Hp Hi).
    rewrite (IH i (c + 1)%Z v); eauto using pairwise_distinct_tail.
    f_equal. lia.
Qed.

Lemma list_index_distinct l : forall (i : nat) v,
  pairwise_distinct l -> l !! i = Some v -> py_eqb v v = true ->
  list_index l v = Ok (Z.of_nat i).
Proof.
  induction l as [|x l IH]; intros i v Hp Hi Hv; [done|].
  destruct i as [|i]; simpl in *.
  - injection Hi as ->. now rewrite Hv.
  - rewrite (pairwise_distinct_head _ _ _ _ Hp Hi).
    rewrite (IH i v); eauto using pairwise_distinct_tail.
    simpl. f_equal. lia.
Qed.

Lemma get_seq_order_head (self : Ord.t) :
  (0 < Ord._num_elements self)%Z -> getitem (Ord.get_seq_order self) 0 = Ok 1%Z.
Proof.
  intros H. unfold Ord.get_seq_order.
  destruct (Z.to_nat (Ord._num_elements self)) as [|n] eqn:E; [lia|].
  reflexivity.
Qed.

(** C5 (the code departs from it): for a constructed ordinal with distinct
    elements, a value [v] at the 0-based position [i] and a number below the
    length of the sequence, [get_neighbors] with [transform=False] returns
    the 1-based orders [i] and [i + 2] of the predecessor and the successor,
    while the vector encoding of [v] is [i]: the entries returned are not
    the encodings [i - 1] and [i + 1] of the neighbors. *)
Theorem Ordinal_neighbors_are_orders
    name (sequence : list pyval) default (self : Ord.t) (v : pyval) (i : nat)
    (rs : RandomState) (number : Z) :
  Ord.__init__ name sequence default = Ok self ->
  pairwise_distinct sequence ->
  sequence !! i = Some v ->
  py_eqb v v = true ->
  v <> PyNone ->
  (number < Z.of_nat (length sequence))%Z ->
  Ord._inverse_transform self v = Ok (PyInt (Z.of_nat i))
  /\ Ord.get_neighbors self v rs number false
     = Ok ((if (1 <=? Z.of_nat i)%Z then [PyInt (Z.of_nat i)] else [])
           ++ (if (Z.of_nat i + 2 <=? Z.of_nat (length sequence))%Z
               then [PyInt (Z.of_nat i + 2)] else [])).
Proof.
  intros Hi Hp Hv Hr Hnone Hn.
  apply Ordinal_init_fields in Hi as (Hs & Hlen & Hd).
  split.
  - unfold Ord._inverse_transform. rewrite Hs.
    rewrite (list_index_distinct _ _ _ Hp Hv Hr).
    destruct v; done.
  - unfold Ord.get_neighbors. rewrite Hs.
    apply Z.ltb_lt in Hn as Hn'. rewrite Hn'.
    unfold Ord.get_order. rewrite Hd.
    rewrite fill_value_dict_distinct; [|intros ? ? ? Hin; inversion Hin|done].
    simpl app. rewrite (dict_get_enum_from _ _ _ _ Hp Hv Hr). simpl.
    rewrite get_seq_order_head.
    2:{ rewrite Hlen. apply lookup_lt_Some in Hv. lia. }
    simpl. rewrite Hlen.
    replace (1 + Z.of_nat i - 1)%Z with (Z.of_nat i) by lia.
    replace (1 + Z.of_nat i + 1)%Z with (Z.of_nat i + 2)%Z by lia.
    assert ((Z.of_nat i <? 1 + Z.of_nat i)%Z = true) as -> by (apply Z.ltb_lt; lia).
    assert ((1 + Z.of_nat i <? Z.of_nat i + 2)%Z = true) as -> by (apply Z.ltb_lt; lia).
    simpl. destruct (1 <=? Z.of_nat i)%Z; destruct (_ <=? _)%Z; reflexivity.
Qed.

Lemma Ordinal_transform_of_returned_entries (self : Ord.t) :
  Ord.sequence self = [PyStr "a"; PyStr "b"; PyStr "c"] ->
  Ord._transform self (Fin 1) = Ok (PyStr "b")
  /\ Ord._transform self (Fin 3) = Raise IndexError.
Proof.
  intros H. rewrite !Ordinal_transform_index, H. done.
Qed.

Lemma Ordinal_neighbors_are_orders_witness :
  Ord.__init__ "o" [PyStr "a"; PyStr "b"; PyStr "c"] None
  = Ok ordinal_abc
  /\ Ord._inverse_transform ordinal_abc (PyStr "a")
     = Ok (PyInt 0)
  /\ Ord._inverse_transform ordinal_abc (PyStr "b")
     = Ok (PyInt 1)
  /\ Ord._inverse_transform ordinal_abc (PyStr "c")
     = Ok (PyInt 2)
  /\ Ord.get_neighbors ordinal_abc (PyStr "b") fixed_source
       2 false
     = Ok [PyInt 1; PyInt 3].
Proof.
  assert (Hi : Ord.__init__ "o"
                 [PyStr "a"; PyStr "b"; PyStr "c"] None = Ok ordinal_abc)
    by reflexivity.
  assert (Hp : pairwise_distinct [PyStr "a"; PyStr "b"; PyStr "c"]).
  { intros [|[|[|i]]] [|[|[|j]]] x y Hx Hy Hn; simpl in Hx, Hy;
      try discriminate; try lia;
      injection Hx as <-; injection Hy as <-; reflexivity. }
  pose proof (Ordinal_neighbors_are_orders "o"
                [PyStr "a"; PyStr "b"; PyStr "c"] None ordinal_abc
                (PyStr "b") 1
                fixed_source 2 Hi Hp eq_refl eq_refl
                ltac:(discriminate) ltac:(simpl; lia)) as [H1 H2].
  split; [exact Hi|]. split; [reflexivity|]. split; [exact H1|].
  split; [reflexivity|]. exact H2.
Defined.

(** ** Categorical neighbors *)
Lemma Categorical_transform_index (self : Cat.t) (i : Z) :
  Cat._transform self (Fin (IZR i)) = getitem (Cat.choices self) i.
Proof.
  unfold Cat._transform. simpl np_isfinite. rewrite np_mod_1_IZR, feqb_refl_Fin.
  simpl. rewrite trunc_IZR. reflexivity.
Qed.

Lemma getitem_nat {A} (l : list A) (j : nat) x :
  l !! j = Some x -> getitem l (Z.of_nat j) = Ok x.
Proof.
  intros H. unfold getitem. cbv zeta.
  assert (E : (Z.of_nat j <? 0)%Z = false) by (apply Z.ltb_ge; lia).
  rewrite !E, Nat2Z.id, H. reflexivity.
Qed.

Lemma encode_all_encoded (self : Cat.t) transform (j : nat) c :
  all_encoded self transform !! j = Some c ->
  Cat.encode self transform (Z.of_nat j) = Ok c.
Proof.
  unfold all_encoded, Cat.encode. destruct transform.
  - intros H. rewrite Categorical_transform_index. now apply getitem_nat.
  - intros H. rewrite list_lookup_fmap in H.
    destruct (seq 0 _ !! j) as [i|] eqn:E; [|discriminate].
    apply lookup_seq in E as [-> _]. simpl in H. injection H as <-.
    now rewrite INR_IZR_INZ.
Qed.

Lemma length_all_encoded self transform :
  length (all_encoded self transform) = length (Cat.choices self).
Proof. unfold all_encoded. destruct transform; [done|]. now rewrite length_map, length_seq. Qed.

Section Enumerate.
Variables (self : Cat.t) (value : pyval) (transform : bool) (index : Z).
Hypothesis Hindex : Builtins.int value = Ok index.

Lemma enumerate_loop_passed rest : forall (pos : nat) acc encs,
  length encs = length rest ->
  (forall (j : nat) c, encs !! j = Some c ->
      Cat.encode self transform (Z.of_nat (pos + j)) = Ok c) ->
  (index < Z.of_nat pos)%Z ->
  Cat.enumerate_loop self value transform rest (Z.of_nat pos) acc
  = Ok (acc ++ encs).
Proof.
  induction rest as [|x rest IH]; intros pos acc encs Hl He Hp.
  - destruct encs; [|done]. simpl. now rewrite app_nil_r.
  - destruct encs as [|c encs]; [done|]. simpl. rewrite Hindex. simpl.
    assert ((index =? Z.of_nat pos)%Z = false) as -> by (apply Z.eqb_neq; lia).
    pose proof (He 0%nat c eq_refl) as H0. rewrite Nat.add_0_r in H0.
    rewrite H0. simpl.
    replace (Z.of_nat pos + 1)%Z with (Z.of_nat (S pos)) by lia.
    rewrite (IH (S pos) (acc ++ [c]) encs).
    + now rewrite <- app_assoc.
    + simpl in Hl. lia.
    + intros j c' Hj. replace (S pos + j)%nat with (pos + S j)%nat by lia.
      now apply He.
    + lia.
Qed.

Lemma enumerate_loop_ahead rest : forall (pos : nat) acc encs,
  length encs = length rest ->
  (forall (j : nat) c, encs !! j = Some c ->
      Cat.encode self transform (Z.of_nat (pos + j)) = Ok c) ->
  (Z.of_nat pos <= index)%Z ->
  Cat.enumerate_loop self value transform rest (Z.of_nat pos) acc
  = Ok (acc ++ delete (Z.to_nat index - pos)%nat encs).
Proof.
  induction rest as [|x rest IH]; intros pos acc encs Hl He Hp.
  - destruct encs; [|done]. simpl. now rewrite app_nil_r.
  - destruct encs as [|c encs]; [done|]. simpl Cat.enumerate_loop.
    rewrite Hindex. simpl.
    assert (Hlen : length encs = length rest) by (simpl in Hl; lia).
    assert (He' : forall (j : nat) c', encs !! j = Some c' ->
              Cat.encode self transform (Z.of_nat (S pos + j)) = Ok c').
    { intros j c' Hj. replace (S pos + j)%nat with (pos + S j)%nat by lia.
      now apply He. }
    replace (Z.of_nat pos + 1)%Z with (Z.of_nat (S pos)) by lia.
    destruct (index =? Z.of_nat pos)%Z eqn:E.
    + apply Z.eqb_eq in E.
      replace (Z.to_nat index - pos)%nat with 0%nat by lia. simpl.
      apply enumerate_loop_passed; auto. lia.
    + apply Z.eqb_neq in E.
      pose proof (He 0%nat c eq_refl) as H0. rewrite Nat.add_0_r in H0.
      rewrite H0. simpl.
      rewrite (IH (S pos) (acc ++ [c]) encs); auto; [|lia].
      rewrite <- app_assoc. simpl.
      replace (Z.to_nat index - pos)%nat with (S (Z.to_nat index - S pos)) by lia.
      reflexivity.
Qed.

End Enumerate.

Lemma Categorical_enumerates (self : Cat.t) value rs number transform index fuel k :
  Builtins.int value = Ok index -> (0 <= index)%Z ->
  fltb number (Fin (INR (length (Cat.choices self)))) = false ->
  Cat.get_neighbors self value rs number transform fuel k
  = Done (delete (Z.to_nat index) (all_encoded self transform), k).
Proof.
  intros Hi H0 Hn. unfold Cat.get_neighbors. rewrite Hn.
  change 0%Z with (Z.of_nat 0).
  rewrite (enumerate_loop_ahead self value transform index Hi
             (Cat.choices self) 0 [] (all_encoded self transform)).
  - simpl. now rewrite Nat.sub_0_r.
  - apply length_all_encoded.
  - intros j c Hj. now apply encode_all_encoded.
  - simpl. lia.
Qed.

Section Sampling.
Variables (self : Cat.t) (value : pyval) (rs : RandomState)
          (number : npfloat) (transform : bool) (index : Z).
Hypothesis Hindex : Builtins.int value = Ok index.

Local Abbreviation draw k := (randint rs k 0 (Cat._num_choices self)).
Local Abbreviation sample_loop := (Cat.sample_loop self value rs number transform).
Local Abbreviation reject_loop := (Cat.reject_loop self rs).

Lemma sample_loop_unfold fuel inner nb k :
  sample_loop fuel inner nb k
  = if fltb (Fin (INR (length nb))) number then
      match fuel with
      | O => OutOfFuel
      | S fuel' =>
          index ← lift (Builtins.int value);
          '(neighbor_idx, k) ← reject_loop inner index k;
          candidate ← lift (Cat.encode self transform neighbor_idx);
          if py_in candidate nb
          then sample_loop fuel' inner nb k
          else sample_loop fuel' inner (nb ++ [candidate]) k
      end
    else Done (nb, k).
Proof. destruct fuel; reflexivity. Qed.

Lemma reject_loop_complete j : forall inner k,
  (forall j', (j' < j)%nat -> draw (k + j') = index) ->
  draw (k + j) <> index ->
  (j < inner)%nat ->
  reject_loop inner index k = Done (draw (k + j), S (k + j)).
Proof.
  induction j as [|j IH]; intros inner k Hb Hd Hi;
    (destruct inner as [|inner]; [lia|]); simpl.
  - rewrite Nat.add_0_r in *. apply Z.eqb_neq in Hd. now rewrite Hd.
  - pose proof (Hb 0%nat ltac:(lia)) as H0. rewrite Nat.add_0_r in H0.
    apply Z.eqb_eq in H0. rewrite H0. simpl.
    rewrite <- Nat.add_succ_comm in *. apply IH; [|done|lia].
    intros j' Hj. rewrite Nat.add_succ_comm. apply Hb. lia.
Qed.

Lemma reject_loop_sound inner : forall k ni k2,
  reject_loop inner index k = Done (ni, k2) ->
  exists j, (j < inner)%nat /\ k2 = S (k + j) /\ ni = draw (k + j)
     /\ draw (k + j) <> index
     /\ forall j', (j' < j)%nat -> draw (k + j') = index.
Proof.
  induction inner as [|inner IH]; intros k ni k2 H; [discriminate|].
  simpl in H. destruct (draw k =? index)%Z eqn:E; simpl in H.
  - apply IH in H as (j & Hi & -> & -> & Hd & Hb).
    exists (S j). rewrite <- !Nat.add_succ_comm.
    repeat split; auto; [lia|].
    intros [|j'] Hj; [rewrite Nat.add_0_r; now apply Z.eqb_eq|].
    rewrite <- Nat.add_succ_comm. apply Hb. lia.
  - injection H as <- <-. apply Z.eqb_neq in E.
    exists 0%nat. rewrite Nat.add_0_r. repeat split; auto; [lia|]. intros; lia.
Qed.

(** Enough fuel for the draws that are needed gives the result. *)
Lemma sample_loop_complete m k nb res :
  draws_to self rs number transform index m k nb res ->
  forall fuel inner, (m <= fuel)%nat -> (m <= inner)%nat ->
  sample_loop fuel inner nb k = Done res.
Proof.
  induction 1 as [k nb Hc | m j k nb c res Hc Hb Hd He _ IH];
    intros fuel inner Hf Hi; rewrite sample_loop_unfold, Hc; [done|].
  destruct fuel as [|fuel]; [lia|].
  rewrite Hindex. simpl.
  rewrite (reject_loop_complete j) by (auto; lia). simpl.
  rewrite He. simpl.
  destruct (py_in c nb); apply IH; lia.
Qed.

(** What the loop returns, it has drawn. *)
Lemma sample_loop_sound fuel : forall inner k nb res,
  sample_loop fuel inner nb k = Done res ->
  exists m, draws_to self rs number transform index m k nb res.
Proof.
  induction fuel as [|fuel IH]; intros inner k nb res;
    rewrite sample_loop_unfold;
    destruct (fltb (Fin (INR (length nb))) number) eqn:Hc;
    try discriminate.
  - intros [= <-]. exists 0%nat. now constructor.
  - rewrite Hindex. simpl.
    destruct (reject_loop inner index k) as [[ni k2]| |] eqn:Er; try discriminate.
    simpl. apply reject_loop_sound in Er as (j & _ & -> & -> & Hd & Hb).
    destruct (Cat.encode self transform _) as [c|] eqn:He; try discriminate.
    simpl. intros H.
    assert (exists m, draws_to self rs number transform index m (S (k + j))
                        (if py_in c nb then nb else nb ++ [c]) res) as [m Hm].
    { destruct (py_in c nb); eapply IH; eauto. }
    exists (S (m + j)). econstructor; eauto.
  - intros [= <-]. exists 0%nat. now constructor.
Qed.

End Sampling.

Lemma Reqb_sym a b : Reqb a b = Reqb b a.
Proof. unfold Reqb. destruct (Req_dec_T a b), (Req_dec_T b a); congruence. Qed.

Lemma feqb_sym x y : feqb x y = feqb y x.
Proof. destruct x, y; simpl; auto using Reqb_sym. Qed.

Lemma py_eqb_sym v w : py_eqb v w = py_eqb w v.
Proof.
  unfold py_eqb. destruct (py_num v) eqn:Ev, (py_num w) eqn:Ew; auto using feqb_sym.
  destruct v, w; try done. apply String.eqb_sym.
Qed.

Lemma py_in_false c l :
  py_in c l = false <-> forall x, x ∈ l -> py_eqb c x = false.
Proof.
  unfold py_in. induction l as [|y l IH]; simpl.
  - split; [|done]. intros _ x Hx. inversion Hx.
  - rewrite orb_false_iff, IH. split.
    + intros [H1 H2] x Hx. inversion Hx; subst; auto.
    + intros H. split; [apply H; left|]. intros x Hx. apply H. now right.
Qed.

Lemma pairwise_distinct_snoc l c :
  pairwise_distinct l -> py_in c l = false -> pairwise_distinct (l ++ [c]).
Proof.
  intros Hp Hc i j x y Hi Hj Hn.
  rewrite py_in_false in Hc.
  destruct (decide (i < length l)%nat) as [Hil|Hil];
    destruct (decide (j < length l)%nat) as [Hjl|Hjl].
  - rewrite lookup_app_l in Hi, Hj by done. eapply Hp; eauto.
  - rewrite lookup_app_l in Hi by done.
    rewrite lookup_app_r in Hj by lia.
    destruct (j - length l)%nat; [|done]. injection Hj as <-.
    rewrite py_eqb_sym. apply Hc. eapply list_elem_of_lookup_2; eauto.
  - rewrite lookup_app_l in Hj by done.
    rewrite lookup_app_r in Hi by lia.
    destruct (i - length l)%nat eqn:E; [|done]. injection Hi as <-.
    apply Hc. eapply list_elem_of_lookup_2; eauto.
  - rewrite lookup_app_r in Hi, Hj by lia.
    destruct (i - length l)%nat eqn:Ei; [|done].
    destruct (j - length l)%nat eqn:Ej; [|done]. lia.
Qed.

Section Collected.
Variables (self : Cat.t) (rs : RandomState) (number : npfloat)
          (transform : bool) (index : Z).

Local Abbreviation draw k := (randint rs k 0 (Cat._num_choices self)).

Lemma draws_to_collected m k nb res :
  draws_to self rs number transform index m k nb res ->
  pairwise_distinct nb -> Forall (drawn_other self rs transform index) nb ->
  fltb (Fin (INR (length res.1))) number = false
  /\ pairwise_distinct res.1 /\ Forall (drawn_other self rs transform index) res.1
  /\ (length nb <= length res.1)%nat
  /\ (k + m = res.2)%nat
  /\ forall n : nat, number = Fin (INR n) -> (length nb <= n)%nat ->
                     length res.1 = n.
Proof.
  induction 1 as [k nb Hc | m j k nb c res Hc Hb Hd He _ IH]; intros Hp Hf.
  - simpl. repeat split; auto.
    intros n -> Hn. simpl in Hc. unfold Rltb in Hc.
    destruct (Rlt_dec _ _) as [|Hge]; [discriminate|].
    apply Rnot_lt_le, INR_le in Hge. lia.
  - destruct (py_in c nb) eqn:Hin.
    + destruct (IH Hp Hf) as (H1 & H2 & H3 & H4 & H5 & H6).
      repeat split; auto. lia.
    + destruct IH as (H1 & H2 & H3 & H4 & H5 & H6).
      * now apply pairwise_distinct_snoc.
      * apply Forall_app. split; [done|]. constructor; [|done].
        exists (k + j)%nat. done.
      * rewrite length_app in H4. simpl in H4.
        repeat split; auto; try lia.
        intros n Hn Hl. apply H6; [done|]. rewrite length_app. simpl.
        subst number. simpl in Hc. apply Rltb_true, INR_lt in Hc. lia.
Qed.

End Collected.

(** C4 (amended): with [index] the integer of the value passed in, when the
    requested number is not below the number of choices,
    [CategoricalHyperparameter.get_neighbors] returns all choices but the
    one at [index], in sequence order, without consulting the random
    source; when the number is below the number of choices, it returns
    what the draws deliver: whenever [m] draws suffice, fuel [m] gives the
    result, and every result consists of pairwise different encodings of
    drawn indices other than [index], as many as requested. *)
Theorem Categorical_neighbors (self : Cat.t) (value : pyval) (index : Z)
    (rs : RandomState) (number : npfloat) (transform : bool) :
  Builtins.int value = Ok index ->
  (0 <= index)%Z ->
  (fltb number (Fin (INR (length (Cat.choices self)))) = false ->
   forall fuel k,
     Cat.get_neighbors self value rs number transform fuel k
     = Done (delete (Z.to_nat index) (all_encoded self transform), k))
  /\ (fltb number (Fin (INR (length (Cat.choices self)))) = true ->
      (forall m k res,
         draws_to self rs number transform index m k [] res ->
         forall fuel, (m <= fuel)%nat ->
           Cat.get_neighbors self value rs number transform fuel k = Done res)
      /\ (forall fuel k l k',
         Cat.get_neighbors self value rs number transform fuel k
         = Done (l, k') ->
         (exists m, draws_to self rs number transform index m k [] (l, k'))
         /\ pairwise_distinct l
         /\ Forall (drawn_other self rs transform index) l
         /\ forall n : nat, number = Fin (INR n) -> length l = n)).
Proof.
  intros Hi H0. split.
  - intros Hn fuel k. now apply Categorical_enumerates.
  - intros Hn. unfold Cat.get_neighbors. rewrite Hn. split.
    + intros m k res Hd fuel Hf.
      eapply sample_loop_complete; eauto.
    + intros fuel k l k' H.
      destruct (sample_loop_sound self value rs number transform index Hi
                  _ _ _ _ _ H) as [m Hm].
      split; [eauto|].
      destruct (draws_to_collected _ _ _ _ _ _ _ _ _ Hm) as (_ & H2 & H3 & _ & _ & H6).
      * intros i j x y Hx. inversion Hx.
      * constructor.
      * repeat split; auto. intros n Hnum. apply H6; [done|]. simpl.
        subst number. simpl in Hn. lia.
Qed.

Lemma abc_constructed :
  Cat.__init__ "c" [PyStr "a"; PyStr "b"; PyStr "c"] None = Ok abc.
Proof. reflexivity. Qed.

Lemma fltb_ge (a b : R) : b <= a -> fltb (Fin a) (Fin b) = false.
Proof. intros H. simpl. unfold Rltb. destruct (Rlt_dec a b); [lra|done]. Qed.

(** In particular: choices "a", "b", "c", the index 0 of "a", count 5 and
    [transform=True] give "b" and "c". *)
Lemma Categorical_neighbors_witness :
  Builtins.int (PyInt 0) = Ok 0%Z
  /\ (0 <= 0)%Z
  /\ fltb (Fin 5) (Fin (INR (length (Cat.choices abc))))
     = false
  /\ Cat.get_neighbors abc (PyInt 0) fixed_source
       (Fin 5) true 0 0
     = Done ([PyStr "b"; PyStr "c"], 0%nat).
Proof.
  assert (H : fltb (Fin 5)
                (Fin (INR (length (Cat.choices abc))))
              = false) by (apply fltb_ge; simpl; lra).
  split; [reflexivity|]. split; [lia|]. split; [exact H|].
  exact (proj1 (Categorical_neighbors abc (PyInt 0) 0 fixed_source (Fin 5)
                  true eq_refl (Z.le_refl 0)) H 0%nat 0%nat).
Defined.

(** The value "a" itself is not an index: [int("a")] raises. *)
Lemma Categorical_neighbors_of_a_choice :
  Cat.get_neighbors abc (PyStr "a") fixed_source
    (Fin 5) true 0 0 = Fail ValueError.
Proof.
  unfold Cat.get_neighbors.
  assert (fltb (Fin 5)
            (Fin (INR (length (Cat.choices abc))))
          = false) as -> by (apply fltb_ge; simpl; lra).
  reflexivity.
Qed.

(** C4 as stated fails: with three choices and count 2, the number of
    other choices, the result follows the draws (index 2, then index 1)
    and not the sequence order. *)
Lemma Categorical_neighbors_counterexample :
  fltb (Fin 2) (Fin (INR (length (Cat.choices abc) - 1))) = false
  /\ Cat.get_neighbors abc (PyInt 0) fixed_source (Fin 2) false 2 0
     = Done ([PyFloat (Fin 2); PyFloat (Fin 1)], 2%nat)
  /\ [PyFloat (Fin 2); PyFloat (Fin 1)]
     <> delete 0%nat (all_encoded abc false).
Proof.
  split; [apply fltb_ge; simpl; lra|]. split.
  - assert (Hn : fltb (Fin 2)
                   (Fin (INR (length (Cat.choices abc))))
                 = true) by (apply Rltb_true; simpl; lra).
    unfold Cat.get_neighbors. rewrite Hn.
    apply (sample_loop_complete abc (PyInt 0) fixed_source (Fin 2) false 0
             eq_refl 2); [|lia|lia].
    apply (draws_step _ _ _ _ _ 1 0 0 [] (PyFloat (Fin 2))).
    + apply Rltb_true. simpl. lra.
    + intros j' Hj. lia.
    + simpl. lia.
    + reflexivity.
    + simpl.
      apply (draws_step _ _ _ _ _ 0 0 1 _ (PyFloat (Fin 1))).
      * apply Rltb_true. simpl. lra.
      * intros j' Hj. lia.
      * simpl. lia.
      * reflexivity.
      * assert (py_in (PyFloat (Fin 1)) [PyFloat (Fin 2)] = false) as ->.
        { unfold py_in, py_eqb. simpl. unfold Reqb.
          destruct (Req_dec_T 1 2); [lra|done]. }
        apply draws_done. simpl. unfold Rltb.
        destruct (Rlt_dec _ _); [lra|done].
  - simpl. intros [= H _]. lra.
Qed.

(** ** Round trip *)
Lemma fsub_Fin a b : fsub (Fin a) (Fin b) = Fin (a - b).
Proof. unfold fsub. simpl. f_equal. Qed.

Lemma fdiv_Fin a b : b <> 0 -> fdiv (Fin a) (Fin b) = Fin (a / b).
Proof. intros H. simpl. destruct (Req_dec_T b 0); [done|reflexivity]. Qed.

Lemma py_div_Fin a b : b <> 0 -> py_div (Fin a) (Fin b) = Ok (Fin (a / b)).
Proof.
  intros H. unfold py_div. simpl feqb. unfold Reqb.
  destruct (Req_dec_T b 0); [done|]. now rewrite fdiv_Fin.
Qed.

Lemma np_log_pos x : 0 < x -> np_log (Fin x) = Fin (ln x).
Proof. intros H. simpl. destruct (Rlt_dec 0 x); [done|lra]. Qed.


Lemma py_eqb_int_num v z :
  py_num v = Some (Fin (IZR z)) -> py_eqb (PyInt z) v = true.
Proof.
  intros H. unfold py_eqb. rewrite H. simpl. now apply Reqb_true.
Qed.

Lemma py_num_not_None v x : py_num v = Some x -> v <> PyNone.
Proof. destruct v; done. Qed.

(** quantization: the nearest multiple of [q] *)
Lemma quantize_Fin x q :
  q <> 0 ->
  (n ← py_int (np_round (fdiv (Fin x) (Fin q)) 0);
   Ok (fmul (Fin (IZR n)) (Fin q)))
  = Ok (Fin (IZR (round_half_even (x / q)) * q)).
Proof.
  intros H. rewrite fdiv_Fin by done. rewrite np_round_0_Fin.
  simpl. now rewrite trunc_IZR.
Qed.


Lemma UniformFloat_init_inv name lo up d q lg h :
  UF.__init__ name lo up d q lg = Ok h ->
  lo < up /\ (lg = true -> 0 < lo)
  /\ UF.lower h = lo /\ UF.upper h = up /\ UF.q h = q /\ UF.log h = lg
  /\ UF._lower h
     = (let lo' := match q with Some q => lo - (q / 2 - 0.0001) | None => lo end in
        if lg then np_log (Fin lo') else Fin lo')
  /\ UF._upper h
     = (let up' := match q with Some q => up + (q / 2 - 0.0001) | None => up end in
        if lg then np_log (Fin up') else Fin up').
Proof.
  unfold UF.__init__.
  destruct (Rleb up lo) eqn:E1; [discriminate|].
  destruct (lg && Rleb lo 0) eqn:E2; [discriminate|].
  destruct (check_default_uniformfloat d up lo lg); simpl; [|discriminate].
  assert (lo < up).
  { destruct (Rlt_le_dec lo up); [done|]. apply Rleb_true in r. congruence. }
  assert (lg = true -> 0 < lo).
  { intros ->. simpl in E2. destruct (Rlt_le_dec 0 lo); [done|].
    apply Rleb_true in r. congruence. }
  destruct lg, q; simpl; intros [= <-]; simpl; auto 10.
Qed.



Lemma snap_quantize q y :
  (forall q0, q = Some q0 -> q0 <> 0) ->
  match q with
  | Some q =>
      n ← py_int (np_round (fdiv (Fin y) (Fin q)) 0);
      Ok (fmul (Fin (IZR n)) (Fin q))
  | None => Ok (Fin y)
  end = Ok (Fin (snap q y)).
Proof.
  intros H. destruct q as [q|]; [|done]. apply quantize_Fin. now apply H.
Qed.

Lemma UniformFloat_transform_Fin (h : UF.t) (r a b : R) :
  UF._lower h = Fin a -> UF._upper h = Fin b ->
  (forall q0, UF.q h = Some q0 -> q0 <> 0) ->
  UF._transform h (Fin r)
  = Ok (PyFloat (Fin (snap (UF.q h)
                        (if UF.log h then exp (r * (b - a) + a)
                         else r * (b - a) + a)))).
Proof.
  intros Ha Hb Hq. unfold UF._transform. rewrite Ha, Hb, fsub_Fin.
  cbn [np_isnan fmul fadd].
  destruct (UF.log h); cbn [np_exp]; rewrite snap_quantize by done; done.
Qed.

Lemma UniformFloat_inverse_Fin (h : UF.t) (v : pyval) (x a b : R) :
  py_num v = Some (Fin x) ->
  UF._lower h = Fin a -> UF._upper h = Fin b -> a <> b ->
  (UF.log h = true -> 0 < x) ->
  UF._inverse_transform h v
  = Ok (PyFloat (Fin (((if UF.log h then ln x else x) - a) / (b - a)))).
Proof.
  intros Hx Ha Hb Hab Hpos. unfold UF._inverse_transform.
  rewrite Hx, Ha, Hb.
  destruct v; try discriminate; cbv iota.
  all: destruct (UF.log h).
  all: rewrite ?np_log_pos by auto.
  all: rewrite !fsub_Fin, ?fdiv_Fin, ?py_div_Fin by lra; done.
Qed.

Lemma unit_interval_back (lg : bool) (x a b : R) :
  a <> b -> (lg = true -> 0 < x) ->
  (if lg
   then exp (((if lg then ln x else x) - a) / (b - a) * (b - a) + a)
   else ((if lg then ln x else x) - a) / (b - a) * (b - a) + a) = x.
Proof.
  intros Hab Hpos. destruct lg.
  - rewrite <- (exp_ln x) at 2 by auto. f_equal. field. lra.
  - field. lra.
Qed.




(** *** Normal float *)

Lemma NormalFloat_init_inv name mu sigma d q lg h :
  NF.__init__ name mu sigma d q lg = Ok h ->
  NF.q h = q /\ NF.log h = lg.
Proof.
  unfold NF.__init__. destruct (check_default_normalfloat d mu); simpl;
    [|discriminate]. now intros [= <-].
Qed.

Lemma NormalFloat_transform_Fin (h : NF.t) (r : R) :
  (forall q0, NF.q h = Some q0 -> q0 <> 0) ->
  NF._transform h (Fin r)
  = Ok (PyFloat (Fin (snap (NF.q h) (if NF.log h then exp r else r)))).
Proof.
  intros Hq. unfold NF._transform. cbn [np_isnan].
  destruct (NF.log h); cbn [np_exp]; rewrite snap_quantize by done; done.
Qed.




(** *** Integers *)

Lemma isinstance_int_num v :
  isinstance_int v = true -> exists z, py_num v = Some (Fin (IZR z)).
Proof.
  destruct v as [|b|z| |]; try discriminate; intros _.
  - exists (if b then 1 else 0)%Z. simpl. now destruct b.
  - now exists z.
Qed.

Lemma legal_uniforminteger_num v up lo :
  is_legal_uniforminteger v (IZR up) (IZR lo) = true ->
  exists z, py_num v = Some (Fin (IZR z)) /\ (lo <= z <= up)%Z.
Proof.
  intros H.
  apply is_legal_uniforminteger_iff in H as (Hi & x & Hx & Hlo & Hup).
  apply isinstance_int_num in Hi as (z & Hz). rewrite Hz in Hx.
  injection Hx as <-. exists z. split; [done|]. split.
  - destruct (Z_lt_le_dec z lo) as [Hlt|]; [|done].
    assert (IZR z <= IZR lo - 1) by (rewrite <- minus_IZR; apply IZR_le; lia).
    lra.
  - now apply le_IZR.
Qed.

Lemma UniformInteger_init_inv name lo up d q lg h :
  UI.__init__ name lo up d q lg = Ok h ->
  (lo < up)%Z /\ (lg = true -> 0 < lo)%Z
  /\ UI.lower h = lo /\ UI.upper h = up /\ UI.q h = None /\ UI.log h = lg
  /\ exists d', UF.__init__ name (IZR lo - 0.49999) (IZR up + 0.49999)
                  (Some d') None lg = Ok (UI.ufhp h).
Proof.
  unfold UI.__init__. simpl.
  assert (Eq : match q with
               | Some q0 => if (q0 <? 1)%Z then None
                            else IntegerHyperparameter.check_int q0 "q"
               | None => None
               end = None).
  { destruct q as [q0|]; [|done]. now destruct (q0 <? 1)%Z. }
  rewrite Eq. clear Eq.
  destruct d as [d0|]; simpl.
  all: destruct (up <=? lo)%Z eqn:E1; [discriminate|].
  all: destruct (lg && (lo <=? 0)%Z) eqn:E2; [discriminate|].
  all: destruct (check_default_uniforminteger _ up lo lg) as [d1|]; simpl;
       [|discriminate].
  all: destruct (UF.__init__ _ _ _ _ _ _) as [u|] eqn:Eu; simpl; [|discriminate].
  all: intros [= <-]; simpl.
  all: apply Z.leb_gt in E1.
  all: repeat split; auto; [|eauto].
  all: intros ->; simpl in E2; now apply Z.leb_gt in E2.
Qed.




(** *** Constant, categorical, ordinal *)








(** ** Examples of the numeric classes *)
Lemma np_round_IZR z d : np_round (Fin (IZR z)) d = Fin (IZR z).
Proof.
  simpl. f_equal.
  assert (E : 10 ^ d = IZR (10 ^ Z.of_nat d)) by now rewrite <- pow_IZR.
  rewrite E, <- mult_IZR, round_half_even_IZR, mult_IZR.
  field. rewrite <- E. apply pow_nonzero. lra.
Qed.

Lemma fleb_Fin_true a b : a <= b -> fleb (Fin a) (Fin b) = true.
Proof. apply fleb_Fin. Qed.

Lemma zero_to_ten_constructed :
  UI.__init__ "x" 0 10 None None false = Ok zero_to_ten.
Proof.
  unfold UI.__init__. simpl check_int. cbn [mbind result_bind Py.bind].
  simpl Z.leb. cbv iota. simpl andb. cbv iota.
  assert (E1 : check_default_uniforminteger None 10 0 false = Ok 5%Z).
  { unfold check_default_uniforminteger.
    replace ((IZR 0 + IZR 10) / 2) with (IZR 5) by lra.
    rewrite np_round_IZR. simpl py_int. rewrite trunc_IZR.
    cbn [mbind result_bind Py.bind].
    unfold is_legal_uniforminteger. simpl.
    rewrite !fleb_Fin_true by lra. reflexivity. }
  rewrite E1. cbn [mbind result_bind Py.bind].
  assert (E2 : UF.__init__ "x" (IZR 0 - 0.49999) (IZR 10 + 0.49999)
                 (Some (IZR 5)) (option_map IZR None) false
               = Ok (UI.ufhp zero_to_ten)).
  { unfold UF.__init__.
    assert (Rleb (10 + 0.49999) (0 - 0.49999) = false) as ->.
    { unfold Rleb. destruct (Rle_dec _ _); [lra|done]. }
    simpl andb. cbv iota.
    unfold check_default_uniformfloat. rewrite np_round_IZR.
    unfold is_legal_uniformfloat. simpl.
    rewrite !fleb_Fin_true by lra. reflexivity. }
  rewrite E2. reflexivity.
Qed.

Lemma standard_normal_integer_constructed :
  NI.__init__ "n" 0 1 None None false = Ok standard_normal_integer.
Proof. reflexivity. Qed.

Lemma zero_to_ten_decodes (r : R) (z : Z) :
  in_int64 z = true ->
  IZR z - 1 / 2 < r * (10 + 0.49999 - (0 - 0.49999)) + (0 - 0.49999)
                < IZR z + 1 / 2 ->
  UI._transform zero_to_ten (Fin r) = Ok (PyInt z).
Proof.
  intros Hz H. unfold UI._transform. cbn [np_isnan].
  rewrite (UniformFloat_transform_Fin _ r (0 - 0.49999) (10 + 0.49999))
    by (try reflexivity; simpl; discriminate).
  simpl UF.q. simpl UF.log. cbn [snap mbind result_bind Py.bind UI.q zero_to_ten].
  rewrite astype_int_round; rewrite (round_half_even_unique _ z); done.
Qed.

Lemma UniformInteger_sample_collapses_witness :
  UI._transform zero_to_ten (uniform fixed_source 0)
  = UI._transform zero_to_ten (uniform fixed_source 1)
  /\ (UI._sample zero_to_ten fixed_source 0).1
     = (UI._sample zero_to_ten fixed_source 1).1.
Proof.
  assert (H : UI._transform zero_to_ten (uniform fixed_source 0)
              = UI._transform zero_to_ten (uniform fixed_source 1)).
  { simpl uniform. rewrite (zero_to_ten_decodes 0.5 5) by (done || lra).
    rewrite (zero_to_ten_decodes 0.52 5) by (done || lra). reflexivity. }
  split; [exact H|].
  exact (proj1 (UniformInteger_sample_collapses zero_to_ten fixed_source
                  fixed_source 0 1 H)).
Defined.

Lemma integer_neighbors_rejection_cap_witness :
  (0 < 1)%Z
  /\ UI.get_neighbors zero_to_ten (Fin 0.5) fixed_source 1 false 1 0
     = Fail TypeError
  /\ NI.reject_loop standard_normal_integer (Fin 0) fixed_source
       (Z.to_nat 100001) 0 0 = Fail ValueError.
Proof.
  assert (Hn : (0 < 1)%Z) by lia.
  assert (Hd : forall k : nat, exists a b,
      NI._transform standard_normal_integer (Fin 0) = Ok a
      /\ NI._transform standard_normal_integer
           (normal fixed_source k (Fin 0)
              (NI.sigma standard_normal_integer)) = Ok b
      /\ py_eqb a b = true).
  { intros k. exists (PyInt 0), (PyInt 0).
    assert (E : NI._transform standard_normal_integer (Fin 0)
                = Ok (PyInt 0)).
    { unfold NI._transform. cbn [np_isnan].
      rewrite NormalFloat_transform_Fin by (simpl; discriminate).
      cbn [standard_normal_integer NI.nfhp NF.q NF.log snap mbind
           result_bind Py.bind].
      now rewrite (astype_int_IZR 0). }
    split; [exact E|]. split; [exact E|].
    apply py_eqb_int_num. reflexivity. }
  destruct (integer_neighbors_rejection_cap fixed_source (Fin 0.5) false 1
              standard_normal_integer zero_to_ten Hn) as (_ & _ & _ & Hu).
  destruct (integer_neighbors_rejection_cap fixed_source (Fin 0) false 1
              standard_normal_integer zero_to_ten Hn) as (_ & _ & Hr & _).
  split; [exact Hn|]. split; [exact (Hu 0%nat 0%nat)|].
  apply (Hr Hd). rewrite Z2Nat.id; lia.
Defined.


(** ** Configuration: writes *)
Lemma Reqb_IZR a b : Reqb (IZR a) (IZR b) = (a =? b)%Z.
Proof.
  unfold Reqb. destruct (Req_dec_T _ _) as [E|E].
  - apply eq_IZR in E. subst. now rewrite Z.eqb_refl.
  - symmetry. apply Z.eqb_neq. intros ->. done.
Qed.

Lemma py_eqb_int_int a b : py_eqb (PyInt a) (PyInt b) = (a =? b)%Z.
Proof. apply Reqb_IZR. Qed.

Lemma py_eqb_float_int a b :
  py_eqb (PyFloat (Fin (IZR a))) (PyInt b) = (a =? b)%Z.
Proof. apply Reqb_IZR. Qed.

Lemma py_eqb_int_float a b :
  py_eqb (PyInt a) (PyFloat (Fin (IZR b))) = (a =? b)%Z.
Proof. apply Reqb_IZR. Qed.

(** The other conditions of the amended round trip are needed as well: NaN
    is a legal value of a normal float and comes back as [None]; with the
    step 0.0001 on the range from 0 to 0.0001 the widened bounds coincide
    and the encoding divides by zero. *)
Lemma np_round_exact (r : R) (d : nat) (z : Z) :
  r * 10 ^ d = IZR z -> np_round (Fin r) d = Fin r.
Proof.
  intros H. simpl. rewrite H, round_half_even_IZR, <- H. f_equal.
  field. apply pow_nonzero. lra.
Qed.

Lemma narrow_constructed :
  UF.__init__ "x" 0 0.0001 None (Some 0.0001) false
  = Ok narrow.
Proof.
  unfold UF.__init__.
  assert (Rleb 0.0001 0 = false) as ->.
  { unfold Rleb. destruct (Rle_dec _ _); [lra|done]. }
  simpl andb. cbv iota.
  unfold check_default_uniformfloat.
  rewrite (np_round_exact _ 10 500000) by (simpl; lra).
  replace ((0 + 0.0001) / 2) with 0.00005 by lra.
  unfold is_legal_uniformfloat. simpl.
  rewrite !fleb_Fin_true by lra. reflexivity.
Qed.

Lemma round_trip_outside_scale :
  (legal (HNormalFloat standard_normal) (PyFloat NaN) = true
   /\ round_trip (HNormalFloat standard_normal) (PyFloat NaN) = Ok PyNone)
  /\ (constructed (HUniformFloat narrow)
      /\ legal (HUniformFloat narrow) (PyFloat (Fin 0.00005)) = true
      /\ round_trip (HUniformFloat narrow) (PyFloat (Fin 0.00005))
         = Raise ZeroDivisionError).
Proof.
  split; [split; reflexivity|].
  split; [eapply constructed_UniformFloat, narrow_constructed|].
  split.
  - simpl. unfold is_legal_uniformfloat. simpl.
    rewrite !fleb_Fin_true by lra. reflexivity.
  - unfold round_trip. simpl.
    unfold UF._inverse_transform.
    cbn [py_num narrow UF.log
         UF._lower UF._upper].
    unfold py_div. cbn [feqb].
    assert (Reqb (0.0001 + (0.0001 / 2 - 0.0001)
                  + - (0 - (0.0001 / 2 - 0.0001))) 0 = true) as ->
      by (apply Reqb_true; lra).
    reflexivity.
Qed.

Arguments py_eqb : simpl never.

Ltac eval_py :=
  repeat (progress (cbn;
                    unfold Cat.is_legal, Cat.is_legal_in, py_in;
                    rewrite ?py_eqb_int_int, ?py_eqb_float_int,
                            ?py_eqb_int_float)).

Ltac run_M_step :=
  unfold mbind, mret, Cfg.M_bind, Cfg.M_ret, Cfg.mbind, Cfg.get_self,
    Cfg.get_heap, Cfg.liftR, Cfg.ret, Cfg.raise, Cfg.get_array,
    Cfg.copy_array, Cfg.write_array, Cfg.set_vector, Cfg.set_values,
    Cfg.alloc;
  cbn beta iota zeta delta [fst snd].

Ltac run_M := repeat (progress run_M_step).

(** C9: when [__setitem__] raises, for an unknown key, an illegal value or
    a vector that the collaborators refuse, the configuration object is
    the one before the call, with the same cache and the same reference to
    its vector, and every array that existed before the call, the vector
    of the configuration among them, has its content unchanged. *)
Theorem setitem_failure_leaves_state (C : Cfg.Collaborators)
    (key : string) (value : pyval) (h h' : Cfg.heap)
    (self self' : Cfg.t) (e : exn) :
  Cfg.__setitem__ C key value (h, self) = (Raise e, (h', self')) ->
  self' = self
  /\ (forall l, (l < length h)%nat -> h' !! l = h !! l)
  /\ ((Cfg._vector self < length h)%nat ->
      Cfg.array_at h' (Cfg._vector self')
      = Cfg.array_at h (Cfg._vector self)).
Proof.
  intros H.
  assert (G : self' = self /\ forall l, (l < length h)%nat -> h' !! l = h !! l).
  { revert H. unfold Cfg.__setitem__. run_M.
    destruct (Cfg.cs_getitem _ key) as [param|e1];
      [|intros [= <- <- <-]; done].
    destruct (negb (Cfg.legal_value param value));
      [intros [= <- <- <-]; done|].
    destruct (Cfg.cs_index_of _ key) as [idx|e1];
      [|intros [= <- <- <-]; done].
    destruct (Cfg.to_vector param value) as [x|e1];
      [|intros [= <- <- <-]; done].
    destruct (vector_entry x) as [vector_value|e1];
      [|intros [= <- <- <-]; done].
    destruct (Cfg.change_hp_value C _ _ _ _ _) as [new_array|e1].
    2:{ intros [= <- <- <-]. split; [done|]. intros l Hl.
        now rewrite lookup_app_l. }
    destruct (Cfg.check_configuration C _ _ _) as [[]|e1].
    2:{ intros [= <- <- <-]. split; [done|]. intros l Hl.
        rewrite list_lookup_insert_ne by lia. now rewrite lookup_app_l. }
    discriminate. }
  destruct G as [-> G]. split; [done|]. split; [exact G|].
  intros Hv. unfold Cfg.array_at. now rewrite G.
Qed.

(** A valid value, a validation that refuses: the copy is written, the
    configuration and its vector are not. *)
Lemma setitem_failure_leaves_state_witness :
  Cfg.__setitem__ refusing "c" (PyInt 2) ([[Fin 0]], config_int)
  = (Raise ValueError, ([[Fin 0]; [Fin 1]], config_int))
  /\ Cfg.array_at [[Fin 0]; [Fin 1]]
       (Cfg._vector config_int)
     = Cfg.array_at [[Fin 0]] (Cfg._vector config_int).
Proof.
  assert (H : Cfg.__setitem__ refusing "c" (PyInt 2)
                ([[Fin 0]], config_int)
              = (Raise ValueError, ([[Fin 0]; [Fin 1]], config_int))).
  { unfold Cfg.__setitem__. run_M. eval_py. reflexivity. }
  split; [exact H|].
  exact (proj2 (proj2 (setitem_failure_leaves_state refusing "c" (PyInt 2)
                         [[Fin 0]] [[Fin 0]; [Fin 1]] config_int config_int
                         ValueError H))
           ltac:(simpl; lia)).
Defined.

(** A write that succeeds installs the new array and empties the cache. *)
Lemma setitem_success (C : Cfg.Collaborators) (key : string)
    (value : pyval) (h h' : Cfg.heap) (self self' : Cfg.t) :
  Cfg.__setitem__ C key value (h, self) = (Ok (), (h', self')) ->
  Cfg._values self' = None /\ Cfg._vector self' = length h
  /\ Cfg.check_configuration C (Cfg.config_space self)
       (Cfg.array_at h' (Cfg._vector self')) false = Ok ().
Proof.
  unfold Cfg.__setitem__. run_M.
  destruct (Cfg.cs_getitem _ key) as [param|e1]; [|discriminate].
  destruct (negb (Cfg.legal_value param value)); [discriminate|].
  destruct (Cfg.cs_index_of _ key) as [idx|e1]; [|discriminate].
  destruct (Cfg.to_vector param value) as [x|e1]; [|discriminate].
  destruct (vector_entry x) as [vector_value|e1]; [|discriminate].
  destruct (Cfg.change_hp_value C _ _ _ _ _) as [new_array|e1]; [|discriminate].
  destruct (Cfg.check_configuration C _ _ _) as [[]|e1] eqn:E; [|discriminate].
  intros [= <- <-]. simpl. auto.
Qed.

(** ** Configuration: equality and hash *)
Lemma one_two_constructed :
  Cat.__init__ "c" [PyInt 1; PyInt 2] None = Ok one_two.
Proof. reflexivity. Qed.

Section EqHash.
Variables (rf : npfloat -> string) (hs : string -> Z).

Lemma init_int :
  Cfg.__init__ (unconditional rf hs) space_c (Some [("c", PyInt 1)]) None
               false None None []
  = (Ok config_int, [[Fin 0]]).
Proof.
  unfold Cfg.__init__, Cfg.alloc. unfold Cfg.init_loop, space_c.
  unfold Cfg.is_valid_configuration, Cfg.vector_setitem. run_M.
  eval_py. reflexivity.
Qed.

Lemma init_float :
  Cfg.__init__ (unconditional rf hs) space_c (Some [("c", PyFloat (Fin 1))])
               None false None None [[Fin 0]]
  = (Ok config_float, [[Fin 0]; [Fin 0]]).
Proof.
  unfold Cfg.__init__, Cfg.alloc. unfold Cfg.init_loop, space_c.
  unfold Cfg.is_valid_configuration, Cfg.vector_setitem. run_M.
  eval_py. reflexivity.
Qed.

Lemma dict_int :
  Cfg.dict_of_self ([[Fin 0]; [Fin 0]], config_int)
  = (Ok [("c", PyInt 1)], ([[Fin 0]; [Fin 0]], config_int)).
Proof.
  unfold Cfg.dict_of_self, Cfg.dict_loop, Cfg.__getitem__, Cfg.vector_getitem.
  run_M. reflexivity.
Qed.

Lemma dict_float :
  Cfg.dict_of_self ([[Fin 0]; [Fin 0]], config_float)
  = (Ok [("c", PyFloat (Fin 1))], ([[Fin 0]; [Fin 0]], config_float)).
Proof.
  unfold Cfg.dict_of_self, Cfg.dict_loop, Cfg.__getitem__, Cfg.vector_getitem.
  run_M. reflexivity.
Qed.

Lemma eq_int_float :
  (Cfg.__eq__ (unconditional rf hs) [[Fin 0]; [Fin 0]] config_int config_float).1
  = Ok true.
Proof.
  unfold Cfg.__eq__. rewrite dict_int, dict_float. eval_py. reflexivity.
Qed.

Lemma repr_of_int :
  (Cfg.__repr__ (unconditional rf hs) ([[Fin 0]; [Fin 0]], config_int)).1
  = Ok repr_int.
Proof.
  unfold Cfg.__repr__.
  change (Cfg.dict_of_self ≫= ?k) with (Cfg.mbind Cfg.dict_of_self k).
  unfold Cfg.mbind. rewrite dict_int. reflexivity.
Qed.

Lemma repr_of_float :
  rf (Fin 1) = "1.0" ->
  (Cfg.__repr__ (unconditional rf hs) ([[Fin 0]; [Fin 0]], config_float)).1
  = Ok repr_float_one.
Proof.
  intros H. unfold Cfg.__repr__.
  change (Cfg.dict_of_self ≫= ?k) with (Cfg.mbind Cfg.dict_of_self k).
  unfold Cfg.mbind. rewrite dict_float. simpl. rewrite H. reflexivity.
Qed.

End EqHash.

(** [__eq__] answers with the comparison of the two value dictionaries and
    of the two owning spaces; the vectors are read for the dictionaries
    only. *)
Lemma eq_compares_values_and_space (C : Cfg.Collaborators)
    (h : Cfg.heap) (self other : Cfg.t) (b : bool) st :
  Cfg.__eq__ C h self other = (Ok b, st) ->
  exists d1 d2 s1 s2,
    Cfg.dict_of_self (h, self) = (Ok d1, s1)
    /\ Cfg.dict_of_self (s1.1, other) = (Ok d2, s2)
    /\ b = Cfg.dict_eqb d1 d2
            && Cfg.cs_eqb C (Cfg.config_space s1.2)
                 (Cfg.config_space s2.2).
Proof.
  unfold Cfg.__eq__.
  destruct (Cfg.dict_of_self (h, self)) as [[d1|e1] [h1 self1]];
    [|discriminate].
  destruct (Cfg.dict_of_self (h1, other)) as [[d2|e2] [h2 other2]]
    eqn:E; [|discriminate].
  intros [= <- <-]. exists d1, d2, (h1, self1), (h2, other2). done.
Qed.

(** C8 (the code departs from it): two configurations of one space, built
    from the value mappings with 1 and with 1.0 for the same categorical
    hyperparameter, are equal for [__eq__], as their dictionaries and
    their space are; their [__repr__] texts differ ("1" and "1.0"), and
    [__hash__], the hash of that text, differs with them for every string
    hash that tells the two texts apart. *)
Theorem equal_configurations_hash_apart
    (rf : npfloat -> string) (hs : string -> Z) :
  rf (Fin 1) = "1.0" ->
  hs repr_int <> hs repr_float_one ->
  let C := unconditional rf hs in
  let h := [[Fin 0]; [Fin 0]] in
  Cfg.__init__ C space_c (Some [("c", PyInt 1)]) None false None None []
  = (Ok config_int, [[Fin 0]])
  /\ Cfg.__init__ C space_c (Some [("c", PyFloat (Fin 1))]) None false None
                  None [[Fin 0]]
     = (Ok config_float, h)
  /\ (Cfg.__eq__ C h config_int config_float).1 = Ok true
  /\ exists n m,
       (Cfg.__hash__ C (h, config_int)).1 = Ok n
       /\ (Cfg.__hash__ C (h, config_float)).1 = Ok m
       /\ n <> m.
Proof.
  intros Hrf Hhs C h. split; [apply init_int|]. split; [apply init_float|].
  split; [apply eq_int_float|].
  exists (hs repr_int), (hs repr_float_one).
  pose proof (repr_of_int rf hs) as H1.
  pose proof (repr_of_float rf hs Hrf) as H2.
  unfold Cfg.__hash__.
  change (Cfg.__repr__ ?c ≫= ?k) with (Cfg.mbind (Cfg.__repr__ c) k).
  unfold Cfg.mbind. fold C h in H1, H2.
  destruct (Cfg.__repr__ C (h, config_int)) as [[r1|] s1]; simpl in H1; [|discriminate].
  destruct (Cfg.__repr__ C (h, config_float)) as [[r2|] s2]; simpl in H2; [|discriminate].
  injection H1 as ->. injection H2 as ->. simpl. auto.
Qed.

Lemma equal_configurations_hash_apart_witness :
  repr_float_stub (Fin 1%R) = "1.0"
  /\ length_hash repr_int <> length_hash repr_float_one
  /\ (Cfg.__eq__ (unconditional repr_float_stub length_hash)
        [[Fin 0]; [Fin 0]] config_int config_float).1 = Ok true
  /\ (Cfg.__hash__ (unconditional repr_float_stub length_hash)
        ([[Fin 0]; [Fin 0]], config_int)).1
     <> (Cfg.__hash__ (unconditional repr_float_stub length_hash)
          ([[Fin 0]; [Fin 0]], config_float)).1.
Proof.
  assert (H1 : repr_float_stub (Fin 1%R) = "1.0") by reflexivity.
  assert (H2 : length_hash repr_int <> length_hash repr_float_one)
    by (vm_compute; discriminate).
  destruct (equal_configurations_hash_apart repr_float_stub length_hash H1 H2)
    as (_ & _ & H3 & n & m & Hn & Hm & Hnm).
  split; [exact H1|]. split; [exact H2|]. split; [exact H3|].
  rewrite Hn, Hm. intros [= E]. exact (Hnm E).
Defined.

(** * Part II, continued: further properties of the code

    The proofs are in exact arithmetic.  Where the outcome that a
    statement promises (an object is returned, a value is legal, an answer
    is True) rests on a margin of the code, such as the 0.49999 by which
    the integer bounds are widened or the 1e-10 of the legality test, the
    statement is restricted to bounds for which the rounding errors of
    doubles stay well below that margin; the restriction is a hypothesis
    of the statement even though the proof does not use it. *)

(** ** Module level checks and constructors *)

Lemma trunc_below (z : Z) (e : R) :
  (0 < z)%Z -> 0 < e <= 1 -> trunc (IZR z - e) = (z - 1)%Z.
Proof.
  intros Hz He. unfold trunc.
  assert (1 <= IZR z) by (apply IZR_le; lia).
  destruct (Rle_dec 0 (IZR z - e)); [|lra].
  apply Int_part_unique. rewrite minus_IZR. lra.
Qed.

Lemma check_int_float r name :
  check_int (PyFloat (Fin r)) name
  = if fltb (Fin 0.00000001) (Fin (Rabs (IZR (trunc r) - r)))
    then Raise ValueError else Ok (trunc r).
Proof. unfold check_int. simpl. rewrite Rminus_def. reflexivity. Qed.

(** X1: [check_int] returns a parameter of type int unchanged; of a finite
    float it returns the truncation toward zero when the float lies within
    1e-8 of that truncation, and raises ValueError otherwise.  So, for a
    positive integer [z], a float up to 1e-8 above [z] is accepted as [z],
    and a float up to 1e-8 below [z] is refused. *)
Theorem check_int_accepts (name : string) :
  (forall z : Z, check_int (PyInt z) name = Ok z)
  /\ (forall (r : R) (n : Z),
        check_int (PyFloat (Fin r)) name = Ok n
        <-> n = trunc r /\ Rabs (IZR n - r) <= 0.00000001)
  /\ (forall r : R,
        0.00000001 < Rabs (IZR (trunc r) - r) ->
        check_int (PyFloat (Fin r)) name = Raise ValueError)
  /\ (forall (z : Z) (e : R),
        (0 < z)%Z -> 0 < e <= 0.00000001 ->
        check_int (PyFloat (Fin (IZR z + e))) name = Ok z
        /\ check_int (PyFloat (Fin (IZR z - e))) name = Raise ValueError).
Proof.
  split; [done|]. split; [|split].
  - intros r n. rewrite check_int_float. simpl. unfold Rltb.
    destruct (Rlt_dec _ _) as [H|H]; split.
    + discriminate.
    + intros [-> H']. lra.
    + intros [= <-]. split; [done|lra].
    + intros [-> _]. done.
  - intros r H. rewrite check_int_float. simpl. unfold Rltb.
    destruct (Rlt_dec _ _); [done|lra].
  - intros z e Hz He.
    assert (1 <= IZR z) by (apply IZR_le; lia).
    rewrite !check_int_float. simpl. unfold Rltb. split.
    + assert (E : trunc (IZR z + e) = z).
      { unfold trunc. destruct (Rle_dec 0 (IZR z + e)); [|lra].
        apply Int_part_unique. lra. }
      rewrite E. destruct (Rlt_dec _ _) as [H'|H']; [|done].
      rewrite Rabs_left in H' by lra. lra.
    + rewrite trunc_below by (auto; lra). rewrite minus_IZR.
      destruct (Rlt_dec _ _) as [H'|H']; [done|].
      exfalso. apply H'. rewrite Rabs_left by lra. lra.
Qed.

Lemma round_half_even_between (lo up : Z) (m : R) :
  IZR lo <= m <= IZR up -> (lo <= round_half_even m <= up)%Z.
Proof.
  intros [H1 H2]. pose proof (round_half_even_near m) as H.
  apply Rabs_le_inv in H.
  assert (IZR lo - 1 < IZR (round_half_even m)) by lra.
  assert (IZR (round_half_even m) < IZR up + 1) by lra.
  rewrite <- minus_IZR in H0. rewrite <- plus_IZR in H3.
  apply lt_IZR in H0, H3. lia.
Qed.

Lemma is_legal_uniforminteger_int (z up lo : Z) :
  is_legal_uniforminteger (PyInt z) (IZR up) (IZR lo) = true
  <-> (lo <= z <= up)%Z.
Proof.
  split.
  - intros H. apply legal_uniforminteger_num in H as (z' & Hz & H).
    simpl in Hz. injection Hz as Hz. apply eq_IZR in Hz. lia.
  - intros [H1 H2]. apply is_legal_uniforminteger_iff. split; [done|].
    exists (IZR z). split; [done|]. apply IZR_le in H1, H2. lra.
Qed.

Lemma geometric_mean_between (lo up : R) :
  0 < lo -> lo < up -> lo <= exp ((ln lo + ln up) / 2) <= up.
Proof.
  intros H0 H. assert (Hl : ln lo < ln up) by (apply ln_increasing; lra).
  rewrite <- (exp_ln lo) at 1 by lra. rewrite <- (exp_ln up) at 3 by lra.
  split.
  - destruct (Req_dec (ln lo) ((ln lo + ln up) / 2)) as [<-|]; [lra|].
    left. apply exp_increasing. lra.
  - left. apply exp_increasing. lra.
Qed.

(** the default that the module level check computes *)
Lemma check_default_uniforminteger_None (lo up : Z) (lg : bool) :
  (lo < up)%Z -> (lg = true -> (0 < lo)%Z) ->
  exists n, check_default_uniforminteger None up lo lg = Ok n
            /\ (lo <= n <= up)%Z
            /\ (lg = false -> n = round_half_even ((IZR lo + IZR up) / 2)).
Proof.
  intros H Hlg. unfold check_default_uniforminteger.
  assert (Hr : IZR lo < IZR up) by now apply IZR_lt.
  assert (exists m, (if lg
            then np_exp (fdiv (fadd (np_log (Fin (IZR lo))) (np_log (Fin (IZR up))))
                   (Fin 2))
            else Fin ((IZR lo + IZR up) / 2)) = Fin m
            /\ IZR lo <= m <= IZR up
            /\ (lg = false -> m = (IZR lo + IZR up) / 2)) as (m & -> & Hm & Hmid).
  { destruct lg.
    - assert (0 < IZR lo) by (apply IZR_lt; auto).
      rewrite !np_log_pos by lra. cbn [fadd]. rewrite fdiv_Fin by lra.
      eexists. split; [reflexivity|]. split; [|done].
      apply geometric_mean_between; lra.
    - eexists. split; [reflexivity|]. split; [lra|done]. }
  rewrite np_round_0_Fin. simpl py_int. rewrite trunc_IZR.
  cbn [mbind result_bind Py.bind].
  pose proof (round_half_even_between lo up m Hm) as Hb.
  rewrite (proj2 (is_legal_uniforminteger_int _ _ _) Hb).
  eexists. split; [reflexivity|]. split; [done|]. intros E. now rewrite Hmid.
Qed.

Lemma check_default_uniforminteger_Some (d lo up : Z) (lg : bool) :
  check_default_uniforminteger (Some d) up lo lg
  = if is_legal_uniforminteger (PyInt d) (IZR up) (IZR lo)
    then Ok d else Raise ValueError.
Proof.
  unfold check_default_uniforminteger. rewrite np_round_0_Fin.
  simpl py_int. rewrite trunc_IZR, round_half_even_IZR. reflexivity.
Qed.

Lemma UniformFloat_init_integer name (lo up n : Z) (lg : bool) :
  (lo < up)%Z -> (lg = true -> (0 < lo)%Z) -> (lo <= n <= up)%Z ->
  exists u, UF.__init__ name (IZR lo - 0.49999) (IZR up + 0.49999)
              (Some (IZR n)) None lg = Ok u.
Proof.
  intros H Hlg Hn. unfold UF.__init__.
  assert (Hr : IZR lo < IZR up) by now apply IZR_lt.
  assert (Rleb (IZR up + 0.49999) (IZR lo - 0.49999) = false) as ->.
  { unfold Rleb. destruct (Rle_dec _ _); [lra|done]. }
  assert (lg && Rleb (IZR lo - 0.49999) 0 = false) as ->.
  { destruct lg; [|done]. simpl. unfold Rleb.
    destruct (Rle_dec _ _); [|done].
    assert (1 <= IZR lo) by (apply IZR_le; specialize (Hlg eq_refl); lia). lra. }
  unfold check_default_uniformfloat. rewrite np_round_IZR.
  assert (is_legal_uniformfloat (PyFloat (Fin (IZR n))) (IZR up + 0.49999)
            (IZR lo - 0.49999) = true) as ->.
  { apply is_legal_uniformfloat_iff. exists (IZR n). split; [done|].
    destruct Hn as [H1 H2]. apply IZR_le in H1, H2. lra. }
  cbn [mbind result_bind Py.bind]. destruct lg; eexists; reflexivity.
Qed.

Lemma UniformInteger_init_unfold name lo up d q lg :
  UI.__init__ name lo up d q lg
  = if (up <=? lo)%Z then Raise ValueError
    else if lg && (lo <=? 0)%Z then Raise ValueError
    else
      default ← check_default_uniforminteger d up lo lg;
      ufhp ← UF.__init__ name (IZR lo - 0.49999) (IZR up + 0.49999)
               (Some (IZR default)) None lg;
      Ok {| UI.name := name; UI.lower := lo; UI.upper := up; UI.q := None;
            UI.log := lg; UI.default := default; UI.ufhp := ufhp |}.
Proof.
  unfold UI.__init__. simpl check_int. cbn [mbind result_bind Py.bind].
  assert (Eq : match q with
               | Some q0 => if (q0 <? 1)%Z then None
                            else IntegerHyperparameter.check_int q0 "q"
               | None => None
               end = None).
  { destruct q as [q0|]; [|done]. now destruct (q0 <? 1)%Z. }
  rewrite Eq. destruct d; reflexivity.
Qed.

Lemma UniformInteger_init_spec
    (name : string) (lo up : Z) (d q : option Z) (lg : bool) :
  ((exists h, UI.__init__ name lo up d q lg = Ok h)
   <-> (lo < up)%Z /\ (lg = true -> (0 < lo)%Z)
       /\ forall d0, d = Some d0 -> (lo <= d0 <= up)%Z)
  /\ (forall e, UI.__init__ name lo up d q lg = Raise e -> e = ValueError)
  /\ (forall h, UI.__init__ name lo up d q lg = Ok h ->
        UI.lower h = lo /\ UI.upper h = up
        /\ (lo <= UI.default h <= up)%Z
        /\ (forall d0, d = Some d0 -> UI.default h = d0)
        /\ (d = None -> lg = false ->
            UI.default h = round_half_even ((IZR lo + IZR up) / 2))).
Proof.
  rewrite UniformInteger_init_unfold.
  destruct (up <=? lo)%Z eqn:E1.
  { apply Z.leb_le in E1. split; [|split].
    - split; [intros [h ?]; discriminate|]. intros (? & _). lia.
    - now intros e [= <-].
    - discriminate. }
  apply Z.leb_gt in E1.
  destruct (lg && (lo <=? 0)%Z) eqn:E2.
  { apply andb_true_iff in E2 as [-> E2]. apply Z.leb_le in E2.
    split; [|split].
    - split; [intros [h ?]; discriminate|]. intros (_ & H & _).
      specialize (H eq_refl). lia.
    - now intros e [= <-].
    - discriminate. }
  assert (Hlg : lg = true -> (0 < lo)%Z).
  { intros ->. simpl in E2. now apply Z.leb_gt in E2. }
  destruct d as [d0|].
  - rewrite check_default_uniforminteger_Some.
    destruct (is_legal_uniforminteger _ _ _) eqn:El.
    + apply is_legal_uniforminteger_int in El.
      destruct (UniformFloat_init_integer name lo up d0 lg E1 Hlg El)
        as [u Hu].
      cbn [mbind result_bind Py.bind]. rewrite Hu.
      cbn [mbind result_bind Py.bind]. split; [|split].
      * split; [|eauto]. intros _. split; [done|]. split; [done|].
        intros ? [= <-]. lia.
      * discriminate.
      * intros h [= <-]. simpl.
        split; [done|]. split; [done|]. split; [lia|].
        split; [now intros ? [= <-]|discriminate].
    + cbn [mbind result_bind Py.bind]. split; [|split].
      * split; [intros [h ?]; discriminate|]. intros (_ & _ & H).
        specialize (H d0 eq_refl).
        apply is_legal_uniforminteger_int in H. congruence.
      * now intros e [= <-].
      * discriminate.
  - destruct (check_default_uniforminteger_None lo up lg E1 Hlg)
      as (n & -> & Hn & Hmid).
    destruct (UniformFloat_init_integer name lo up n lg E1 Hlg Hn) as [u Hu].
    cbn [mbind result_bind Py.bind]. rewrite Hu.
    cbn [mbind result_bind Py.bind]. split; [|split].
    + split; [|eauto]. intros _. split; [done|]. split; [done|].
      discriminate.
    + discriminate.
    + intros h [= <-]. simpl.
      split; [done|]. split; [done|]. split; [lia|].
      split; [discriminate|auto].
Qed.

(** X2: for integer bounds of at most a million either way (and a
    default, when one is given, of 64 bits), the constructor of
    [UniformIntegerHyperparameter] returns an object exactly when the lower
    bound is below the upper one, is positive on a log scale, and a given
    default lies within the bounds; every failure is a ValueError.  The
    object has the bounds given and a default within them: the given one,
    or, without one and off the log scale, the midpoint rounded half to
    even. *)
Theorem UniformInteger_init_succeeds
    (name : string) (lo up : Z) (d q : option Z) (lg : bool) :
  (- 1000000 <= lo)%Z -> (up <= 1000000)%Z ->
  (forall d0, d = Some d0 -> in_int64 d0 = true) ->
  ((exists h, UI.__init__ name lo up d q lg = Ok h)
   <-> (lo < up)%Z /\ (lg = true -> (0 < lo)%Z)
       /\ forall d0, d = Some d0 -> (lo <= d0 <= up)%Z)
  /\ (forall e, UI.__init__ name lo up d q lg = Raise e -> e = ValueError)
  /\ (forall h, UI.__init__ name lo up d q lg = Ok h ->
        UI.lower h = lo /\ UI.upper h = up
        /\ (lo <= UI.default h <= up)%Z
        /\ (forall d0, d = Some d0 -> UI.default h = d0)
        /\ (d = None -> lg = false ->
            UI.default h = round_half_even ((IZR lo + IZR up) / 2))).
Proof. intros _ _ _. apply UniformInteger_init_spec. Qed.

Lemma UniformInteger_init_succeeds_witness :
  (- 1000000 <= 0)%Z /\ (10 <= 1000000)%Z
  /\ (forall d0, @None Z = Some d0 -> in_int64 d0 = true)
  /\ exists h, UI.__init__ "x" 0 10 None None false = Ok h.
Proof.
  assert (H1 : (- 1000000 <= 0)%Z) by lia.
  assert (H2 : (10 <= 1000000)%Z) by lia.
  assert (H3 : forall d0, @None Z = Some d0 -> in_int64 d0 = true)
    by discriminate.
  split; [exact H1|]. split; [exact H2|]. split; [exact H3|].
  apply (proj1 (UniformInteger_init_succeeds "x" 0 10 None None false
                  H1 H2 H3)).
  split; [lia|]. split; [discriminate|discriminate].
Defined.

Lemma pow10_pos d : 0 < 10 ^ d.
Proof. apply pow_lt. lra. Qed.

Lemma np_round_near (r : R) (d : nat) :
  exists x, np_round (Fin r) d = Fin x /\ Rabs (x - r) <= 1 / 2 / 10 ^ d.
Proof.
  eexists. split; [reflexivity|].
  pose proof (pow10_pos d) as Hp.
  pose proof (round_half_even_near (r * 10 ^ d)) as H.
  apply Rabs_le_inv in H. apply Rabs_le.
  assert (E : r = r * 10 ^ d / 10 ^ d) by (field; lra).
  rewrite E at 2 4.
  unfold Rdiv at 1 3 4 5. 
  assert (Hi : 0 < / 10 ^ d) by now apply Rinv_0_lt_compat.
  split; nra.
Qed.

Lemma pow10_10 : 10 ^ 10 = 10000000000.
Proof. simpl. lra. Qed.

Lemma UniformFloat_init_midpoint_ok
    (name : string) (lo up : R) (q : option R) :
  lo + 0.0000000001 <= up ->
  exists h x,
    UF.__init__ name lo up None q false = Ok h
    /\ UF.default h = Fin x
    /\ Rabs (x - (lo + up) / 2) <= 0.00000000005
    /\ lo <= x <= up.
Proof.
  intros H. unfold UF.__init__.
  assert (Rleb up lo = false) as ->.
  { unfold Rleb. destruct (Rle_dec _ _); [lra|done]. }
  simpl andb. cbv iota. unfold check_default_uniformfloat.
  destruct (np_round_near ((lo + up) / 2) 10) as (x & -> & Hx).
  rewrite pow10_10 in Hx.
  assert (Hx' : Rabs (x - (lo + up) / 2) <= 0.00000000005) by lra.
  pose proof (Rabs_le_inv _ _ Hx') as Hb.
  assert (is_legal_uniformfloat (PyFloat (Fin x)) up lo = true) as ->.
  { apply is_legal_uniformfloat_iff. exists x. split; [done|]. lra. }
  cbn [mbind result_bind Py.bind].
  destruct q; eexists _, x; (split; [reflexivity|]); simpl;
    (split; [done|]); (split; [done|lra]).
Qed.

(** X3: for bounds between -1000 and 1000 that lie at least 1e-9 apart,
    [UniformFloatHyperparameter(name, lower, upper)] without a default and
    off the log scale succeeds for every [q]; its default lies within the
    bounds and no further than 1e-10 from the midpoint. *)
Theorem UniformFloat_init_midpoint
    (name : string) (lo up : R) (q : option R) :
  - 1000 <= lo -> up <= 1000 ->
  lo + 0.000000001 <= up ->
  exists h x,
    UF.__init__ name lo up None q false = Ok h
    /\ UF.default h = Fin x
    /\ Rabs (x - (lo + up) / 2) <= 0.0000000001
    /\ lo <= x <= up.
Proof.
  intros _ _ H.
  destruct (UniformFloat_init_midpoint_ok name lo up q ltac:(lra))
    as (h & x & H1 & H2 & H3 & H4).
  exists h, x. split; [done|]. split; [done|]. split; [lra|done].
Qed.

Lemma UniformFloat_init_midpoint_witness :
  - 1000 <= 0 /\ 1 <= 1000 /\ 0 + 0.000000001 <= 1
  /\ exists h x,
       UF.__init__ "x" 0 1 None None false = Ok h
       /\ UF.default h = Fin x
       /\ Rabs (x - (0 + 1) / 2) <= 0.0000000001
       /\ 0 <= x <= 1.
Proof.
  assert (H1 : - 1000 <= 0) by lra.
  assert (H2 : 1 <= 1000) by lra.
  assert (H : 0 + 0.000000001 <= 1) by lra.
  split; [exact H1|]. split; [exact H2|]. split; [exact H|].
  exact (UniformFloat_init_midpoint "x" 0 1 None H1 H2 H).
Defined.

(** a range narrower than the rounding of the default *)
Lemma UniformFloat_init_narrow name :
  UF.__init__ name 0.00000000006 0.00000000008 None None false
  = Raise ValueError.
Proof.
  unfold UF.__init__.
  assert (Rleb 0.00000000008 0.00000000006 = false) as ->.
  { unfold Rleb. destruct (Rle_dec _ _); [lra|done]. }
  simpl andb. cbv iota. unfold check_default_uniformfloat.
  assert (np_round (Fin ((0.00000000006 + 0.00000000008) / 2)) 10
          = Fin 0.0000000001) as ->.
  { unfold np_round. rewrite (round_half_even_unique _ 1).
    - rewrite pow10_10. apply f_equal. lra.
    - rewrite pow10_10. lra. }
  assert (is_legal_uniformfloat (PyFloat (Fin 0.0000000001)) 0.00000000008
            0.00000000006 = false) as ->; [|done].
  destruct (is_legal_uniformfloat _ _ _) eqn:E; [|done].
  apply is_legal_uniformfloat_iff in E as (x & [= <-] & Hx). lra.
Qed.

Lemma py_in_head v l : py_eqb v v = true -> py_in v (v :: l) = true.
Proof. intros H. unfold py_in. simpl. now rewrite H. Qed.

Lemma check_default_in_legal choices d c :
  Cat.check_default_in choices d = Ok c ->
  py_eqb c c = true -> py_in c choices = true.
Proof.
  unfold Cat.check_default_in, Cat.is_legal_in. destruct d as [d|].
  - destruct (py_in d choices) eqn:E; [|discriminate]. now intros [= <-].
  - destruct choices as [|x l]; [discriminate|].
    intros [= <-]. apply py_in_head.
Qed.

Lemma Ordinal_check_default_in_legal sequence d c :
  Ord.check_default_in sequence d = Ok c ->
  py_eqb c c = true -> py_in c sequence = true.
Proof.
  unfold Ord.check_default_in, Ord.is_legal_in. destruct d as [d|].
  - destruct (py_in d sequence) eqn:E; [|discriminate]. now intros [= <-].
  - destruct sequence as [|x l]; [discriminate|].
    intros [= <-]. apply py_in_head.
Qed.

Lemma UniformFloat_default_legal name lo up d q lg h :
  UF.__init__ name lo up d q lg = Ok h ->
  is_legal_uniformfloat (PyFloat (UF.default h)) (UF.upper h) (UF.lower h)
  = true.
Proof.
  unfold UF.__init__.
  destruct (Rleb up lo); [discriminate|].
  destruct (lg && Rleb lo 0); [discriminate|].
  unfold check_default_uniformfloat.
  destruct (is_legal_uniformfloat _ up lo) eqn:E; [|discriminate].
  cbn [mbind result_bind Py.bind].
  destruct lg, q; intros [= <-]; exact E.
Qed.

(** X4: the default of every constructed hyperparameter, of whatever
    class, is a legal value of it, provided it equals itself (a NaN does
    not). *)
Theorem default_is_legal (hp : Hyperparameter) :
  constructed hp ->
  py_eqb (default_of hp) (default_of hp) = true ->
  legal hp (default_of hp) = true.
Proof.
  intros Hc He. destruct Hc as
    [name value h H|name lo up d q lg h H|name mu sigma d q lg h H
    |name lo up d q lg h H|name mu sigma d q lg h H
    |name choices d h H|name sequence d h H]; simpl in *.
  - unfold Constant.__init__ in H.
    destruct (_ || _); [discriminate|]. injection H as <-.
    unfold Constant.is_legal. simpl in *. now rewrite He.
  - eapply UniformFloat_default_legal; eauto.
  - unfold NF.__init__, check_default_normalfloat in H.
    destruct d as [d|].
    + unfold is_legal_normalfloat in H.
      destruct (isinstance_float d || isinstance_int d) eqn:E;
        [|discriminate].
      injection H as <-. unfold NF.is_legal. simpl. now rewrite E.
    + injection H as <-. reflexivity.
  - destruct (UniformInteger_init_spec name lo up d q lg)
      as (_ & _ & Hf).
    destruct (Hf h H) as (-> & -> & Hd & _).
    now apply is_legal_uniforminteger_int.
  - unfold NI.__init__ in H.
    assert (exists z, NI.default h = PyInt z) as [z ->]; [|done].
    destruct d as [d0|]; simpl in H.
    all: destruct q as [q0|]; simpl in H.
    all: try (destruct (q0 <? 1)%Z; simpl in H).
    all: injection H as <-; simpl; eauto.
  - unfold Cat.__init__ in H.
    destruct (Cat.check_default_in choices d) as [c|] eqn:E; [|discriminate].
    injection H as <-. unfold Cat.is_legal, Cat.is_legal_in. simpl in *.
    now rewrite (check_default_in_legal _ _ _ E He).
  - unfold Ord.__init__ in H.
    destruct (Ord.check_default_in sequence d) as [c|] eqn:E; [|discriminate].
    injection H as <-. unfold Ord.is_legal, Ord.is_legal_in. simpl in *.
    now apply (Ordinal_check_default_in_legal _ d).
Qed.

Lemma default_is_legal_witness :
  constructed (HCategorical abc)
  /\ py_eqb (default_of (HCategorical abc)) (default_of (HCategorical abc))
     = true
  /\ legal (HCategorical abc) (default_of (HCategorical abc)) = true.
Proof.
  assert (Hc : constructed (HCategorical abc))
    by (eapply constructed_Categorical, abc_constructed).
  assert (He : py_eqb (default_of (HCategorical abc))
                 (default_of (HCategorical abc)) = true) by reflexivity.
  split; [exact Hc|]. split; [exact He|].
  exact (default_is_legal _ Hc He).
Defined.

(** without the condition: a constant NaN *)
Lemma nan_default_is_illegal name h :
  Constant.__init__ name (PyFloat NaN) = Ok h ->
  legal (HConstant h) (default_of (HConstant h)) = false.
Proof. intros [= <-]. reflexivity. Qed.

Lemma UniformInteger_ufhp_bounds name lo up d q lg h :
  UI.__init__ name lo up d q lg = Ok h ->
  (lo < up)%Z /\ (lg = true -> (0 < lo)%Z)
  /\ UI.lower h = lo /\ UI.upper h = up /\ UI.q h = None /\ UI.log h = lg
  /\ UF.q (UI.ufhp h) = None /\ UF.log (UI.ufhp h) = lg
  /\ UF.lower (UI.ufhp h) = IZR lo - 0.49999
  /\ UF.upper (UI.ufhp h) = IZR up + 0.49999
  /\ UF._lower (UI.ufhp h)
     = Fin (if lg then ln (IZR lo - 0.49999) else IZR lo - 0.49999)
  /\ UF._upper (UI.ufhp h)
     = Fin (if lg then ln (IZR up + 0.49999) else IZR up + 0.49999).
Proof.
  intros H. apply UniformInteger_init_inv in H
    as (Hlt & Hpos & Hlo & Hup & Hq & Hlg & d' & Hu).
  apply UniformFloat_init_inv in Hu
    as (_ & Hfpos & Hfl & Hfu & Hfq & Hflg & Hl' & Hu').
  cbv zeta in Hl', Hu'.
  assert (IZR lo < IZR up) by now apply IZR_lt.
  repeat (split; [assumption|]).
  rewrite Hl', Hu'. destruct lg; [|done].
  specialize (Hfpos eq_refl). rewrite !np_log_pos by lra. done.
Qed.

(** X5: every constructed uniform integer carries no quantization,
    whatever [q] was passed, nor does its inner float instance; and with
    bounds of at most a million either way, [has_neighbors] answers True
    for it. *)
Theorem UniformInteger_has_neighbors (h : UI.t) :
  constructed (HUniformInteger h) ->
  (- 1000000 <= UI.lower h)%Z -> (UI.upper h <= 1000000)%Z ->
  UI.q h = None /\ UF.q (UI.ufhp h) = None /\ UI.has_neighbors h = true.
Proof.
  intros Hc _ _. inversion Hc as [| | |name lo up d q lg h' Hi| | |]; subst h'.
  apply UniformInteger_ufhp_bounds in Hi
    as (Hlt & Hpos & _ & _ & Hq & Hlg & Hfq & _ & _ & _ & Hl & Hu).
  split; [done|]. split; [done|].
  unfold UI.has_neighbors. rewrite Hl, Hu, Hlg.
  assert (Hr : IZR lo + 1 <= IZR up).
  { rewrite <- plus_IZR. apply IZR_le. lia. }
  destruct lg; cbn [np_exp]; rewrite fsub_Fin.
  - assert (1 <= IZR lo) by (apply IZR_le; specialize (Hpos eq_refl); lia).
    rewrite !exp_ln by lra. rewrite fleb_Fin_true by lra. done.
  - rewrite fleb_Fin_true by lra. done.
Qed.

Lemma UniformInteger_has_neighbors_witness :
  constructed (HUniformInteger zero_to_ten)
  /\ (- 1000000 <= UI.lower zero_to_ten)%Z
  /\ (UI.upper zero_to_ten <= 1000000)%Z
  /\ UI.q zero_to_ten = None /\ UF.q (UI.ufhp zero_to_ten) = None
  /\ UI.has_neighbors zero_to_ten = true.
Proof.
  assert (Hc : constructed (HUniformInteger zero_to_ten))
    by (eapply constructed_UniformInteger, zero_to_ten_constructed).
  assert (H1 : (- 1000000 <= UI.lower zero_to_ten)%Z) by (simpl; lia).
  assert (H2 : (UI.upper zero_to_ten <= 1000000)%Z) by (simpl; lia).
  split; [exact Hc|]. split; [exact H1|]. split; [exact H2|].
  exact (UniformInteger_has_neighbors _ Hc H1 H2).
Defined.

(** ** Sampling *)

Lemma exp_between (a b y : R) : a <= y <= b -> exp a <= exp y <= exp b.
Proof.
  intros [H1 H2]. split.
  - destruct (Req_dec a y) as [->|]; [lra|]. left. apply exp_increasing. lra.
  - destruct (Req_dec y b) as [->|]; [lra|]. left. apply exp_increasing. lra.
Qed.

(** the affine map of the unit interval onto the range *)
Lemma unit_interval_onto (lg : bool) (lo up u : R) :
  lo < up -> (lg = true -> 0 < lo) -> 0 <= u <= 1 ->
  let a := if lg then ln lo else lo in
  let b := if lg then ln up else up in
  lo <= (if lg then exp (u * (b - a) + a) else u * (b - a) + a) <= up.
Proof.
  intros H Hlg Hu a b. subst a b. destruct lg.
  - specialize (Hlg eq_refl).
    assert (Hl : ln lo < ln up) by (apply ln_increasing; lra).
    rewrite <- (exp_ln lo) at 1 by lra. rewrite <- (exp_ln up) at 3 by lra.
    apply exp_between. nra.
  - nra.
Qed.

Lemma UniformFloat_transform_range name lo up d lg h (u : R) :
  UF.__init__ name lo up d None lg = Ok h ->
  0 <= u <= 1 ->
  exists y, UF._transform h (Fin u) = Ok (PyFloat (Fin y)) /\ lo <= y <= up.
Proof.
  intros Hi Hu. apply UniformFloat_init_inv in Hi
    as (Hlt & Hpos & Hlo & Hup & Hq & Hlg & Hl & Hr).
  cbv zeta in Hl, Hr.
  assert (Hl' : UF._lower h = Fin (if lg then ln lo else lo)).
  { rewrite Hl. destruct lg; [|done]. now rewrite np_log_pos by auto. }
  assert (Hr' : UF._upper h = Fin (if lg then ln up else up)).
  { rewrite Hr. destruct lg; [|done].
    specialize (Hpos eq_refl). now rewrite np_log_pos by lra. }
  rewrite (UniformFloat_transform_Fin h u _ _ Hl' Hr')
    by (rewrite Hq; discriminate).
  rewrite Hq, Hlg. cbn [snap]. eexists. split; [reflexivity|].
  now apply unit_interval_onto.
Qed.

(** X6: for a constructed uniform float off the log scale, without
    quantization and with bounds of magnitude up to 1e300, and a uniform
    draw from 0 up to, and without, 1, [sample] returns a float between the
    lower and the upper bound, which is a legal value. *)
Theorem UniformFloat_sample_legal (h : UF.t) (rs : RandomState) (k : nat)
    (u : R) :
  constructed (HUniformFloat h) ->
  UF.q h = None -> UF.log h = false ->
  - 10 ^ 300 <= UF.lower h -> UF.upper h <= 10 ^ 300 ->
  uniform rs k = Fin u -> 0 <= u < 1 ->
  exists y,
    UF.sample h rs k = (Ok (PyFloat (Fin y)), S k)
    /\ UF.lower h <= y <= UF.upper h
    /\ legal (HUniformFloat h) (PyFloat (Fin y)) = true.
Proof.
  intros Hc Hq _ _ _ Hd Hu.
  inversion Hc as [|name lo up d q lg h' Hi| | | | |]; subst h'.
  pose proof (UniformFloat_init_inv _ _ _ _ _ _ _ Hi)
    as (_ & _ & Hlo & Hup & Hq' & _).
  rewrite Hq in Hq'. subst q.
  destruct (UniformFloat_transform_range _ _ _ _ _ _ u Hi ltac:(lra))
    as (y & Hy & Hb).
  exists y. unfold UF.sample, UF._sample. rewrite Hd, Hy, Hlo, Hup.
  split; [done|]. split; [done|]. simpl. rewrite Hlo, Hup.
  apply is_legal_uniformfloat_iff. exists y. split; [done|]. lra.
Qed.

Lemma round_half_even_widened (lo up : Z) (y : R) :
  IZR lo - 0.49999 <= y <= IZR up + 0.49999 ->
  (lo <= round_half_even y <= up)%Z.
Proof.
  intros [H1 H2]. pose proof (round_half_even_near y) as H.
  apply Rabs_le_inv in H.
  assert (IZR lo - 1 < IZR (round_half_even y)) by lra.
  assert (IZR (round_half_even y) < IZR up + 1) by lra.
  rewrite <- minus_IZR in H0. rewrite <- plus_IZR in H3.
  apply lt_IZR in H0, H3. lia.
Qed.

(** decoding an entry of the unit interval *)
Lemma UniformInteger_transform_range name lo up d q lg h (u : R) :
  UI.__init__ name lo up d q lg = Ok h ->
  in_int64 lo = true -> in_int64 up = true ->
  0 <= u <= 1 ->
  exists z, UI._transform h (Fin u) = Ok (PyInt z) /\ (lo <= z <= up)%Z.
Proof.
  intros Hi Hlo64 Hup64 Hu.
  pose proof (UniformInteger_init_inv _ _ _ _ _ _ _ Hi)
    as (_ & _ & _ & _ & Hq & _ & d' & Hf).
  destruct (UniformFloat_transform_range _ _ _ _ _ _ u Hf Hu)
    as (y & Hy & Hb).
  unfold UI._transform. cbn [np_isnan]. rewrite Hy, Hq.
  cbn [mbind result_bind Py.bind].
  pose proof (round_half_even_widened lo up y Hb) as Hz.
  rewrite astype_int_round by (now apply (in_int64_between lo up)).
  eexists. split; [reflexivity|done].
Qed.

(** an integer of the range goes through the vector unchanged *)
Lemma UniformInteger_round_trip_cast name lo up d q lg h (z : Z) :
  UI.__init__ name lo up d q lg = Ok h ->
  (lo <= z <= up)%Z ->
  round_trip (HUniformInteger h) (PyInt z)
  = Ok (PyInt (astype_int (np_round (Fin (IZR z)) 0))).
Proof.
  intros Hi Hz.
  apply UniformInteger_ufhp_bounds in Hi
    as (Hlt & Hpos & _ & _ & Hq & Hlg & Hfq & Hflg & _ & _ & Ha & Hb).
  assert (Hr : IZR lo < IZR up) by now apply IZR_lt.
  assert (Hz' : IZR lo <= IZR z <= IZR up) by (split; apply IZR_le; lia).
  assert (Hab : (if lg then ln (IZR lo - 0.49999) else IZR lo - 0.49999)
                <> (if lg then ln (IZR up + 0.49999) else IZR up + 0.49999)).
  { destruct lg; [|lra].
    assert (1 <= IZR lo) by (apply IZR_le; specialize (Hpos eq_refl); lia).
    assert (ln (IZR lo - 0.49999) < ln (IZR up + 0.49999))
      by (apply ln_increasing; lra). lra. }
  assert (Hxpos : UF.log (UI.ufhp h) = true -> 0 < IZR z).
  { rewrite Hflg. intros ->.
    assert (1 <= IZR lo) by (apply IZR_le; specialize (Hpos eq_refl); lia).
    lra. }
  unfold round_trip, _inverse_transform, _transform, UI._inverse_transform.
  rewrite (UniformFloat_inverse_Fin (UI.ufhp h) (PyInt z) (IZR z) _ _
             eq_refl Ha Hb Hab Hxpos).
  cbn [mbind result_bind Py.bind vector_entry py_num].
  unfold UI._transform. cbn [np_isnan].
  rewrite (UniformFloat_transform_Fin (UI.ufhp h) _ _ _ Ha Hb)
    by (rewrite Hfq; discriminate).
  rewrite Hfq, Hq. cbn [snap mbind result_bind Py.bind].
  now rewrite unit_interval_back by auto.
Qed.

Lemma UniformInteger_round_trip_int name lo up d q lg h (z : Z) :
  UI.__init__ name lo up d q lg = Ok h ->
  in_int64 z = true ->
  (lo <= z <= up)%Z ->
  round_trip (HUniformInteger h) (PyInt z) = Ok (PyInt z).
Proof.
  intros Hi Hz64 Hz.
  rewrite (UniformInteger_round_trip_cast _ _ _ _ _ _ _ z Hi Hz).
  now rewrite astype_int_IZR.
Qed.

(** Beyond 64 bits the cast wraps: the legal value 2^63 of
    [UniformIntegerHyperparameter("x", 0, 2**64)] comes back from the
    vector as -2^63. *)
Lemma round_trip_beyond_64_bits :
  exists h,
    UI.__init__ "x" 0 18446744073709551616 None None false = Ok h
    /\ legal (HUniformInteger h) (PyInt 9223372036854775808) = true
    /\ round_trip (HUniformInteger h) (PyInt 9223372036854775808)
       = Ok (PyInt (- 9223372036854775808)).
Proof.
  destruct (proj2 (proj1 (UniformInteger_init_spec
                            "x" 0 18446744073709551616 None None false)))
    as [h Hi].
  { split; [lia|]. split; discriminate. }
  exists h. split; [exact Hi|].
  pose proof (UniformInteger_init_inv _ _ _ _ _ _ _ Hi)
    as (_ & _ & Hlo & Hup & _).
  split.
  - simpl. rewrite Hlo, Hup. apply is_legal_uniforminteger_int. lia.
  - rewrite (UniformInteger_round_trip_cast _ _ _ _ _ _ _
               9223372036854775808 Hi) by lia.
    rewrite np_round_0_Fin, round_half_even_IZR. unfold astype_int.
    now rewrite trunc_IZR.
Qed.

Lemma moderate_in_int64 (z : Z) :
  (- 1000000 <= z <= 1000000)%Z -> in_int64 z = true.
Proof. intros H. apply in_int64_true. unfold int64_min, int64_max. lia. Qed.

(** X7: for a constructed uniform integer with bounds of at most a million
    either way and a uniform draw within 0 and 1, [sample] returns the
    integer that the draw decodes to; it lies between the lower and the
    upper bound and is a legal value. *)
Theorem UniformInteger_sample_legal (h : UI.t) (rs : RandomState) (k : nat)
    (u : R) :
  constructed (HUniformInteger h) ->
  (- 1000000 <= UI.lower h)%Z -> (UI.upper h <= 1000000)%Z ->
  uniform rs k = Fin u -> 0 <= u <= 1 ->
  exists z,
    UI._transform h (Fin u) = Ok (PyInt z)
    /\ UI.sample h rs k = (Ok (PyInt z), S k)
    /\ (UI.lower h <= z <= UI.upper h)%Z
    /\ legal (HUniformInteger h) (PyInt z) = true.
Proof.
  intros Hc Hmin Hmax Hd Hu.
  inversion Hc as [| | |name lo up d q lg h' Hi| | |]; subst h'.
  pose proof (UniformInteger_init_inv _ _ _ _ _ _ _ Hi)
    as (Hlt & _ & Hlo & Hup & _).
  rewrite Hlo in Hmin. rewrite Hup in Hmax.
  destruct (UniformInteger_transform_range _ _ _ _ _ _ _ u Hi
              ltac:(apply moderate_in_int64; lia)
              ltac:(apply moderate_in_int64; lia) Hu)
    as (z & Hz & Hb).
  pose proof (UniformInteger_round_trip_int _ _ _ _ _ _ _ z Hi
                ltac:(apply moderate_in_int64; lia) Hb) as Hrt.
  exists z. split; [done|]. split; [|split].
  - unfold UI.sample, UI._sample, UF._sample. rewrite Hd, Hz.
    f_equal. exact Hrt.
  - now rewrite Hlo, Hup.
  - simpl. rewrite Hlo, Hup. now apply is_legal_uniforminteger_int.
Qed.

Lemma Categorical_init_fields name choices default self :
  Cat.__init__ name choices default = Ok self ->
  Cat.choices self = choices
  /\ Cat._num_choices self = Z.of_nat (length choices)
  /\ choices <> [].
Proof.
  unfold Cat.__init__.
  destruct (Cat.check_default_in choices default) eqn:E; simpl; [|discriminate].
  intros [= <-]. simpl. repeat split. intros ->.
  unfold Cat.check_default_in, Cat.is_legal_in in E.
  destruct default; discriminate.
Qed.

Lemma Ordinal_init_nonempty name sequence default self :
  Ord.__init__ name sequence default = Ok self -> sequence <> [].
Proof.
  unfold Ord.__init__.
  destruct (Ord.check_default_in sequence default) eqn:E; simpl; [|discriminate].
  intros _ ->. unfold Ord.check_default_in, Ord.is_legal_in in E.
  destruct default; discriminate.
Qed.

Lemma getitem_in_range {A} (l : list A) (i : Z) :
  (0 <= i < Z.of_nat (length l))%Z ->
  exists x, getitem l i = Ok x /\ l !! Z.to_nat i = Some x.
Proof.
  intros H. destruct (lookup_lt_is_Some_2 l (Z.to_nat i)) as [x Hx]; [lia|].
  exists x. split; [|done]. rewrite <- (Z2Nat.id i) by lia.
  now apply getitem_nat.
Qed.

(** X8: for a constructed categorical (ordinal) hyperparameter and an
    integer draw from 0 up to, and without, the number of choices
    (elements), [sample] returns the choice (element) at the drawn
    position. *)
Theorem sample_is_a_choice (rs : RandomState) (k : nat) :
  (forall h : Cat.t,
     constructed (HCategorical h) ->
     (0 <= randint rs k 0 (Cat._num_choices h) < Cat._num_choices h)%Z ->
     exists c,
       Cat.sample h rs k = (Ok c, S k)
       /\ Cat.choices h !! Z.to_nat (randint rs k 0 (Cat._num_choices h))
          = Some c)
  /\ (forall h : Ord.t,
     constructed (HOrdinal h) ->
     (0 <= randint rs k 0 (Ord._num_elements h) < Ord._num_elements h)%Z ->
     exists c,
       Ord.sample h rs k = (Ok c, S k)
       /\ Ord.sequence h !! Z.to_nat (randint rs k 0 (Ord._num_elements h))
          = Some c).
Proof.
  split.
  - intros h Hc Hr. inversion Hc as [| | | | |name choices d h' Hi|]; subst h'.
    apply Categorical_init_fields in Hi as (Hch & Hn & _).
    rewrite Hn, <- Hch in Hr.
    destruct (getitem_in_range _ _ Hr) as (c & Hg & Hl).
    exists c. unfold Cat.sample, Cat._sample.
    rewrite Categorical_transform_index, Hn, <- Hch, Hg. done.
  - intros h Hc Hr. inversion Hc as [| | | | | |name sequence d h' Hi]; subst h'.
    apply Ordinal_init_fields in Hi as (Hs & Hn & _).
    rewrite Hn, <- Hs in Hr.
    destruct (getitem_in_range _ _ Hr) as (c & Hg & Hl).
    exists c. unfold Ord.sample, Ord._sample.
    rewrite Ordinal_transform_index, Hn, <- Hs, Hg. done.
Qed.

Lemma getitem_negative {A} (l : list A) (i : Z) :
  (- Z.of_nat (length l) <= i < 0)%Z ->
  exists x, getitem l i = Ok x
            /\ l !! Z.to_nat (i + Z.of_nat (length l)) = Some x.
Proof.
  intros H.
  destruct (lookup_lt_is_Some_2 l (Z.to_nat (i + Z.of_nat (length l))))
    as [x Hx]; [lia|].
  exists x. split; [|done]. unfold getitem. cbv zeta.
  assert ((i <? 0)%Z = true) as -> by (apply Z.ltb_lt; lia).
  assert ((i + Z.of_nat (length l) <? 0)%Z = false) as ->
    by (apply Z.ltb_ge; lia).
  now rewrite Hx.
Qed.

Lemma getitem_out_of_range {A} (l : list A) (i : Z) :
  (i < - Z.of_nat (length l) \/ Z.of_nat (length l) <= i)%Z ->
  getitem l i = Raise IndexError.
Proof.
  intros H. unfold getitem. cbv zeta.
  destruct (i <? 0)%Z eqn:E1.
  - apply Z.ltb_lt in E1.
    assert ((i + Z.of_nat (length l) <? 0)%Z = true) as ->
      by (apply Z.ltb_lt; lia). done.
  - apply Z.ltb_ge in E1.
    rewrite lookup_ge_None_2 by lia. now destruct (i <? 0)%Z.
Qed.

Lemma np_mod_1_fraction (r : R) :
  (forall z, r <> IZR z) -> feqb (np_mod_1 (Fin r)) (Fin 0) = false.
Proof.
  intros H. simpl. unfold Reqb. destruct (Req_dec_T _ _) as [E|]; [|done].
  exfalso. apply (H (Int_part r)). lra.
Qed.

(** X9: [CategoricalHyperparameter._transform] on an integral entry [i]
    indexes the [n] choices as a Python list does: from the front for
    [0 <= i < n], from the end for [-n <= i < 0], with IndexError beyond;
    a finite entry that is not integral raises ValueError; an infinite
    entry and NaN give None. *)
Theorem Categorical_transform_domain (h : Cat.t) :
  (forall i : Z, (0 <= i < Z.of_nat (length (Cat.choices h)))%Z ->
     exists c, Cat._transform h (Fin (IZR i)) = Ok c
               /\ Cat.choices h !! Z.to_nat i = Some c)
  /\ (forall i : Z, (- Z.of_nat (length (Cat.choices h)) <= i < 0)%Z ->
     exists c, Cat._transform h (Fin (IZR i)) = Ok c
               /\ Cat.choices h
                  !! Z.to_nat (i + Z.of_nat (length (Cat.choices h)))
                  = Some c)
  /\ (forall i : Z,
     (i < - Z.of_nat (length (Cat.choices h))
      \/ Z.of_nat (length (Cat.choices h)) <= i)%Z ->
     Cat._transform h (Fin (IZR i)) = Raise IndexError)
  /\ (forall r : R, (forall z, r <> IZR z) ->
     Cat._transform h (Fin r) = Raise ValueError)
  /\ Cat._transform h PosInf = Ok PyNone
  /\ Cat._transform h NegInf = Ok PyNone
  /\ Cat._transform h NaN = Ok PyNone.
Proof.
  repeat split.
  - intros i Hi. rewrite Categorical_transform_index.
    now apply getitem_in_range.
  - intros i Hi. rewrite Categorical_transform_index.
    now apply getitem_negative.
  - intros i Hi. rewrite Categorical_transform_index.
    now apply getitem_out_of_range.
  - intros r Hr. unfold Cat._transform. cbn [np_isfinite negb].
    now rewrite np_mod_1_fraction.
Qed.

(** the first choice equal to the decoded one *)
Lemma list_index_first l : forall (i : nat) v,
  l !! i = Some v -> py_eqb v v = true ->
  exists (j : nat) c, list_index l v = Ok (Z.of_nat j) /\ (j <= i)%nat
    /\ l !! j = Some c /\ py_eqb c v = true
    /\ forall j' c', (j' < j)%nat -> l !! j' = Some c' -> py_eqb c' v = false.
Proof.
  induction l as [|x l IH]; intros i v Hi Hv; [done|]. simpl.
  destruct (py_eqb x v) eqn:E.
  - exists 0%nat, x. repeat split; auto; [lia|]. intros; lia.
  - destruct i as [|i]; simpl in Hi.
    { injection Hi as ->. congruence. }
    destruct (IH i v Hi Hv) as (j & c & -> & Hj & Hc & Hcv & Hbefore).
    exists (S j), c. simpl. repeat split; auto; [f_equal; lia|lia|].
    intros [|j'] c' Hj' Hc'; simpl in Hc'.
    + now injection Hc' as <-.
    + apply (Hbefore j'); [lia|done].
Qed.

(** X10: a choice [v] (not None, equal to itself) at position [i] is the
    transform of the entry [i]; its inverse transform is the first position
    that holds a choice equal to [v], which is [i] when the choices are
    pairwise different. *)
Theorem Categorical_vector_round_trip (h : Cat.t) (i : nat) (v : pyval) :
  Cat.choices h !! i = Some v ->
  py_eqb v v = true ->
  v <> PyNone ->
  Cat._transform h (Fin (INR i)) = Ok v
  /\ (exists j : nat,
        Cat._inverse_transform h v = Ok (PyInt (Z.of_nat j))
        /\ (j <= i)%nat
        /\ (forall j' c', (j' < j)%nat -> Cat.choices h !! j' = Some c' ->
                          py_eqb c' v = false)
        /\ exists c, Cat.choices h !! j = Some c /\ py_eqb c v = true)
  /\ (pairwise_distinct (Cat.choices h) ->
      Cat._inverse_transform h v = Ok (PyInt (Z.of_nat i))).
Proof.
  intros Hi Hv Hn. split; [|split].
  - rewrite INR_IZR_INZ, Categorical_transform_index. now apply getitem_nat.
  - destruct (list_index_first _ _ _ Hi Hv)
      as (j & c & Hj & Hle & Hc & Hcv & Hb).
    exists j. unfold Cat._inverse_transform. rewrite Hj.
    split; [destruct v; done|]. split; [done|]. split; [done|]. eauto.
  - intros Hp. unfold Cat._inverse_transform.
    rewrite (list_index_distinct _ _ _ Hp Hi Hv). destruct v; done.
Qed.

(** ** Neighbors *)

Lemma delete_beyond {A} (l : list A) (i : nat) :
  (length l <= i)%nat -> delete i l = l.
Proof.
  intros H. rewrite delete_take_drop, take_ge, drop_ge by lia.
  apply app_nil_r.
Qed.

(** X11: when the number requested is not below the number of choices,
    [get_neighbors] of a categorical consults no draw and returns
    [get_num_neighbors()] entries if the index passed is that of a choice,
    and all the choices, none left out, if the index is negative or beyond
    the last choice. *)
Theorem Categorical_neighbors_count (h : Cat.t) (value : pyval) (index : Z)
    (rs : RandomState) (number : npfloat) (transform : bool)
    (fuel k : nat) :
  Builtins.int value = Ok index ->
  fltb number (Fin (INR (length (Cat.choices h)))) = false ->
  exists l,
    Cat.get_neighbors h value rs number transform fuel k = Done (l, k)
    /\ ((0 <= index < Z.of_nat (length (Cat.choices h)))%Z ->
        Z.of_nat (length l) = Cat.get_num_neighbors h)
    /\ ((index < 0 \/ Z.of_nat (length (Cat.choices h)) <= index)%Z ->
        l = all_encoded h transform).
Proof.
  intros Hi Hn. destruct (Z_lt_le_dec index 0) as [Hneg|Hpos].
  - exists (all_encoded h transform). split; [|split; [lia|done]].
    unfold Cat.get_neighbors. rewrite Hn.
    change 0%Z with (Z.of_nat 0).
    rewrite (enumerate_loop_passed h value transform index Hi
               (Cat.choices h) 0 [] (all_encoded h transform)).
    + reflexivity.
    + apply length_all_encoded.
    + intros j c Hj. now apply encode_all_encoded.
    + simpl. lia.
  - exists (delete (Z.to_nat index) (all_encoded h transform)).
    split; [now apply Categorical_enumerates|]. split.
    + intros Hr. unfold Cat.get_num_neighbors.
      rewrite length_delete, length_all_encoded.
      * lia.
      * apply lookup_lt_is_Some_2. rewrite length_all_encoded. lia.
    + intros [Hlt|Hge]; [lia|].
      apply delete_beyond. rewrite length_all_encoded. lia.
Qed.

Section UniformFloatNeighbors.

Variables (self : UF.t) (value : npfloat) (rs : RandomState) (number : Z).

Local Abbreviation draw p := (normal rs p value 0.2).
Local Abbreviation loop := (UF.neighbors_loop self value rs number false).

Lemma neighbors_loop_unfold fuel nb k :
  loop fuel nb k
  = if (Z.of_nat (length nb) <? number)%Z then
      match fuel with
      | O => OutOfFuel
      | S fuel' =>
          if fltb (draw k) (Fin 0) || fltb (Fin 1) (draw k)
          then loop fuel' nb (S k)
          else loop fuel' (nb ++ [PyFloat (draw k)]) (S k)
      end
    else Done (nb, k).
Proof. destruct fuel; reflexivity. Qed.

Lemma neighbors_loop_sound fuel : forall nb k l k',
  loop fuel nb k = Done (l, k') ->
  (k <= k')%nat
  /\ (exists l', l = nb ++ l' /\ Forall (kept_draw value rs k k') l')
  /\ ((Z.of_nat (length nb) <= number)%Z -> Z.of_nat (length l) = number).
Proof.
  induction fuel as [|fuel IH]; intros nb k l k';
    rewrite neighbors_loop_unfold;
    destruct (Z.of_nat (length nb) <? number)%Z eqn:E.
  - discriminate.
  - intros [= <- <-]. apply Z.ltb_ge in E. split; [lia|]. split.
    + exists []. now rewrite app_nil_r.
    + lia.
  - apply Z.ltb_lt in E.
    destruct (fltb (draw k) (Fin 0) || fltb (Fin 1) (draw k)) eqn:Er.
    + intros H. apply IH in H as (Hk & (l' & -> & Hl') & Hlen).
      split; [lia|]. split.
      * exists l'. split; [done|].
        eapply Forall_impl; [exact Hl'|].
        intros v (p & Hp & Hv & Hw). exists p. split; [lia|done].
      * intros _. apply Hlen. lia.
    + intros H. apply IH in H as (Hk & (l' & -> & Hl') & Hlen).
      split; [lia|]. split.
      * exists (PyFloat (draw k) :: l'). rewrite <- app_assoc.
        split; [done|]. constructor.
        -- exists k. split; [lia|]. split; [done|].
           unfold within_unit. now rewrite Er.
        -- eapply Forall_impl; [exact Hl'|].
           intros v (p & Hp & Hv & Hw). exists p. split; [lia|done].
      * intros _. apply Hlen. rewrite length_app. simpl. lia.
  - intros [= <- <-]. apply Z.ltb_ge in E. split; [lia|]. split.
    + exists []. now rewrite app_nil_r.
    + lia.
Qed.

(** draws that are all kept: the loop takes them one after the other *)
Lemma neighbors_loop_complete (n : nat) : forall fuel nb k,
  (forall p, (k <= p)%nat -> within_unit (draw p) = true) ->
  (Z.of_nat (length nb) + Z.of_nat n = number)%Z ->
  (n <= fuel)%nat ->
  loop fuel nb k
  = Done (nb ++ map (fun p => PyFloat (draw p)) (seq k n), (k + n)%nat).
Proof.
  induction n as [|n IH]; intros fuel nb k Hd Hn Hf;
    rewrite neighbors_loop_unfold.
  - assert ((Z.of_nat (length nb) <? number)%Z = false) as ->
      by (apply Z.ltb_ge; lia).
    simpl. now rewrite app_nil_r, Nat.add_0_r.
  - assert ((Z.of_nat (length nb) <? number)%Z = true) as ->
      by (apply Z.ltb_lt; lia).
    destruct fuel as [|fuel]; [lia|].
    pose proof (Hd k ltac:(lia)) as Hk. unfold within_unit in Hk.
    apply negb_true_iff in Hk. rewrite Hk.
    rewrite IH.
    + simpl. rewrite <- app_assoc. simpl. f_equal. f_equal. lia.
    + intros p Hp. apply Hd. lia.
    + rewrite length_app. simpl. lia.
    + lia.
Qed.

(** draws that are all passed over: the loop does not end *)
Lemma neighbors_loop_diverges fuel : forall nb k,
  (forall p, (k <= p)%nat -> within_unit (draw p) = false) ->
  (Z.of_nat (length nb) < number)%Z ->
  loop fuel nb k = OutOfFuel.
Proof.
  induction fuel as [|fuel IH]; intros nb k Hd Hn;
    rewrite neighbors_loop_unfold;
    (assert ((Z.of_nat (length nb) <? number)%Z = true) as ->
       by (apply Z.ltb_lt; lia)); [done|].
  pose proof (Hd k ltac:(lia)) as Hk. unfold within_unit in Hk.
  apply negb_false_iff in Hk. rewrite Hk.
  apply IH; [|done]. intros p Hp. apply Hd. lia.
Qed.

End UniformFloatNeighbors.

(** X12: [UniformFloatHyperparameter.get_neighbors] with
    [transform=False]: what it returns are [number] draws of
    [rs.normal(value, 0.2)], none of them below 0 or above 1; when every
    draw is within these bounds, the first [number] draws are returned;
    when none is, the loop does not end, as nothing bounds its passes. *)
Theorem UniformFloat_neighbors (self : UF.t) (value : npfloat)
    (rs : RandomState) (number : Z) (k : nat) :
  (0 <= number)%Z ->
  (forall fuel l k',
     UF.get_neighbors self value rs number false fuel k = Done (l, k') ->
     Z.of_nat (length l) = number
     /\ Forall (kept_draw value rs k k') l)
  /\ ((forall p, (k <= p)%nat ->
         within_unit (normal rs p value 0.2) = true) ->
      forall fuel, (Z.to_nat number <= fuel)%nat ->
        UF.get_neighbors self value rs number false fuel k
        = Done (map (fun p => PyFloat (normal rs p value 0.2))
                    (seq k (Z.to_nat number)),
                (k + Z.to_nat number)%nat))
  /\ ((forall p, (k <= p)%nat ->
         within_unit (normal rs p value 0.2) = false) ->
      (0 < number)%Z ->
      forall fuel,
        UF.get_neighbors self value rs number false fuel k = OutOfFuel).
Proof.
  intros Hn. unfold UF.get_neighbors. split; [|split].
  - intros fuel l k' H.
    apply neighbors_loop_sound in H as (_ & (l' & -> & Hl') & Hlen).
    split; [apply Hlen; simpl; lia|done].
  - intros Hd fuel Hf.
    rewrite (neighbors_loop_complete self value rs number (Z.to_nat number));
      auto. simpl. lia.
  - intros Hd Hpos fuel. apply neighbors_loop_diverges; auto.
Qed.

Section IntegerNeighbors.

Variables (value : npfloat) (rs : RandomState) (number : Z)
          (transform : bool).

(** What leaves the rejection loop is its last draw. *)
Lemma NormalInteger_reject_draw (self : NI.t) fuel :
  forall k iteration x k',
  NI.reject_loop self value rs fuel k iteration = Done (x, k') ->
  exists (p : nat) (a b : pyval),
    (k <= p)%nat /\ k' = S p
    /\ x = normal rs p value (NI.sigma self)
    /\ NI._transform self value = Ok a
    /\ NI._transform self x = Ok b
    /\ py_eqb a b = false.
Proof.
  induction fuel as [|fuel IH]; intros k iteration x k'; simpl;
    [discriminate|].
  destruct (NI._transform self value) as [a|e] eqn:Ea; simpl;
    [|discriminate].
  destruct (NI._transform self (normal rs k value (NI.sigma self)))
    as [b|e] eqn:Eb; simpl; [|discriminate].
  destruct (py_eqb a b) eqn:E; simpl.
  - destruct (100000 <? iteration + 1)%Z; [discriminate|].
    intros H. apply IH in H as (p & a' & b' & Hp & H).
    exists p, a', b'. split; [lia|done].
  - intros [= <- <-]. exists k, a, b. auto 10.
Qed.

Lemma accepted_draw_widen (self : NI.t) (k1 k2 k3 k4 : nat) (v : pyval) :
  (k1 <= k2)%nat -> (k3 <= k4)%nat ->
  accepted_draw self value rs transform k2 k3 v ->
  accepted_draw self value rs transform k1 k4 v.
Proof.
  intros H1 H2 (p & a & b & Hp & H). exists p, a, b. split; [lia|done].
Qed.

Lemma NormalInteger_collect_sound (self : NI.t) fuel : forall inner nb k l k',
  NI.collect self value rs number transform fuel inner nb k = Done (l, k') ->
  (k <= k')%nat
  /\ (exists l', l = nb ++ l'
       /\ Forall (accepted_draw self value rs transform k k') l')
  /\ ((Z.of_nat (length nb) <= number)%Z -> Z.of_nat (length l) = number).
Proof.
  induction fuel as [|fuel IH]; intros inner nb k l k'; simpl;
    destruct (Z.of_nat (length nb) <? number)%Z eqn:E.
  - discriminate.
  - intros [= <- <-]. apply Z.ltb_ge in E. split; [done|]. split; [|lia].
    exists []. now rewrite app_nil_r.
  - apply Z.ltb_lt in E.
    destruct (NI.reject_loop self value rs inner k 0) as [[x k2]| |] eqn:Er;
      try discriminate.
    cbn [mbind outcome_bind Py.obind].
    apply NormalInteger_reject_draw in Er
      as (p & a & b & Hp & -> & Hx & Ha & Hb & Hab).
    assert (exists v, (if transform then lift (NI._transform self x)
                       else Done (PyFloat x)) = Done v
                      /\ v = (if transform then b else PyFloat x))
      as (v & -> & Hv).
    { destruct transform; [rewrite Hb|]; eauto. }
    cbn [mbind outcome_bind Py.obind].
    intros H. apply IH in H as (Hk & (l' & -> & Hl') & Hlen).
    split; [lia|]. split.
    + exists (v :: l'). rewrite <- app_assoc. split; [done|].
      constructor.
      * exists p, a, b. rewrite <- Hx. split; [lia|auto].
      * eapply Forall_impl; [exact Hl'|].
        intros w. apply accepted_draw_widen; lia.
    + intros _. apply Hlen. rewrite length_app. simpl. lia.
  - intros [= <- <-]. apply Z.ltb_ge in E. split; [done|]. split; [|lia].
    exists []. now rewrite app_nil_r.
Qed.

Lemma NormalInteger_collect_complete (self : NI.t) (n : nat) :
  transform = false ->
  forall fuel inner nb k,
  (forall p, (k <= p)%nat ->
     exists a b, NI._transform self value = Ok a
                 /\ NI._transform self (normal rs p value (NI.sigma self))
                    = Ok b
                 /\ py_eqb a b = false) ->
  (Z.of_nat (length nb) + Z.of_nat n = number)%Z ->
  (n <= fuel)%nat -> (0 < inner)%nat ->
  NI.collect self value rs number transform fuel inner nb k
  = Done (nb ++ map (fun p => PyFloat (normal rs p value (NI.sigma self)))
                    (seq k n),
          (k + n)%nat).
Proof.
  intros ->. induction n as [|n IH]; intros fuel inner nb k Hd Hn Hf Hi.
  - assert (E : (Z.of_nat (length nb) <? number)%Z = false)
      by (apply Z.ltb_ge; lia).
    destruct fuel; simpl; rewrite E, app_nil_r, Nat.add_0_r; done.
  - assert (E : (Z.of_nat (length nb) <? number)%Z = true)
      by (apply Z.ltb_lt; lia).
    destruct fuel as [|fuel]; [lia|]. simpl. rewrite E.
    destruct inner as [|inner]; [lia|]. simpl.
    destruct (Hd k ltac:(lia)) as (a & b & -> & -> & Hab). simpl.
    rewrite Hab. simpl.
    rewrite IH.
    + rewrite <- app_assoc. simpl. f_equal. f_equal. lia.
    + intros p Hp. apply Hd. lia.
    + rewrite length_app. simpl. lia.
    + lia.
    + lia.
Qed.

End IntegerNeighbors.

(** X13: what [NormalIntegerHyperparameter.get_neighbors] returns are
    [number] entries, each stemming from a draw of
    [rs.normal(value, sigma)], made during the call, that decodes to an
    integer other than that of [value]: with [transform] the entry is that
    integer, else the draw itself.  When every draw decodes to another
    integer, the first [number] draws are returned as drawn. *)
Theorem integer_neighbors_decode_apart (self : NI.t) (value : npfloat)
    (rs : RandomState) (number : Z) (transform : bool) (fuel k : nat) :
  (0 <= number)%Z ->
  (forall (l : list pyval) (k' : nat),
     NI.get_neighbors self value rs number transform fuel k = Done (l, k') ->
     Z.of_nat (length l) = number
     /\ (k <= k')%nat
     /\ Forall (accepted_draw self value rs transform k k') l)
  /\ ((forall p, (k <= p)%nat ->
        exists a b, NI._transform self value = Ok a
                    /\ NI._transform self (normal rs p value (NI.sigma self))
                       = Ok b
                    /\ py_eqb a b = false) ->
     (Z.to_nat number <= fuel)%nat ->
     NI.get_neighbors self value rs number false fuel k
     = Done (map (fun p => PyFloat (normal rs p value (NI.sigma self)))
                 (seq k (Z.to_nat number)),
             (k + Z.to_nat number)%nat)).
Proof.
  intros Hn. split.
  - intros l k' H. unfold NI.get_neighbors in H.
    apply NormalInteger_collect_sound in H as (Hk & (l' & -> & Hl') & Hlen).
    split; [apply Hlen; simpl; lia|]. split; done.
  - intros Hd Hf. unfold NI.get_neighbors.
    destruct (Z.to_nat number) as [|n] eqn:En.
    + assert (number = 0%Z) as -> by lia.
      destruct fuel; simpl; now rewrite Nat.add_0_r.
    + rewrite (NormalInteger_collect_complete value rs number false self
                 (S n) eq_refl); auto; simpl length; lia.
Qed.

Lemma UniformFloat_init_name name lo up d q lg h :
  UF.__init__ name lo up d q lg = Ok h -> UF.name h = name.
Proof.
  unfold UF.__init__.
  destruct (Rleb up lo); [discriminate|].
  destruct (lg && Rleb lo 0); [discriminate|].
  destruct (check_default_uniformfloat d up lo lg); simpl; [|discriminate].
  destruct lg, q; now intros [= <-].
Qed.

Lemma close_refl (x : R) : Rltb (Rabs (x - x)) 0.00000001 = true.
Proof.
  apply Rltb_true. rewrite Rminus_diag, Rabs_R0. lra.
Qed.

Lemma close_sym (x y : R) :
  Rltb (Rabs (x - y)) 0.00000001 = Rltb (Rabs (y - x)) 0.00000001.
Proof. now rewrite Rabs_minus_sym. Qed.

Lemma UniformFloat_eq_refl (a : UF.t) : UF.__eq__ a a = true.
Proof.
  unfold UF.__eq__. cbn [forallb].
  rewrite String.eqb_refl, !close_refl, Bool.eqb_reflx.
  destruct (UF.q a); [now rewrite close_refl|done].
Qed.

Lemma UniformFloat_eq_sym (a b : UF.t) : UF.__eq__ a b = UF.__eq__ b a.
Proof.
  unfold UF.__eq__. cbn [forallb].
  rewrite (String.eqb_sym (UF.name a)), (close_sym (UF.lower a)),
    (close_sym (UF.upper a)).
  replace (Bool.eqb (UF.log a) (UF.log b))
    with (Bool.eqb (UF.log b) (UF.log a))
    by (now destruct (UF.log a), (UF.log b)).
  destruct (UF.q a) as [q1|], (UF.q b) as [q2|]; try done.
  now rewrite (close_sym q1 q2).
Qed.

Lemma UniformFloat_eq_fields (a b : UF.t) :
  UF.name a = UF.name b -> UF.lower a = UF.lower b ->
  UF.upper a = UF.upper b -> UF.log a = UF.log b -> UF.q a = UF.q b ->
  UF.__eq__ a b = true.
Proof.
  intros H1 H2 H3 H4 H5. unfold UF.__eq__. cbn [forallb].
  rewrite H1, H2, H3, H4, H5.
  rewrite String.eqb_refl, !close_refl, Bool.eqb_reflx.
  destruct (UF.q b); [now rewrite close_refl|done].
Qed.

Lemma UniformFloat_eq_bounds (a b : UF.t) :
  UF.name a = UF.name b -> UF.log a = UF.log b ->
  UF.q a = None -> UF.q b = None -> UF.upper a = UF.upper b ->
  UF.__eq__ a b = Rltb (Rabs (UF.lower a - UF.lower b)) 0.00000001.
Proof.
  intros H1 H2 H3 H4 H5. unfold UF.__eq__. cbn [forallb].
  rewrite H1, H2, H3, H4, H5.
  rewrite String.eqb_refl, !close_refl, Bool.eqb_reflx.
  now rewrite !andb_true_r.
Qed.

(** X14: [UniformFloatHyperparameter.__eq__] is reflexive and symmetric,
    and holds between two objects constructed with the same arguments but
    for the default; it is not transitive: of three constructed objects
    with the lower bounds 0, 6e-9 and 1.2e-8, the first two and the last two
    are equal and the outer two are not. *)
Theorem UniformFloat_eq_tolerance :
  (forall a : UF.t, UF.__eq__ a a = true)
  /\ (forall a b : UF.t, UF.__eq__ a b = UF.__eq__ b a)
  /\ (forall name lo up d1 d2 q lg a b,
        UF.__init__ name lo up d1 q lg = Ok a ->
        UF.__init__ name lo up d2 q lg = Ok b ->
        UF.__eq__ a b = true)
  /\ (exists a b c : UF.t,
        constructed (HUniformFloat a) /\ constructed (HUniformFloat b)
        /\ constructed (HUniformFloat c)
        /\ UF.__eq__ a b = true /\ UF.__eq__ b c = true
        /\ UF.__eq__ a c = false).
Proof.
  split; [apply UniformFloat_eq_refl|]. split; [apply UniformFloat_eq_sym|].
  split.
  - intros name lo up d1 d2 q lg a b Ha Hb.
    pose proof (UniformFloat_init_name _ _ _ _ _ _ _ Ha) as Hna.
    pose proof (UniformFloat_init_name _ _ _ _ _ _ _ Hb) as Hnb.
    apply UniformFloat_init_inv in Ha as (_ & _ & Hla & Hua & Hqa & Hga & _).
    apply UniformFloat_init_inv in Hb as (_ & _ & Hlb & Hub & Hqb & Hgb & _).
    apply UniformFloat_eq_fields; congruence.
  - destruct (UniformFloat_init_midpoint_ok "x" 0 1 None ltac:(lra))
      as (a & _ & Ha & _).
    destruct (UniformFloat_init_midpoint_ok "x" 0.000000006 1 None
                ltac:(lra)) as (b & _ & Hb & _).
    destruct (UniformFloat_init_midpoint_ok "x" 0.000000012 1 None
                ltac:(lra)) as (c & _ & Hc & _).
    exists a, b, c.
    split; [eapply constructed_UniformFloat, Ha|].
    split; [eapply constructed_UniformFloat, Hb|].
    split; [eapply constructed_UniformFloat, Hc|].
    pose proof (UniformFloat_init_name _ _ _ _ _ _ _ Ha) as Hna.
    pose proof (UniformFloat_init_name _ _ _ _ _ _ _ Hb) as Hnb.
    pose proof (UniformFloat_init_name _ _ _ _ _ _ _ Hc) as Hnc.
    apply UniformFloat_init_inv in Ha as (_ & _ & Hla & Hua & Hqa & Hga & _).
    apply UniformFloat_init_inv in Hb as (_ & _ & Hlb & Hub & Hqb & Hgb & _).
    apply UniformFloat_init_inv in Hc as (_ & _ & Hlc & Huc & Hqc & Hgc & _).
    rewrite !UniformFloat_eq_bounds by congruence.
    rewrite Hla, Hlb, Hlc. unfold Rltb.
    repeat split.
    + destruct (Rlt_dec _ _) as [|H]; [done|]. exfalso. apply H.
      rewrite Rabs_left; lra.
    + destruct (Rlt_dec _ _) as [|H]; [done|]. exfalso. apply H.
      rewrite Rabs_left; lra.
    + destruct (Rlt_dec _ _) as [H|]; [|done].
      rewrite Rabs_left in H; lra.
Qed.

Lemma NormalFloat_neighbors_loop (self : NF.t) value rs (n : nat) :
  forall nb k,
  NF.neighbors_loop self value rs n nb k
  = (nb ++ map (fun p => PyFloat (normal rs p value (NF.sigma self)))
             (seq k n),
     (k + n)%nat).
Proof.
  induction n as [|n IH]; intros nb k; simpl.
  - now rewrite app_nil_r, Nat.add_0_r.
  - rewrite IH, <- app_assoc. simpl. f_equal. lia.
Qed.

(** X15: [NormalFloatHyperparameter.get_neighbors] returns the next
    [number] draws of [rs.normal(value, sigma)] as they come: none is
    rejected and none transformed, whatever [transform] says. *)
Theorem NormalFloat_neighbors (self : NF.t) (value : npfloat)
    (rs : RandomState) (number : Z) (transform : bool) (k : nat) :
  NF.get_neighbors self value rs number transform k
  = (map (fun p => PyFloat (normal rs p value (NF.sigma self)))
         (seq k (Z.to_nat number)),
     (k + Z.to_nat number)%nat).
Proof. unfold NF.get_neighbors. now rewrite NormalFloat_neighbors_loop. Qed.

(** ** Conversions *)

Lemma UniformFloat_default_finite name lo up d q lg h :
  UF.__init__ name lo up d q lg = Ok h ->
  exists x, UF.default h = Fin x /\ lo - 0.0000000001 <= x <= up.
Proof.
  intros H. pose proof (UniformFloat_default_legal _ _ _ _ _ _ _ H) as Hl.
  apply UniformFloat_init_inv in H as (_ & _ & <- & <- & _).
  apply is_legal_uniformfloat_iff in Hl as (x & Hx & Hb).
  simpl in Hx. injection Hx as Hx. eauto.
Qed.

(** X16: [to_integer] of a constructed uniform float without quantization
    raises TypeError; whenever the conversion returns, the float had a
    quantization, and the integer object has the truncated bounds, the same
    scale and no quantization. *)
Theorem UniformFloat_to_integer_needs_q (self : UF.t) :
  constructed (HUniformFloat self) ->
  (UF.q self = None -> UniformFloat_to_integer self = Raise TypeError)
  /\ (forall u, UniformFloat_to_integer self = Ok u ->
        (exists q, UF.q self = Some q)
        /\ UI.q u = None
        /\ UI.lower u = trunc (UF.lower self)
        /\ UI.upper u = trunc (UF.upper self)
        /\ UI.log u = UF.log self).
Proof.
  intros Hc. inversion Hc as [|name lo up d q lg h' Hi| | | | |]; subst h'.
  destruct (UniformFloat_default_finite _ _ _ _ _ _ _ Hi) as (x & Hx & _).
  unfold UniformFloat_to_integer. rewrite Hx, np_round_0_Fin.
  simpl py_int. rewrite trunc_IZR. cbn [mbind result_bind Py.bind].
  split.
  - intros ->. reflexivity.
  - intros u. destruct (UF.q self) as [q0|]; [|discriminate].
    cbn [mbind result_bind Py.bind]. intros Hu.
    apply UniformInteger_init_inv in Hu as (_ & _ & -> & -> & -> & -> & _).
    split; [eauto|done].
Qed.

(** X17: [NormalFloatHyperparameter.to_uniform(z)] gives the range from
    [mu - z sigma] to [mu + z sigma] and replaces the default [x] by the
    integer nearest to it; when that integer lies outside the range (more
    than 1e-10 below it, or above it) the conversion raises ValueError. *)
Theorem NormalFloat_to_uniform_default (self : NF.t) (z : Z) (x : R) :
  py_num (NF.default self) = Some (Fin x) ->
  (forall u, NormalFloat_to_uniform self z = Ok u ->
     UF.lower u = NF.mu self - IZR z * NF.sigma self
     /\ UF.upper u = NF.mu self + IZR z * NF.sigma self
     /\ UF.default u = Fin (IZR (round_half_even x))
     /\ NF.mu self - IZR z * NF.sigma self - 0.0000000001
        <= IZR (round_half_even x)
        <= NF.mu self + IZR z * NF.sigma self)
  /\ (~ (NF.mu self - IZR z * NF.sigma self - 0.0000000001
         <= IZR (round_half_even x)
         <= NF.mu self + IZR z * NF.sigma self) ->
      NormalFloat_to_uniform self z = Raise ValueError).
Proof.
  intros Hx.
  set (lo := NF.mu self - IZR z * NF.sigma self).
  set (up := NF.mu self + IZR z * NF.sigma self).
  set (n := round_half_even x).
  unfold NormalFloat_to_uniform. rewrite Hx.
  rewrite np_round_0_Fin. simpl py_int. rewrite trunc_IZR.
  cbn [mbind result_bind Py.bind]. fold lo up n.
  assert (Hd : forall u, UF.__init__ (NF.name self) lo up (Some (IZR n))
                           (NF.q self) (NF.log self) = Ok u ->
                         UF.default u = Fin (IZR n)
                         /\ lo - 0.0000000001 <= IZR n <= up).
  { intros u Hu.
    destruct (UniformFloat_default_finite _ _ _ _ _ _ _ Hu) as (y & Hy & Hb).
    revert Hu. unfold UF.__init__.
    destruct (Rleb up lo); [discriminate|].
    destruct (NF.log self && Rleb lo 0); [discriminate|].
    unfold check_default_uniformfloat. rewrite np_round_IZR.
    destruct (is_legal_uniformfloat _ up lo); [|discriminate].
    cbn [mbind result_bind Py.bind].
    destruct (NF.log self), (NF.q self); intros [= <-]; simpl in *;
      injection Hy as <-; done. }
  split.
  - intros u Hu. destruct (Hd u Hu) as [H1 H2].
    apply UniformFloat_init_inv in Hu as (_ & _ & -> & -> & _). done.
  - intros Hout.
    destruct (UF.__init__ _ lo up _ _ _) as [u|e] eqn:Hu.
    + destruct (Hd u eq_refl) as [_ H2]. done.
    + revert Hu. unfold UF.__init__.
      destruct (Rleb up lo); [now intros [= <-]|].
      destruct (NF.log self && Rleb lo 0); [now intros [= <-]|].
      unfold check_default_uniformfloat.
      destruct (is_legal_uniformfloat _ up lo).
      * cbn [mbind result_bind Py.bind].
        destruct (NF.log self), (NF.q self); discriminate.
      * now intros [= <-].
Qed.

(** ** Ordinal orders *)

Lemma map_fst_enum_from l : forall c, map fst (enum_from c l) = l.
Proof. induction l as [|x l IH]; intros c; simpl; [done|]. now rewrite IH. Qed.

Lemma index_of_order_enum_from l : forall (c : Z) (i : nat),
  (i < length l)%nat ->
  Ord.index_of_order (map snd (enum_from c l)) (c + Z.of_nat i)
  = Ok (Z.of_nat i).
Proof.
  induction l as [|x l IH]; intros c i Hi; simpl in *; [lia|].
  destruct i as [|i].
  - assert ((c =? c + Z.of_nat 0)%Z = true) as -> by (apply Z.eqb_eq; lia).
    done.
  - assert ((c =? c + Z.of_nat (S i))%Z = false) as ->
      by (apply Z.eqb_neq; lia).
    replace (c + Z.of_nat (S i))%Z with (c + 1 + Z.of_nat i)%Z by lia.
    rewrite IH by lia. simpl. f_equal. lia.
Qed.

Lemma dict_get_dict_set_other {V} (d : pydict V) e (c : V) v :
  py_eqb e v = false ->
  (forall k x, (k, x) ∈ d -> py_eqb k v = false) ->
  forall k x, (k, x) ∈ dict_set d e c -> py_eqb k v = false.
Proof.
  intros He. induction d as [|[k' x'] d IH]; intros Hd k x; simpl.
  - intros Hin. apply list_elem_of_singleton in Hin as [= -> ->]. done.
  - destruct (py_eqb k' e) eqn:E.
    + intros Hin. apply elem_of_cons in Hin as [[= -> ->]|Hin].
      * apply (Hd k' x'). left.
      * apply (Hd k x). now right.
    + intros Hin. apply elem_of_cons in Hin as [[= -> ->]|Hin].
      * apply (Hd k' x'). left.
      * apply IH in Hin; [done|]. intros k2 x2 H2. apply (Hd k2 x2). now right.
Qed.

Lemma dict_get_missing {V} (d : pydict V) v :
  (forall k x, (k, x) ∈ d -> py_eqb k v = false) ->
  dict_get d v = Raise KeyError.
Proof.
  induction d as [|[k x] d IH]; intros H; simpl; [done|].
  rewrite (H k x) by left. apply IH. intros k2 x2 H2.
  apply (H k2 x2). now right.
Qed.

Lemma fill_value_dict_keys rest v : forall c d,
  (forall e, e ∈ rest -> py_eqb e v = false) ->
  (forall k x, (k, x) ∈ d -> py_eqb k v = false) ->
  forall k x, (k, x) ∈ Ord.fill_value_dict rest c d -> py_eqb k v = false.
Proof.
  induction rest as [|e rest IH]; intros c d Hr Hd; simpl; [done|].
  apply IH.
  - intros e' He'. apply Hr. now right.
  - apply dict_get_dict_set_other; [|done]. apply Hr. left.
Qed.

Section OrdinalOrders.

Variables (name : string) (sequence : list pyval) (default : option pyval)
          (self : Ord.t).
Hypothesis Hinit : Ord.__init__ name sequence default = Ok self.
Hypothesis Hdistinct : pairwise_distinct sequence.

Lemma Ordinal_value_dict : Ord.value_dict self = enum_from 1 sequence.
Proof.
  apply Ordinal_init_fields in Hinit as (_ & _ & ->).
  rewrite fill_value_dict_distinct; [done| |done].
  intros ? ? ? Hin. inversion Hin.
Qed.

Lemma Ordinal_get_order (i : nat) v :
  sequence !! i = Some v -> py_eqb v v = true ->
  Ord.get_order self v = Ok (Z.of_nat i + 1)%Z.
Proof.
  intros Hi Hv. unfold Ord.get_order. rewrite Ordinal_value_dict.
  rewrite (dict_get_enum_from _ _ _ _ Hdistinct Hi Hv). f_equal. lia.
Qed.

Lemma Ordinal_get_value (i : nat) v :
  sequence !! i = Some v ->
  Ord.get_value self (Z.of_nat i + 1) = Ok v.
Proof.
  intros Hi. unfold Ord.get_value. rewrite Ordinal_value_dict.
  replace (Z.of_nat i + 1)%Z with (1 + Z.of_nat i)%Z by lia.
  rewrite index_of_order_enum_from by (now apply lookup_lt_Some in Hi).
  cbn [mbind result_bind Py.bind]. rewrite map_fst_enum_from.
  now apply getitem_nat.
Qed.

Lemma Ordinal_check_order (i j : nat) v w :
  sequence !! i = Some v -> py_eqb v v = true ->
  sequence !! j = Some w -> py_eqb w w = true ->
  Ord.check_order self v w = Ok (i <? j)%nat.
Proof.
  intros Hi Hv Hj Hw. unfold Ord.check_order.
  rewrite (Ordinal_get_order i v), (Ordinal_get_order j w) by done.
  cbn [mbind result_bind Py.bind]. f_equal.
  destruct (Z.of_nat i + 1 <? Z.of_nat j + 1)%Z eqn:E.
  - apply Z.ltb_lt in E. symmetry. apply Nat.ltb_lt. lia.
  - apply Z.ltb_ge in E. symmetry. apply Nat.ltb_ge. lia.
Qed.

End OrdinalOrders.

Lemma Ordinal_get_order_missing name sequence default self v :
  Ord.__init__ name sequence default = Ok self ->
  py_in v sequence = false ->
  Ord.get_order self v = Raise KeyError.
Proof.
  intros Hi Hv. apply Ordinal_init_fields in Hi as (_ & _ & Hd).
  unfold Ord.get_order. rewrite Hd. apply dict_get_missing.
  apply fill_value_dict_keys.
  - intros e He. rewrite py_eqb_sym. revert e He. now apply py_in_false.
  - intros k x Hin. inversion Hin.
Qed.

(** X18: for a constructed ordinal with pairwise different elements,
    [get_order] of the element at the 0-based position [i] is [i + 1] and
    [get_value] of [i + 1] is that element; [check_order] compares the
    positions; [get_order] of a value that is not in the sequence raises
    KeyError. *)
Theorem Ordinal_orders name (sequence : list pyval) default (self : Ord.t) :
  Ord.__init__ name sequence default = Ok self ->
  pairwise_distinct sequence ->
  (forall (i : nat) v,
     sequence !! i = Some v -> py_eqb v v = true ->
     Ord.get_order self v = Ok (Z.of_nat i + 1)%Z
     /\ Ord.get_value self (Z.of_nat i + 1) = Ok v)
  /\ (forall (i j : nat) v w,
     sequence !! i = Some v -> py_eqb v v = true ->
     sequence !! j = Some w -> py_eqb w w = true ->
     Ord.check_order self v w = Ok (i <? j)%nat)
  /\ (forall v, py_in v sequence = false ->
     Ord.get_order self v = Raise KeyError).
Proof.
  intros Hi Hp. split; [|split].
  - intros i v Hv Hr. split.
    + eapply Ordinal_get_order; eauto.
    + eapply Ordinal_get_value; eauto.
  - intros i j v w. eapply Ordinal_check_order; eauto.
  - intros v. eapply Ordinal_get_order_missing; eauto.
Qed.

Section OrdinalNeighbors.

Variables (name : string) (sequence : list pyval) (default : option pyval)
          (self : Ord.t).
Hypothesis Hinit : Ord.__init__ name sequence default = Ok self.
Hypothesis Hdistinct : pairwise_distinct sequence.
Hypothesis Hself : forall x, x ∈ sequence -> py_eqb x x = true.

Variables (v : pyval) (i : nat) (rs : RandomState) (number : Z).
Hypothesis Hv : sequence !! i = Some v.
Hypothesis Hnumber : (number < Z.of_nat (length sequence))%Z.

Lemma Ordinal_neighbors_values :
  Ord.get_neighbors self v rs number true = Ok (adjacent sequence i).
Proof.
  pose proof (Ordinal_init_fields _ _ _ _ Hinit) as (Hs & Hlen & _).
  assert (Hvv : py_eqb v v = true)
    by (apply Hself; eapply list_elem_of_lookup_2; eauto).
  pose proof (lookup_lt_Some _ _ _ Hv) as Hil.
  unfold Ord.get_neighbors. rewrite Hs.
  apply Z.ltb_lt in Hnumber as ->.
  rewrite (Ordinal_get_order _ _ _ _ Hinit Hdistinct i v Hv Hvv).
  cbn [mbind result_bind Py.bind].
  rewrite get_seq_order_head by (rewrite Hlen; lia).
  cbn [mbind result_bind Py.bind]. rewrite Hlen.
  replace (Z.of_nat i + 1 - 1)%Z with (Z.of_nat i) by lia.
  unfold adjacent.
  assert (Hpred :
    (if (1 <=? Z.of_nat i)%Z
     then candidate1 ← Ord.get_value self (Z.of_nat i);
          b ← Ord.check_order self candidate1 v;
          Ok (if b : bool then [] ++ [candidate1] else [])
     else Ok [])
    = Ok (match i with O => [] | S i' => option_list (sequence !! i') end)).
  { destruct i as [|i']; [done|].
    assert ((1 <=? Z.of_nat (S i'))%Z = true) as -> by (apply Z.leb_le; lia).
    destruct (lookup_lt_is_Some_2 sequence i' ltac:(lia)) as [w Hw].
    assert (Hww : py_eqb w w = true)
      by (apply Hself; eapply list_elem_of_lookup_2; eauto).
    replace (Z.of_nat (S i')) with (Z.of_nat i' + 1)%Z by lia.
    rewrite (Ordinal_get_value _ _ _ _ Hinit Hdistinct i' w Hw).
    cbn [mbind result_bind Py.bind].
    rewrite (Ordinal_check_order _ _ _ _ Hinit Hdistinct i' (S i') w v)
      by done.
    cbn [mbind result_bind Py.bind].
    assert ((i' <? S i')%nat = true) as -> by (apply Nat.ltb_lt; lia).
    now rewrite Hw. }
  rewrite Hpred. cbn [mbind result_bind Py.bind].
  destruct (Z.of_nat i + 1 + 1 <=? Z.of_nat (length sequence))%Z eqn:E.
  - apply Z.leb_le in E.
    destruct (lookup_lt_is_Some_2 sequence (S i) ltac:(lia)) as [w Hw].
    assert (Hww : py_eqb w w = true)
      by (apply Hself; eapply list_elem_of_lookup_2; eauto).
    replace (Z.of_nat i + 1 + 1)%Z with (Z.of_nat (S i) + 1)%Z by lia.
    rewrite (Ordinal_get_value _ _ _ _ Hinit Hdistinct (S i) w Hw).
    cbn [mbind result_bind Py.bind].
    rewrite (Ordinal_check_order _ _ _ _ Hinit Hdistinct i (S i) v w)
      by done.
    cbn [mbind result_bind Py.bind].
    assert ((i <? S i)%nat = true) as -> by (apply Nat.ltb_lt; lia).
    now rewrite Hw.
  - apply Z.leb_gt in E. rewrite (lookup_ge_None_2 sequence (S i)) by lia.
    simpl. now rewrite app_nil_r.
Qed.

End OrdinalNeighbors.

(** X19: for a constructed ordinal with pairwise different elements, each
    equal to itself, a value [v] at position [i] and a number below the
    length of the sequence, [get_neighbors] with [transform=True] returns
    the element before [v], if there is one, then the element after it, if
    there is one; the number is not consulted any further. *)
Theorem Ordinal_neighbors_transformed
    name (sequence : list pyval) default (self : Ord.t) (v : pyval) (i : nat)
    (rs : RandomState) (number : Z) :
  Ord.__init__ name sequence default = Ok self ->
  pairwise_distinct sequence ->
  (forall x, x ∈ sequence -> py_eqb x x = true) ->
  sequence !! i = Some v ->
  (number < Z.of_nat (length sequence))%Z ->
  Ord.get_neighbors self v rs number true = Ok (adjacent sequence i).
Proof. intros. eapply Ordinal_neighbors_values; eauto. Qed.

Lemma length_adjacent (l : list pyval) (i : nat) :
  (i < length l)%nat ->
  length (adjacent l i)
  = ((if (0 <? i)%nat then 1 else 0) + (if (S i <? length l)%nat then 1 else 0))%nat.
Proof.
  intros Hi. unfold adjacent. rewrite length_app. f_equal.
  - destruct i as [|i']; [done|].
    destruct (lookup_lt_is_Some_2 l i' ltac:(lia)) as [w ->]. done.
  - destruct (S i <? length l)%nat eqn:E.
    + apply Nat.ltb_lt in E.
      destruct (lookup_lt_is_Some_2 l (S i) ltac:(lia)) as [w ->]. done.
    + apply Nat.ltb_ge in E. now rewrite lookup_ge_None_2 by lia.
Qed.

Lemma getitem_last {A} (l : list A) x :
  l !! (length l - 1)%nat = Some x -> getitem l (-1) = Ok x.
Proof.
  intros H. pose proof (lookup_lt_Some _ _ _ H) as Hl.
  unfold getitem. cbv zeta.
  change (-1 <? 0)%Z with true. cbv iota.
  assert ((-1 + Z.of_nat (length l) <? 0)%Z = false) as ->
    by (apply Z.ltb_ge; lia).
  replace (Z.to_nat (-1 + Z.of_nat (length l))) with (length l - 1)%nat
    by lia.
  now rewrite H.
Qed.

Lemma Ordinal_num_neighbors_at (self : Ord.t) (v : pyval) (i : nat) :
  pairwise_distinct (Ord.sequence self) ->
  Ord.sequence self !! i = Some v ->
  py_eqb v v = true ->
  Ord.get_num_neighbors self v
  = Ok (if (i =? 0)%nat || (i =? length (Ord.sequence self) - 1)%nat
        then 1 else 2)%Z.
Proof.
  intros Hp Hv Hvv. pose proof (lookup_lt_Some _ _ _ Hv) as Hl.
  unfold Ord.get_num_neighbors.
  destruct (lookup_lt_is_Some_2 (Ord.sequence self) 0 ltac:(lia))
    as [first Hf].
  destruct (lookup_lt_is_Some_2 (Ord.sequence self)
              (length (Ord.sequence self) - 1) ltac:(lia)) as [last Hla].
  pose proof (getitem_nat _ 0 first Hf) as Hg. change (Z.of_nat 0) with 0%Z in Hg.
  rewrite Hg. cbn [mbind result_bind Py.bind].
  destruct (i =? 0)%nat eqn:E0.
  - apply Nat.eqb_eq in E0. subst i. rewrite Hf in Hv. injection Hv as ->.
    now rewrite Hvv.
  - apply Nat.eqb_neq in E0. rewrite (Hp i 0%nat v first Hv Hf E0).
    rewrite (getitem_last _ last Hla). cbn [mbind result_bind Py.bind].
    destruct (i =? length (Ord.sequence self) - 1)%nat eqn:E1.
    + apply Nat.eqb_eq in E1. subst i. rewrite Hla in Hv. injection Hv as ->.
      now rewrite Hvv.
    + apply Nat.eqb_neq in E1. now rewrite (Hp i _ v last Hv Hla E1).
Qed.

(** X20: under the same conditions, the list that [get_neighbors] returns
    has the length that [get_num_neighbors] answers, for every sequence of
    two or more elements; for a sequence of one element
    [get_num_neighbors] answers 1 although there is no neighbor and
    [has_neighbors] is False. *)
Theorem Ordinal_neighbors_count
    name (sequence : list pyval) default (self : Ord.t) (v : pyval) (i : nat)
    (rs : RandomState) (number : Z) :
  Ord.__init__ name sequence default = Ok self ->
  pairwise_distinct sequence ->
  (forall x, x ∈ sequence -> py_eqb x x = true) ->
  sequence !! i = Some v ->
  (number < Z.of_nat (length sequence))%Z ->
  exists l n,
    Ord.get_neighbors self v rs number true = Ok l
    /\ Ord.get_num_neighbors self v = Ok n
    /\ ((2 <= length sequence)%nat -> Z.of_nat (length l) = n)
    /\ (length sequence = 1%nat ->
        l = [] /\ n = 1%Z /\ Ord.has_neighbors self = false).
Proof.
  intros Hi Hp Hs Hv Hn.
  pose proof (Ordinal_init_fields _ _ _ _ Hi) as (Hseq & _ & _).
  pose proof (lookup_lt_Some _ _ _ Hv) as Hl.
  assert (Hvv : py_eqb v v = true)
    by (apply Hs; eapply list_elem_of_lookup_2; eauto).
  exists (adjacent sequence i). eexists. split; [|split; [|split]].
  - eapply Ordinal_neighbors_values; eauto.
  - apply (Ordinal_num_neighbors_at self v i); rewrite ?Hseq; auto.
  - intros H2. rewrite length_adjacent, Hseq by done.
    destruct (Nat.ltb_spec 0 i), (Nat.ltb_spec (S i) (length sequence)),
      (Nat.eqb_spec i 0), (Nat.eqb_spec i (length sequence - 1));
      simpl; lia.
  - intros H1. rewrite Hseq, H1. assert (i = 0%nat) as -> by lia.
    split; [|split; [done|]].
    + unfold adjacent. now rewrite lookup_ge_None_2 by lia.
    + unfold Ord.has_neighbors. now rewrite Hseq, H1.
Qed.

(** ** From the vector and back *)

Lemma unit_interval_forth (lg : bool) (r a b : R) :
  a <> b ->
  ((if lg then ln (if lg then exp (r * (b - a) + a) else r * (b - a) + a)
    else (if lg then exp (r * (b - a) + a) else r * (b - a) + a)) - a)
  / (b - a) = r.
Proof.
  intros Hab. destruct lg; [rewrite ln_exp|]; field; lra.
Qed.

Lemma UniformFloat_vector_round_trip name lo up d lg h (r : R) :
  UF.__init__ name lo up d None lg = Ok h ->
  exists y, UF._transform h (Fin r) = Ok (PyFloat (Fin y))
            /\ UF._inverse_transform h (PyFloat (Fin y))
               = Ok (PyFloat (Fin r)).
Proof.
  intros Hi. apply UniformFloat_init_inv in Hi
    as (Hlt & Hpos & Hlo & Hup & Hq & Hlg & Hl & Hr).
  cbv zeta in Hl, Hr.
  assert (exists a b, UF._lower h = Fin a /\ UF._upper h = Fin b /\ a < b)
    as (a & b & Ha & Hb & Hab).
  { rewrite Hl, Hr. destruct lg.
    - specialize (Hpos eq_refl). rewrite !np_log_pos by lra.
      eexists _, _. repeat split. apply ln_increasing; lra.
    - eexists _, _. repeat split. done. }
  rewrite (UniformFloat_transform_Fin h r a b Ha Hb)
    by (rewrite Hq; discriminate).
  rewrite Hq. cbn [snap]. eexists. split; [reflexivity|].
  rewrite (UniformFloat_inverse_Fin h (PyFloat (Fin _)) _ a b eq_refl Ha Hb)
    by (try lra; intros E; rewrite E; apply exp_pos).
  now rewrite unit_interval_forth by lra.
Qed.

Lemma NormalFloat_vector_round_trip (h : NF.t) (r : R) :
  NF.q h = None ->
  exists y, NF._transform h (Fin r) = Ok (PyFloat (Fin y))
            /\ NF._inverse_transform h (PyFloat (Fin y))
               = Ok (PyFloat (Fin r)).
Proof.
  intros Hq. rewrite NormalFloat_transform_Fin by (rewrite Hq; discriminate).
  rewrite Hq. cbn [snap]. eexists. split; [reflexivity|].
  unfold NF._inverse_transform. destruct (NF.log h); [|done].
  cbn [py_num]. rewrite np_log_pos by apply exp_pos. now rewrite ln_exp.
Qed.

(** X21: without quantization, the inverse transform of the transform of
    a finite vector entry is that entry, for a constructed uniform float
    and for a normal float, on the log scale or off it. *)
Theorem float_vector_round_trip (r : R) :
  (forall h : UF.t,
     constructed (HUniformFloat h) -> UF.q h = None ->
     exists y, UF._transform h (Fin r) = Ok (PyFloat (Fin y))
               /\ UF._inverse_transform h (PyFloat (Fin y))
                  = Ok (PyFloat (Fin r)))
  /\ (forall h : NF.t,
     NF.q h = None ->
     exists y, NF._transform h (Fin r) = Ok (PyFloat (Fin y))
               /\ NF._inverse_transform h (PyFloat (Fin y))
                  = Ok (PyFloat (Fin r))).
Proof.
  split.
  - intros h Hc Hq.
    inversion Hc as [|name lo up d q lg h' Hi| | | | |]; subst h'.
    pose proof (UniformFloat_init_inv _ _ _ _ _ _ _ Hi)
      as (_ & _ & _ & _ & Hq' & _).
    rewrite Hq in Hq'. subst q.
    eapply UniformFloat_vector_round_trip; eauto.
  - intros h Hq. now apply NormalFloat_vector_round_trip.
Qed.

(** ** Configuration: reads and writes *)

Lemma assoc_assoc_set_same {V} (l : list (string * V)) key (v : V) :
  Cfg.assoc (Cfg.assoc_set l key v) key = Some v.
Proof.
  induction l as [|[k x] l IH]; simpl.
  - now rewrite String.eqb_refl.
  - destruct (String.eqb k key) eqn:E; simpl; now rewrite E.
Qed.

Lemma assoc_assoc_set_other {V} (l : list (string * V)) key key' (v : V) :
  key' <> key ->
  Cfg.assoc (Cfg.assoc_set l key v) key' = Cfg.assoc l key'.
Proof.
  intros Hn. induction l as [|[k x] l IH]; simpl.
  - destruct (String.eqb_spec key key'); [congruence|done].
  - destruct (String.eqb_spec k key) as [->|]; simpl.
    + destruct (String.eqb_spec key key'); [congruence|done].
    + destruct (String.eqb k key'); [done|apply IH].
Qed.

Lemma getitem_cached_key (key : string) (h : Cfg.heap) (self : Cfg.t) d v :
  Cfg._values self = Some d -> Cfg.assoc d key = Some v ->
  Cfg.__getitem__ key (h, self) = (Ok v, (h, self)).
Proof.
  intros Hd Hv. unfold Cfg.__getitem__. run_M. rewrite Hd. simpl.
  now rewrite Hv.
Qed.

Lemma getitem_uncached (key : string) (h : Cfg.heap) (self : Cfg.t) :
  from_option (fun d => Cfg.assoc d key) None (Cfg._values self) = None ->
  Cfg.__getitem__ key (h, self)
  = if negb (Cfg.cs_contains (Cfg.config_space self) key)
    then (Raise KeyError, (h, self))
    else
      match Cfg.cs_index_of (Cfg.config_space self) key with
      | Raise e => (Raise e, (h, self))
      | Ok idx =>
          match Cfg.array_at h (Cfg._vector self) !! idx with
          | None => (Raise IndexError, (h, self))
          | Some x =>
              if np_isnan x then (Raise KeyError, (h, self))
              else
                match Cfg.cs_getitem (Cfg.config_space self) key with
                | Raise e => (Raise e, (h, self))
                | Ok hp =>
                    match decoded hp x with
                    | Raise e => (Raise e, (h, self))
                    | Ok value =>
                        (Ok value,
                         (h, {| Cfg.config_space := Cfg.config_space self;
                                Cfg.allow_inactive_with_values :=
                                  Cfg.allow_inactive_with_values self;
                                Cfg.origin := Cfg.origin self;
                                Cfg.config_id := Cfg.config_id self;
                                Cfg._values :=
                                  Some (Cfg.assoc_set
                                          (default [] (Cfg._values self))
                                          key value);
                                Cfg._vector := Cfg._vector self |}))
                    end
                end
          end
      end.
Proof.
  intros Hc. unfold Cfg.__getitem__, Cfg.vector_getitem, decoded, stored.
  run_M.
  rewrite Hc.
  destruct (negb _); [done|].
  destruct (Cfg.cs_index_of _ key) as [idx|]; [|done]. run_M.
  destruct (_ !! idx) as [x|]; [|done]. run_M.
  destruct (np_isnan x); [done|].
  destruct (Cfg.cs_getitem _ key) as [hp|]; [|done]. run_M.
  destruct (Cfg.to_value hp x) as [value|]; [|done]. run_M.
  destruct (Cfg.isinstance_FloatHyperparameter hp); reflexivity.
Qed.

(** X22: a [__getitem__] that returns leaves the store, the space and the
    vector as they are; after it the cache holds the value returned for the
    key, and what it held for other keys before: a second read returns the
    same value and changes nothing. *)
Theorem getitem_caches (key : string) (h h' : Cfg.heap)
    (self self' : Cfg.t) (v : pyval) :
  Cfg.__getitem__ key (h, self) = (Ok v, (h', self')) ->
  h' = h
  /\ Cfg.config_space self' = Cfg.config_space self
  /\ Cfg._vector self' = Cfg._vector self
  /\ (exists d, Cfg._values self' = Some d /\ Cfg.assoc d key = Some v)
  /\ (forall key', key' <> key ->
        from_option (fun d => Cfg.assoc d key') None (Cfg._values self')
        = from_option (fun d => Cfg.assoc d key') None (Cfg._values self))
  /\ Cfg.__getitem__ key (h', self') = (Ok v, (h', self')).
Proof.
  intros H.
  assert (G : h' = h
    /\ Cfg.config_space self' = Cfg.config_space self
    /\ Cfg._vector self' = Cfg._vector self
    /\ (exists d, Cfg._values self' = Some d /\ Cfg.assoc d key = Some v)
    /\ (forall key', key' <> key ->
          from_option (fun d => Cfg.assoc d key') None (Cfg._values self')
          = from_option (fun d => Cfg.assoc d key') None (Cfg._values self))).
  { destruct (from_option (fun d => Cfg.assoc d key) None (Cfg._values self))
      as [w|] eqn:Hc.
    - destruct (Cfg._values self) as [d|] eqn:Hd; [|discriminate].
      simpl in Hc. rewrite (getitem_cached_key key h self d w Hd Hc) in H.
      injection H as <- <- <-. rewrite Hd. eauto 10.
    - rewrite (getitem_uncached key h self Hc) in H.
      destruct (negb _); [discriminate|].
      destruct (Cfg.cs_index_of _ key) as [idx|]; [|discriminate].
      destruct (_ !! idx) as [x|]; [|discriminate].
      destruct (np_isnan x); [discriminate|].
      destruct (Cfg.cs_getitem _ key) as [hp|]; [|discriminate].
      destruct (decoded hp x) as [value|]; [|discriminate].
      injection H as <- <- <-. simpl.
      split; [done|]. split; [done|]. split; [done|]. split.
      + eexists. split; [done|]. apply assoc_assoc_set_same.
      + intros key' Hn. rewrite assoc_assoc_set_other by done.
        now destruct (Cfg._values self). }
  destruct G as (-> & Hcs & Hvec & (d & Hd & Hv) & Hothers).
  repeat (split; [eauto; fail|]).
  now apply (getitem_cached_key key h self' d v).
Qed.

Lemma array_at_snoc (h : Cfg.heap) (a : list npfloat) :
  Cfg.array_at (h ++ [a]) (length h) = a.
Proof. unfold Cfg.array_at. now rewrite lookup_app_r, Nat.sub_diag by lia. Qed.

Lemma insert_snoc (h : Cfg.heap) (a b : list npfloat) :
  <[length h:=a]> (h ++ [b]) = h ++ [a].
Proof. rewrite insert_app_r_alt, Nat.sub_diag by lia. done. Qed.

Lemma setitem_unfold (C : Cfg.Collaborators) key value h self :
  Cfg.__setitem__ C key value (h, self)
  = match Cfg.cs_getitem (Cfg.config_space self) key with
    | Raise e => (Raise e, (h, self))
    | Ok param =>
        if negb (Cfg.legal_value param value)
        then (Raise IllegalValueError, (h, self))
        else
          match Cfg.cs_index_of (Cfg.config_space self) key with
          | Raise e => (Raise e, (h, self))
          | Ok idx =>
              match Cfg.to_vector param value ≫= vector_entry with
              | Raise e => (Raise e, (h, self))
              | Ok x =>
                  let old := Cfg.array_at h (Cfg._vector self) in
                  match Cfg.change_hp_value C (Cfg.config_space self)
                          old (Cfg.hp_name param) x idx with
                  | Raise e => (Raise e, (h ++ [old], self))
                  | Ok new_array =>
                      match Cfg.check_configuration C (Cfg.config_space self)
                              new_array false with
                      | Raise e => (Raise e, (h ++ [new_array], self))
                      | Ok _ =>
                          (Ok (),
                           (h ++ [new_array],
                            {| Cfg.config_space := Cfg.config_space self;
                               Cfg.allow_inactive_with_values :=
                                 Cfg.allow_inactive_with_values self;
                               Cfg.origin := Cfg.origin self;
                               Cfg.config_id := Cfg.config_id self;
                               Cfg._values := None;
                               Cfg._vector := length h |}))
                      end
                  end
              end
          end
    end.
Proof.
  unfold Cfg.__setitem__. run_M.
  destruct (Cfg.cs_getitem _ key) as [param|]; [|done]. run_M.
  destruct (negb _); [done|].
  destruct (Cfg.cs_index_of _ key) as [idx|]; [|done]. run_M.
  destruct (Cfg.to_vector param value) as [y|]; [|done]. run_M.
  cbn [mbind result_bind Py.bind].
  destruct (vector_entry y) as [x|]; [|done]. run_M.
  rewrite array_at_snoc.
  destruct (Cfg.change_hp_value C _ _ _ _ _) as [new_array|]; [|done].
  rewrite insert_snoc, array_at_snoc.
  destruct (Cfg.check_configuration C _ _ _) as [[]|]; done.
Qed.

(** X23: a [__setitem__] that returns leaves every array that existed
    before it unchanged; the configuration then refers to a new array, the
    one that the collaborators computed from the old vector and accepted,
    and its cache is empty. *)
Theorem setitem_writes_a_copy (C : Cfg.Collaborators) (key : string)
    (value : pyval) (h h' : Cfg.heap) (self self' : Cfg.t) :
  Cfg.__setitem__ C key value (h, self) = (Ok (), (h', self')) ->
  (forall l, (l < length h)%nat -> h' !! l = h !! l)
  /\ length h' = S (length h)
  /\ Cfg._vector self' = length h
  /\ Cfg._values self' = None
  /\ Cfg.config_space self' = Cfg.config_space self
  /\ exists param idx x,
       Cfg.cs_getitem (Cfg.config_space self) key = Ok param
       /\ Cfg.legal_value param value = true
       /\ Cfg.cs_index_of (Cfg.config_space self) key = Ok idx
       /\ Cfg.to_vector param value ≫= vector_entry = Ok x
       /\ Cfg.change_hp_value C (Cfg.config_space self)
            (Cfg.array_at h (Cfg._vector self)) (Cfg.hp_name param) x idx
          = Ok (Cfg.array_at h' (Cfg._vector self'))
       /\ Cfg.check_configuration C (Cfg.config_space self)
            (Cfg.array_at h' (Cfg._vector self')) false = Ok ().
Proof.
  rewrite setitem_unfold.
  destruct (Cfg.cs_getitem _ key) as [param|] eqn:E1; [|discriminate].
  destruct (Cfg.legal_value param value) eqn:E2; [|discriminate].
  destruct (Cfg.cs_index_of _ key) as [idx|] eqn:E3; [|discriminate].
  destruct (Cfg.to_vector param value ≫= vector_entry) as [x|] eqn:E4;
    [|discriminate].
  cbv zeta.
  destruct (Cfg.change_hp_value C _ _ _ _ _) as [new_array|] eqn:E5;
    [|discriminate].
  destruct (Cfg.check_configuration C _ _ _) as [[]|] eqn:E6; [|discriminate].
  intros [= <- <-]. simpl.
  pose proof (array_at_snoc h new_array) as Ea.
  split; [intros l Hl; now rewrite lookup_app_l|].
  split; [rewrite length_app; simpl; lia|].
  split; [done|]. split; [done|]. split; [done|].
  exists param, idx, x. rewrite Ea. auto 10.
Qed.

(** X24: let [change_hp_value] put the entry it is given into the slot it
    is given, and let the slot of the key exist.  After [cfg[key] = value]
    has returned, [cfg[key]] returns the value decoded from the vector
    entry of [value], or raises KeyError when that entry is NaN. *)
Theorem setitem_then_getitem (C : Cfg.Collaborators) (key : string)
    (value : pyval) (h h' : Cfg.heap) (self self' : Cfg.t) :
  (forall cs a name x i a',
     Cfg.change_hp_value C cs a name x i = Ok a' ->
     (i < length a)%nat -> a' !! i = Some x) ->
  (forall idx, Cfg.cs_index_of (Cfg.config_space self) key = Ok idx ->
     (idx < length (Cfg.array_at h (Cfg._vector self)))%nat) ->
  Cfg.__setitem__ C key value (h, self) = (Ok (), (h', self')) ->
  exists param x,
    Cfg.cs_getitem (Cfg.config_space self) key = Ok param
    /\ Cfg.to_vector param value ≫= vector_entry = Ok x
    /\ (Cfg.__getitem__ key (h', self')).1
       = if np_isnan x then Raise KeyError else decoded param x.
Proof.
  intros Hchg Hidx. rewrite setitem_unfold.
  destruct (Cfg.cs_getitem _ key) as [param|] eqn:E1; [|discriminate].
  destruct (Cfg.legal_value param value) eqn:E2; [|discriminate].
  destruct (Cfg.cs_index_of _ key) as [idx|] eqn:E3; [|discriminate].
  destruct (Cfg.to_vector param value ≫= vector_entry) as [x|] eqn:E4;
    [|discriminate].
  cbv zeta.
  destruct (Cfg.change_hp_value C _ _ _ _ _) as [new_array|] eqn:E5;
    [|discriminate].
  destruct (Cfg.check_configuration C _ _ _) as [[]|] eqn:E6; [|discriminate].
  intros [= <- <-]. exists param, x. split; [done|]. split; [done|].
  rewrite getitem_uncached by done. simpl Cfg.config_space.
  simpl Cfg._vector.
  assert (Cfg.cs_contains (Cfg.config_space self) key = true) as ->.
  { unfold Cfg.cs_contains. unfold Cfg.cs_getitem in E1.
    destruct (Cfg.assoc _ key); [done|discriminate]. }
  simpl negb. cbv iota. rewrite E3.
  rewrite array_at_snoc.
  rewrite (Hchg _ _ _ _ _ _ E5) by (apply Hidx; reflexivity).
  destruct (np_isnan x); [done|]. rewrite E1.
  destruct (decoded param x); done.
Qed.

(** ** Configuration: membership, iteration and construction *)

(** X25: [__contains__] answers False for an item that is not a string;
    for a string it calls itself without end: it never answers True. *)
Theorem contains_never_true (item : pyval) :
  (forall depth b, Cfg.__contains__ depth item = Done b ->
     b = false /\ isinstance_str item = false)
  /\ (isinstance_str item = false ->
      forall depth, Cfg.__contains__ (S depth) item = Done false)
  /\ (isinstance_str item = true ->
      forall depth, Cfg.__contains__ depth item = OutOfFuel).
Proof.
  split; [|split].
  - induction depth as [|depth IH]; intros b; simpl; [discriminate|].
    destruct (isinstance_str item); simpl; [apply IH|].
    now intros [= <-].
  - intros H depth. simpl. now rewrite H.
  - intros H. induction depth as [|depth IH]; simpl; [done|].
    now rewrite H.
Qed.

Lemma iter_loop_active (ks : list string) (h : Cfg.heap) (self : Cfg.t) :
  forall res s',
  Cfg.iter_loop ks (h, self) = (Ok res, s') ->
  s' = (h, self)
  /\ res = List.filter (active (Cfg.config_space self)
                          (Cfg.array_at h (Cfg._vector self))) ks.
Proof.
  induction ks as [|key ks IH]; intros res s'; simpl.
  - unfold Cfg.ret. now intros [= <- <-].
  - unfold Cfg.vector_getitem. run_M. unfold Cfg.cs_index_of, active.
    destruct (Cfg.index_of _ key) as [idx|]; [|discriminate]. run_M.
    destruct (_ !! idx) as [x|]; [|discriminate]. run_M.
    destruct (Cfg.iter_loop ks (h, self)) as [[rest|] s1] eqn:E;
      [|discriminate].
    destruct (IH rest s1 eq_refl) as [-> ->].
    intros [= <- <-]. split; [done|]. now destruct (np_isnan x).
Qed.

(** X26: [__iter__] yields the keys of the space whose slot of the vector
    holds a number, in the order of the space, and changes nothing;
    [__len__] counts all hyperparameters of the space: the two numbers
    agree only when no slot is NaN or missing. *)
Theorem iter_yields_active_keys (h : Cfg.heap) (self : Cfg.t)
    (ks : list string) (s' : Cfg.state) :
  Cfg.__iter__ (h, self) = (Ok ks, s') ->
  s' = (h, self)
  /\ ks = List.filter (active (Cfg.config_space self)
                         (Cfg.array_at h (Cfg._vector self)))
            (Cfg.keys (Cfg.config_space self))
  /\ exists n, Cfg.__len__ (h, self) = (Ok n, (h, self))
               /\ (length ks <= n)%nat
               /\ (length ks = n <->
                   forallb (active (Cfg.config_space self)
                              (Cfg.array_at h (Cfg._vector self)))
                     (Cfg.keys (Cfg.config_space self)) = true).
Proof.
  unfold Cfg.__iter__. run_M. intros H.
  apply iter_loop_active in H as [-> ->]. split; [done|]. split; [done|].
  exists (length (Cfg.items (Cfg.config_space self))).
  split; [reflexivity|].
  unfold Cfg.keys. rewrite <- (length_map fst (Cfg.items _)).
  generalize (map fst (Cfg.items (Cfg.config_space self))) as l.
  generalize (active (Cfg.config_space self)
                (Cfg.array_at h (Cfg._vector self))) as f.
  intros f l. split.
  - apply List.filter_length_le.
  - induction l as [|x l IH]; simpl; [done|].
    pose proof (List.filter_length_le f l) as Hle.
    destruct (f x); simpl.
    + rewrite <- IH. lia.
    + split; [lia|discriminate].
Qed.

(** X27: a configuration built from a vector with as many entries as the
    space has hyperparameters is returned without consulting the
    collaborators or the legality of the entries: the result is the same
    for all collaborators, holds the vector as given and no cache; a vector
    of another length raises ValueError. *)
Theorem init_from_vector_unchecked (cs : Cfg.ConfigurationSpace)
    (vector : list npfloat) (a : bool) (o : option pyval) (cid : option Z)
    (h : Cfg.heap) :
  (length vector = length (Cfg.items cs) ->
   exists self,
     (forall C, Cfg.__init__ C cs None (Some vector) a o cid h
                = (Ok self, h ++ [vector]))
     /\ Cfg.array_at (h ++ [vector]) (Cfg._vector self) = vector
     /\ Cfg._values self = None
     /\ Cfg.config_space self = cs)
  /\ (length vector <> length (Cfg.items cs) ->
      forall C, Cfg.__init__ C cs None (Some vector) a o cid h
                = (Raise ValueError, h)).
Proof.
  split.
  - intros Hl. eexists. split; [|split; [|split]].
    + intros C. unfold Cfg.__init__. rewrite decide_True by done.
      unfold Cfg.alloc, Cfg.set_vector. cbn. reflexivity.
    + apply array_at_snoc.
    + reflexivity.
    + reflexivity.
  - intros Hl C. unfold Cfg.__init__. now rewrite decide_False.
Qed.

Lemma vector_setitem_unfold (i : nat) (x : npfloat) h self :
  Cfg.vector_setitem i x (h, self)
  = if decide (i < length (Cfg.array_at h (Cfg._vector self)))%nat
    then (Ok (), (<[Cfg._vector self :=
                     <[i := x]> (Cfg.array_at h (Cfg._vector self))]> h,
                  self))
    else (Raise IndexError, (h, self)).
Proof.
  unfold Cfg.vector_setitem. run_M. now destruct (decide _).
Qed.

Lemma init_loop_cons key hp its values h self :
  Cfg.init_loop ((key, hp) :: its) values (h, self)
  = match Cfg.cs_index_of (Cfg.config_space self) key with
    | Raise e => (Raise e, (h, self))
    | Ok i =>
        match Cfg.assoc values key with
        | None =>
            match Cfg.vector_setitem i NaN (h, self) with
            | (Ok _, s) => Cfg.init_loop its values s
            | (Raise e, s) => (Raise e, s)
            end
        | Some value =>
            if negb (Cfg.legal_value hp value)
            then (Raise IllegalValueError, (h, self))
            else
              match stored hp value with
              | Raise e => (Raise e, (h, self))
              | Ok value =>
                  let self1 :=
                    with_values self
                      (Some (Cfg.assoc_set (default [] (Cfg._values self))
                               key value)) in
                  match Cfg.to_vector hp value ≫= vector_entry with
                  | Raise e => (Raise e, (h, self1))
                  | Ok x =>
                      match Cfg.vector_setitem i x (h, self1) with
                      | (Ok _, s) => Cfg.init_loop its values s
                      | (Raise e, s) => (Raise e, s)
                      end
                  end
              end
        end
    end.
Proof.
  cbn [Cfg.init_loop]. unfold stored, with_values. run_M.
  destruct (Cfg.cs_index_of _ key) as [i|]; [|done]. run_M.
  destruct (Cfg.assoc values key) as [value|].
  - destruct (negb _); [done|].
    destruct (Cfg.isinstance_FloatHyperparameter hp).
    + destruct (Cfg.round16 value) as [value'|]; [|done]. run_M.
      destruct (Cfg.to_vector hp value') as [y|]; [|done]. run_M.
      cbn [mbind result_bind Py.bind].
      destruct (vector_entry y) as [x|]; [|done]. run_M.
      change (Cfg.vector_setitem i x ≫= ?k)
        with (Cfg.mbind (Cfg.vector_setitem i x) k).
      unfold Cfg.mbind. reflexivity.
    + run_M.
      destruct (Cfg.to_vector hp value) as [y|]; [|done]. run_M.
      cbn [mbind result_bind Py.bind].
      destruct (vector_entry y) as [x|]; [|done]. run_M.
      change (Cfg.vector_setitem i x ≫= ?k)
        with (Cfg.mbind (Cfg.vector_setitem i x) k).
      unfold Cfg.mbind. reflexivity.
  - change (Cfg.vector_setitem i NaN ≫= ?k)
      with (Cfg.mbind (Cfg.vector_setitem i NaN) k).
    unfold Cfg.mbind. reflexivity.
Qed.

Lemma vector_setitem_state i x h self r h2 self2 :
  Cfg.vector_setitem i x (h, self) = (r, (h2, self2)) ->
  self2 = self /\ length h2 = length h.
Proof.
  rewrite vector_setitem_unfold. destruct (decide _); intros [= <- <- <-].
  - split; [done|]. now rewrite length_insert.
  - done.
Qed.

Section InitLoop.

Variable values : list (string * pyval).

Lemma init_loop_cache (its : list (string * Cfg.hyperparameter)) :
  forall h self h2 self2,
  NoDup (map fst its) ->
  Cfg.init_loop its values (h, self) = (Ok (), (h2, self2)) ->
  Cfg.config_space self2 = Cfg.config_space self
  /\ Cfg._vector self2 = Cfg._vector self
  /\ Cfg.allow_inactive_with_values self2
     = Cfg.allow_inactive_with_values self
  /\ Cfg.origin self2 = Cfg.origin self
  /\ Cfg.config_id self2 = Cfg.config_id self
  /\ length h2 = length h
  /\ (is_Some (Cfg._values self) -> is_Some (Cfg._values self2))
  /\ (forall key, key ∉ map fst its ->
        Cfg.assoc (default [] (Cfg._values self2)) key
        = Cfg.assoc (default [] (Cfg._values self)) key)
  /\ (forall key hp v, (key, hp) ∈ its -> Cfg.assoc values key = Some v ->
        Cfg.legal_value hp v = true
        /\ exists v', stored hp v = Ok v'
             /\ Cfg.assoc (default [] (Cfg._values self2)) key = Some v').
Proof.
  induction its as [|[key hp] its IH]; intros h self h2 self2 Hnd.
  - simpl. unfold Cfg.ret. intros [= <- <-].
    do 8 (split; [done|]). intros key hp v Hin. inversion Hin.
  - rewrite init_loop_cons.
    apply NoDup_cons in Hnd as [Hfresh Hnd].
    destruct (Cfg.cs_index_of _ key) as [i|]; [|discriminate].
    destruct (Cfg.assoc values key) as [value|] eqn:Ev.
    + destruct (Cfg.legal_value hp value) eqn:El; [|discriminate].
      simpl negb. cbv iota.
      destruct (stored hp value) as [value'|] eqn:Es; [|discriminate].
      cbv zeta.
      destruct (Cfg.to_vector hp value' ≫= vector_entry) as [x|];
        [|discriminate].
      destruct (Cfg.vector_setitem i x _) as [[[]|] [h1 self1]] eqn:Ew;
        [|discriminate].
      apply vector_setitem_state in Ew as [-> Hlen].
      intros H. apply IH in H
        as (H1 & H2 & H3 & H4 & H5 & H6 & H7 & H8 & H9); [|done].
      simpl in *.
      split; [done|]. split; [done|]. split; [done|]. split; [done|].
      split; [done|]. split; [lia|]. split; [intros _; apply H7; eauto|].
      split.
      * intros key' Hk. rewrite H8.
        -- apply assoc_assoc_set_other. intros ->. apply Hk. left.
        -- intros Hin. apply Hk. now right.
      * intros key' hp' v Hin Hv.
        apply elem_of_cons in Hin as [[= -> ->]|Hin].
        -- rewrite Ev in Hv. injection Hv as <-.
           split; [done|]. exists value'. split; [done|].
           rewrite H8 by done. apply assoc_assoc_set_same.
        -- now apply (H9 key' hp' v).
    + destruct (Cfg.vector_setitem i NaN _) as [[[]|] [h1 self1]] eqn:Ew;
        [|discriminate].
      apply vector_setitem_state in Ew as [-> Hlen].
      intros H. apply IH in H
        as (H1 & H2 & H3 & H4 & H5 & H6 & H7 & H8 & H9); [|done].
      split; [done|]. split; [done|]. split; [done|]. split; [done|].
      split; [done|]. split; [lia|]. split; [done|]. split.
      * intros key' Hk. apply H8. intros Hin. apply Hk. now right.
      * intros key' hp' v Hin Hv.
        apply elem_of_cons in Hin as [[= -> ->]|Hin]; [congruence|].
        now apply (H9 key' hp' v).
Qed.

End InitLoop.

Lemma init_values_unfold C cs values a o cid h :
  Cfg.__init__ C cs (Some values) None a o cid h
  = if existsb (fun k => negb (Cfg.cs_contains cs k)
                         && negb (String.eqb k "")) (map fst values)
    then (Raise ValueError, h)
    else
      match Cfg.init_loop (Cfg.items cs) values
              (h ++ [Cfg.np_empty C (length (Cfg.items cs))],
               {| Cfg.config_space := cs;
                  Cfg.allow_inactive_with_values := a;
                  Cfg.origin := o; Cfg.config_id := cid;
                  Cfg._values := Some []; Cfg._vector := length h |})
      with
      | (Raise e, (h', _)) => (Raise e, h')
      | (Ok _, (h', self')) =>
          match Cfg.check_configuration C (Cfg.config_space self')
                  (Cfg.array_at h' (Cfg._vector self'))
                  (Cfg.allow_inactive_with_values self') with
          | Ok _ => (Ok self', h')
          | Raise e => (Raise e, h')
          end
      end.
Proof.
  unfold Cfg.__init__. destruct (existsb _ _); [done|].
  unfold Cfg.alloc, Cfg.is_valid_configuration. run_M.
  change (Cfg.init_loop (Cfg.items cs) values ≫= ?k)
    with (Cfg.mbind (Cfg.init_loop (Cfg.items cs) values) k).
  unfold Cfg.mbind.
  destruct (Cfg.init_loop _ _ _) as [[[]|] [h' self']]; [|done]. run_M.
  now destruct (Cfg.check_configuration C _ _ _) as [[]|].
Qed.

(** X28: when [Configuration(space, values=...)] returns, the
    collaborators have accepted its vector, every name given (but the empty
    one) is a hyperparameter of the space, every value given for a
    hyperparameter is legal, and reading its key returns that value
    (rounded to 16 places for a float hyperparameter) from the cache. *)
Theorem init_from_values_reads_back (C : Cfg.Collaborators)
    (cs : Cfg.ConfigurationSpace) (values : list (string * pyval))
    (a : bool) (o : option pyval) (cid : option Z)
    (h h' : Cfg.heap) (self : Cfg.t) :
  Cfg.__init__ C cs (Some values) None a o cid h = (Ok self, h') ->
  NoDup (Cfg.keys cs) ->
  Cfg.config_space self = cs
  /\ Cfg.check_configuration C cs (Cfg.array_at h' (Cfg._vector self)) a
     = Ok ()
  /\ (forall key, key ∈ map fst values -> key <> "" ->
        Cfg.cs_contains cs key = true)
  /\ (forall key hp v,
        (key, hp) ∈ Cfg.items cs -> Cfg.assoc values key = Some v ->
        Cfg.legal_value hp v = true
        /\ exists v', stored hp v = Ok v'
             /\ Cfg.__getitem__ key (h', self) = (Ok v', (h', self))).
Proof.
  rewrite init_values_unfold. intros H Hnd.
  destruct (existsb _ _) eqn:Eu; [discriminate|].
  destruct (Cfg.init_loop _ _ _) as [[[]|] [h1 self1]] eqn:El; [|discriminate].
  destruct (Cfg.check_configuration C _ _ _) as [[]|] eqn:Ec; [|discriminate].
  injection H as <- <-.
  apply init_loop_cache in El
    as (H1 & H2 & H3 & _ & _ & _ & H7 & _ & H9); [|exact Hnd].
  simpl in *. rewrite H1, H3 in Ec.
  split; [done|]. split; [done|]. split.
  - intros key Hin Hne.
    destruct (Cfg.cs_contains cs key) eqn:E; [done|].
    assert (existsb (fun k => negb (Cfg.cs_contains cs k)
                              && negb (String.eqb k "")) (map fst values)
            = true); [|congruence].
    apply existsb_exists. exists key. split.
    + now apply list_elem_of_In.
    + rewrite E. simpl. now destruct (String.eqb_spec key "").
  - intros key hp v Hin Hv.
    destruct (H9 key hp v Hin Hv) as (Hl & v' & Hs & Ha).
    split; [done|]. exists v'. split; [done|].
    destruct (H7 ltac:(eauto)) as [d Hd].
    apply (getitem_cached_key key h1 self1 d v'); [done|].
    now rewrite Hd in Ha.
Qed.

Lemma init_loop_ext (v1 v2 : list (string * pyval)) its :
  (forall key hp, (key, hp) ∈ its -> Cfg.assoc v1 key = Cfg.assoc v2 key) ->
  forall s, Cfg.init_loop its v1 s = Cfg.init_loop its v2 s.
Proof.
  induction its as [|[key hp] its IH]; intros Hv [h self]; [done|].
  rewrite !init_loop_cons. rewrite (Hv key hp) by left.
  assert (IH' : forall s, Cfg.init_loop its v1 s = Cfg.init_loop its v2 s).
  { apply IH. intros k p Hin. apply (Hv k p). now right. }
  destruct (Cfg.cs_index_of _ key) as [i|]; [|done].
  destruct (Cfg.assoc v2 key) as [value|].
  - destruct (negb _); [done|].
    destruct (stored hp value) as [value'|]; [|done]. cbv zeta.
    destruct (Cfg.to_vector hp value' ≫= vector_entry) as [x|]; [|done].
    destruct (Cfg.vector_setitem i x _) as [[[]|] s]; [apply IH'|done].
  - destruct (Cfg.vector_setitem i NaN _) as [[[]|] s]; [apply IH'|done].
Qed.

Lemma assoc_in {V} (l : list (string * V)) key (v : V) :
  (key, v) ∈ l -> exists v', Cfg.assoc l key = Some v'.
Proof.
  induction l as [|[k x] l IH]; intros Hin; [inversion Hin|]. simpl.
  destruct (String.eqb_spec k key) as [->|Hn]; [eauto|].
  apply elem_of_cons in Hin as [[= -> ->]|Hin]; [done|]. now apply IH.
Qed.

(** X29: a value given under a name, other than the empty one, that the
    space does not have makes the constructor raise ValueError; given
    under the empty name, when the space has no such hyperparameter, it is
    passed over: the result is the one without it. *)
Theorem init_unknown_key (C : Cfg.Collaborators)
    (cs : Cfg.ConfigurationSpace) (values : list (string * pyval))
    (a : bool) (o : option pyval) (cid : option Z) (h : Cfg.heap) :
  (forall key, key ∈ map fst values -> key <> "" ->
     Cfg.cs_contains cs key = false ->
     Cfg.__init__ C cs (Some values) None a o cid h = (Raise ValueError, h))
  /\ (forall v, Cfg.cs_contains cs "" = false ->
     Cfg.__init__ C cs (Some (("", v) :: values)) None a o cid h
     = Cfg.__init__ C cs (Some values) None a o cid h).
Proof.
  split.
  - intros key Hin Hne Hc. rewrite init_values_unfold.
    assert (existsb (fun k => negb (Cfg.cs_contains cs k)
                              && negb (String.eqb k "")) (map fst values)
            = true) as ->; [|done].
    apply existsb_exists. exists key. split.
    + now apply list_elem_of_In.
    + rewrite Hc. simpl. now destruct (String.eqb_spec key "").
  - intros v Hc. rewrite !init_values_unfold. simpl existsb.
    rewrite Hc. simpl.
    rewrite (init_loop_ext (("", v) :: values) values (Cfg.items cs));
      [reflexivity|].
    intros key hp Hin. cbn [Cfg.assoc].
    destruct (String.eqb_spec "" key) as [<-|]; [|done].
    apply assoc_in in Hin as [hp' Hhp].
    unfold Cfg.cs_contains in Hc. now rewrite Hhp in Hc.
Qed.

Lemma getitem_cached_hit key h self v :
  cached self key v -> Cfg.__getitem__ key (h, self) = (Ok v, (h, self)).
Proof.
  unfold cached. destruct (Cfg._values self) as [d|] eqn:E; [|discriminate].
  simpl. now apply getitem_cached_key.
Qed.

Lemma getitem_state key h self v h1 self1 :
  Cfg.__getitem__ key (h, self) = (Ok v, (h1, self1)) ->
  h1 = h
  /\ Cfg.config_space self1 = Cfg.config_space self
  /\ Cfg._vector self1 = Cfg._vector self
  /\ cached self1 key v
  /\ forall key' v', cached self key' v' -> cached self1 key' v'.
Proof.
  intros H.
  destruct (from_option (fun d => Cfg.assoc d key) None (Cfg._values self))
    as [w|] eqn:Hc.
  - rewrite (getitem_cached_hit key h self w Hc) in H.
    injection H as <- <- <-. auto.
  - rewrite (getitem_uncached key h self Hc) in H.
    destruct (negb _); [discriminate|].
    destruct (Cfg.cs_index_of _ key) as [idx|]; [|discriminate].
    destruct (_ !! idx) as [x|]; [|discriminate].
    destruct (np_isnan x); [discriminate|].
    destruct (Cfg.cs_getitem _ key) as [hp|]; [|discriminate].
    destruct (decoded hp x) as [value|]; [|discriminate].
    injection H as <- <- <-. unfold cached. simpl.
    split; [done|]. split; [done|]. split; [done|]. split.
    + apply assoc_assoc_set_same.
    + intros key' v' Hk.
      destruct (String.eqb_spec key' key) as [->|Hn];
        [pose proof (eq_trans (eq_sym Hc) Hk); discriminate|].
      rewrite assoc_assoc_set_other by done.
      now destruct (Cfg._values self).
Qed.

Lemma dict_loop_cons key ks d h self :
  Cfg.dict_loop (key :: ks) d (h, self)
  = match Cfg.cs_index_of (Cfg.config_space self) key with
    | Raise e => (Raise e, (h, self))
    | Ok idx =>
        match Cfg.array_at h (Cfg._vector self) !! idx with
        | None => (Raise IndexError, (h, self))
        | Some x =>
            if np_isnan x then Cfg.dict_loop ks d (h, self)
            else
              match Cfg.__getitem__ key (h, self) with
              | (Ok v, s) => Cfg.dict_loop ks (Cfg.assoc_set d key v) s
              | (Raise e, s) => (Raise e, s)
              end
        end
    end.
Proof.
  cbn [Cfg.dict_loop]. unfold Cfg.vector_getitem. run_M.
  destruct (Cfg.cs_index_of _ key) as [idx|]; [|done]. run_M.
  destruct (_ !! idx) as [x|]; [|done]. run_M.
  destruct (np_isnan x); [done|].
  change (Cfg.__getitem__ key ≫= ?k) with (Cfg.mbind (Cfg.__getitem__ key) k).
  unfold Cfg.mbind. reflexivity.
Qed.

Lemma assoc_set_keys {V} (l : list (string * V)) key (v : V) :
  key ∉ map fst l -> map fst (Cfg.assoc_set l key v) = map fst l ++ [key].
Proof.
  induction l as [|[k x] l IH]; intros Hk; simpl; [done|].
  destruct (String.eqb_spec k key) as [->|Hn].
  - exfalso. apply Hk. left.
  - simpl. f_equal. apply IH. intros Hin. apply Hk. now right.
Qed.

Lemma assoc_assoc_set {V} (l : list (string * V)) key key' (v w : V) :
  Cfg.assoc (Cfg.assoc_set l key v) key' = Some w ->
  (key' = key /\ w = v) \/ (key' <> key /\ Cfg.assoc l key' = Some w).
Proof.
  destruct (String.eqb_spec key' key) as [->|Hn].
  - rewrite assoc_assoc_set_same. intros [= <-]. auto.
  - rewrite assoc_assoc_set_other by done. auto.
Qed.

Lemma dict_loop_inv (ks : list string) :
  forall d h self d' h' self',
  Cfg.dict_loop ks d (h, self) = (Ok d', (h', self')) ->
  NoDup ks -> (forall key, key ∈ ks -> key ∉ map fst d) ->
  (forall key v, Cfg.assoc d key = Some v -> cached self key v) ->
  h' = h
  /\ Cfg.config_space self' = Cfg.config_space self
  /\ Cfg._vector self' = Cfg._vector self
  /\ map fst d'
     = map fst d ++ List.filter (active (Cfg.config_space self)
                                   (Cfg.array_at h (Cfg._vector self))) ks
  /\ (forall key v, Cfg.assoc d' key = Some v -> cached self' key v)
  /\ (forall key v, cached self key v -> cached self' key v).
Proof.
  induction ks as [|key ks IH]; intros d h self d' h' self' H Hnd Hfresh Hd.
  - simpl in H. unfold Cfg.ret in H. injection H as <- <- <-.
    simpl. rewrite app_nil_r. auto 10.
  - rewrite dict_loop_cons in H. apply NoDup_cons in Hnd as [Hk Hnd].
    cbn [List.filter]. unfold active at 1. unfold Cfg.cs_index_of in H.
    destruct (Cfg.index_of _ key) as [idx|]; [|discriminate].
    destruct (_ !! idx) as [x|]; [|discriminate].
    destruct (np_isnan x); simpl negb; cbv iota.
    + apply IH in H; auto. intros key' Hin. apply Hfresh. now right.
    + destruct (Cfg.__getitem__ key (h, self)) as [[v|] [h1 self1]] eqn:Eg;
        [|discriminate].
      apply getitem_state in Eg as (-> & Hcs & Hvec & Hc & Hper).
      apply IH in H as (-> & H2 & H3 & H4 & H5 & H6); auto.
      * rewrite H2, H3, Hcs, Hvec. rewrite Hcs, Hvec in H4.
        split; [done|]. split; [done|]. split; [done|]. split.
        -- rewrite H4, assoc_set_keys by (apply Hfresh; left).
           now rewrite <- app_assoc.
        -- split; [done|]. intros key' v' Hk'. apply H6, Hper, Hk'.
      * intros key' Hin. rewrite assoc_set_keys by (apply Hfresh; left).
        intros Hin'. apply elem_of_app in Hin' as [Hin'|Hin'].
        -- revert Hin'. apply Hfresh. now right.
        -- apply list_elem_of_singleton in Hin'. subst key'. done.
      * intros key' v' Ha. apply assoc_assoc_set in Ha as [[-> ->]|[Hn Ha]].
        -- done.
        -- apply Hper, Hd, Ha.
Qed.

(** X30: [dict(cfg)] leaves the store, the space and the vector as they
    are; its keys are the keys of the space whose slot holds a number, in
    the order of the space, and for each of them [cfg[key]] afterwards
    returns the value that the dictionary holds. *)
Theorem dict_holds_active_values (h h' : Cfg.heap) (self self' : Cfg.t)
    (d : list (string * pyval)) :
  Cfg.dict_of_self (h, self) = (Ok d, (h', self')) ->
  NoDup (Cfg.keys (Cfg.config_space self)) ->
  h' = h
  /\ Cfg.config_space self' = Cfg.config_space self
  /\ Cfg._vector self' = Cfg._vector self
  /\ map fst d
     = List.filter (active (Cfg.config_space self)
                      (Cfg.array_at h (Cfg._vector self)))
         (Cfg.keys (Cfg.config_space self))
  /\ (forall key v, Cfg.assoc d key = Some v ->
        Cfg.__getitem__ key (h', self') = (Ok v, (h', self'))).
Proof.
  unfold Cfg.dict_of_self. run_M. intros H Hnd.
  apply dict_loop_inv in H as (-> & H2 & H3 & H4 & H5 & _); auto.
  - split; [done|]. split; [done|]. split; [done|]. split; [done|].
    intros key v Ha. apply getitem_cached_hit. now apply H5.
  - intros key _ Hin. inversion Hin.
  - discriminate.
Qed.

Lemma dict_holds_active_values_witness :
  Cfg.dict_of_self ([[Fin 0]; [Fin 0]], config_int)
  = (Ok [("c", PyInt 1)], ([[Fin 0]; [Fin 0]], config_int))
  /\ NoDup (Cfg.keys (Cfg.config_space config_int))
  /\ map fst [("c", PyInt 1)]
     = List.filter (active (Cfg.config_space config_int)
                      (Cfg.array_at [[Fin 0]; [Fin 0]]
                         (Cfg._vector config_int)))
         (Cfg.keys (Cfg.config_space config_int))
  /\ Cfg.__getitem__ "c" ([[Fin 0]; [Fin 0]], config_int)
     = (Ok (PyInt 1), ([[Fin 0]; [Fin 0]], config_int)).
Proof.
  assert (H : Cfg.dict_of_self ([[Fin 0]; [Fin 0]], config_int)
              = (Ok [("c", PyInt 1)], ([[Fin 0]; [Fin 0]], config_int)))
    by exact dict_int.
  assert (Hnd : NoDup (Cfg.keys (Cfg.config_space config_int))).
  { apply NoDup_cons. split; [|apply NoDup_nil_2]. intros Hin. inversion Hin. }
  destruct (dict_holds_active_values _ _ _ _ _ H Hnd)
    as (_ & _ & _ & H4 & H5).
  split; [exact H|]. split; [exact Hnd|]. split; [exact H4|].
  exact (H5 "c" (PyInt 1) eq_refl).
Defined.

(** ** Examples of the further properties *)

Lemma zero_one_constructed :
  UF.__init__ "x" 0 1 None None false = Ok zero_one.
Proof.
  unfold UF.__init__.
  assert (Rleb 1 0 = false) as ->.
  { unfold Rleb. destruct (Rle_dec _ _); [lra|done]. }
  simpl andb. cbv iota. unfold check_default_uniformfloat.
  rewrite (np_round_exact _ 10 5000000000) by (simpl; lra).
  replace ((0 + 1) / 2) with 0.5 by lra.
  unfold is_legal_uniformfloat. simpl.
  rewrite !fleb_Fin_true by lra. reflexivity.
Qed.

Lemma three_sigma_converted :
  NormalFloat_to_uniform standard_normal 3 = Ok three_sigma.
Proof.
  unfold NormalFloat_to_uniform. cbn [standard_normal NF.default py_num
    NF.name NF.mu NF.sigma NF.q NF.log].
  rewrite np_round_0_Fin. cbn [py_int]. rewrite trunc_IZR.
  cbn [mbind result_bind Py.bind]. rewrite round_half_even_IZR.
  unfold UF.__init__.
  assert (Rleb (0 + 3 * 1) (0 - 3 * 1) = false) as ->.
  { unfold Rleb. destruct (Rle_dec _ _); [lra|done]. }
  simpl andb. cbv iota. unfold check_default_uniformfloat.
  rewrite np_round_IZR.
  unfold is_legal_uniformfloat. simpl.
  rewrite !fleb_Fin_true by lra. reflexivity.
Qed.

Lemma UniformFloat_sample_legal_witness :
  constructed (HUniformFloat zero_one)
  /\ UF.q zero_one = None /\ UF.log zero_one = false
  /\ - 10 ^ 300 <= UF.lower zero_one /\ UF.upper zero_one <= 10 ^ 300
  /\ uniform fixed_source 0 = Fin 0.5
  /\ 0 <= 0.5 < 1
  /\ exists y,
       UF.sample zero_one fixed_source 0 = (Ok (PyFloat (Fin y)), 1%nat)
       /\ UF.lower zero_one <= y <= UF.upper zero_one
       /\ legal (HUniformFloat zero_one) (PyFloat (Fin y)) = true.
Proof.
  assert (Hc : constructed (HUniformFloat zero_one))
    by (eapply constructed_UniformFloat, zero_one_constructed).
  assert (Hp : 1 <= 10 ^ 300) by (apply pow_R1_Rle; lra).
  assert (H1 : - 10 ^ 300 <= UF.lower zero_one) by (simpl UF.lower; lra).
  assert (H2 : UF.upper zero_one <= 10 ^ 300) by (simpl UF.upper; lra).
  assert (Hu : 0 <= 0.5 < 1) by lra.
  split; [exact Hc|]. split; [reflexivity|]. split; [reflexivity|].
  split; [exact H1|]. split; [exact H2|]. split; [reflexivity|].
  split; [exact Hu|].
  exact (UniformFloat_sample_legal zero_one fixed_source 0 0.5 Hc eq_refl
           eq_refl H1 H2 eq_refl Hu).
Defined.

Lemma UniformInteger_sample_legal_witness :
  constructed (HUniformInteger zero_to_ten)
  /\ (- 1000000 <= UI.lower zero_to_ten)%Z
  /\ (UI.upper zero_to_ten <= 1000000)%Z
  /\ uniform fixed_source 0 = Fin 0.5
  /\ 0 <= 0.5 <= 1
  /\ exists z,
       UI._transform zero_to_ten (Fin 0.5) = Ok (PyInt z)
       /\ UI.sample zero_to_ten fixed_source 0 = (Ok (PyInt z), 1%nat)
       /\ (UI.lower zero_to_ten <= z <= UI.upper zero_to_ten)%Z
       /\ legal (HUniformInteger zero_to_ten) (PyInt z) = true.
Proof.
  assert (Hc : constructed (HUniformInteger zero_to_ten))
    by (eapply constructed_UniformInteger, zero_to_ten_constructed).
  assert (H1 : (- 1000000 <= UI.lower zero_to_ten)%Z) by (simpl; lia).
  assert (H2 : (UI.upper zero_to_ten <= 1000000)%Z) by (simpl; lia).
  assert (Hu : 0 <= 0.5 <= 1) by lra.
  split; [exact Hc|]. split; [exact H1|]. split; [exact H2|].
  split; [reflexivity|]. split; [exact Hu|].
  exact (UniformInteger_sample_legal zero_to_ten fixed_source 0 0.5 Hc
           H1 H2 eq_refl Hu).
Defined.

Lemma sample_is_a_choice_witness :
  constructed (HCategorical abc)
  /\ (0 <= randint fixed_source 0 0 (Cat._num_choices abc)
      < Cat._num_choices abc)%Z
  /\ exists c,
       Cat.sample abc fixed_source 0 = (Ok c, 1%nat)
       /\ Cat.choices abc
          !! Z.to_nat (randint fixed_source 0 0 (Cat._num_choices abc))
          = Some c.
Proof.
  assert (Hc : constructed (HCategorical abc))
    by (eapply constructed_Categorical, abc_constructed).
  assert (Hr : (0 <= randint fixed_source 0 0 (Cat._num_choices abc)
                < Cat._num_choices abc)%Z) by (simpl; lia).
  split; [exact Hc|]. split; [exact Hr|].
  exact (proj1 (sample_is_a_choice fixed_source 0) abc Hc Hr).
Defined.

Lemma Categorical_vector_round_trip_witness :
  Cat.choices abc !! 1%nat = Some (PyStr "b")
  /\ py_eqb (PyStr "b") (PyStr "b") = true
  /\ PyStr "b" <> PyNone
  /\ Cat._transform abc (Fin (INR 1)) = Ok (PyStr "b")
  /\ exists j : nat,
       Cat._inverse_transform abc (PyStr "b") = Ok (PyInt (Z.of_nat j))
       /\ (j <= 1)%nat.
Proof.
  assert (Hn : PyStr "b" <> PyNone) by discriminate.
  destruct (Categorical_vector_round_trip abc 1 (PyStr "b") eq_refl eq_refl
              Hn) as (H1 & (j & H2 & H3 & _) & _).
  split; [reflexivity|]. split; [reflexivity|]. split; [exact Hn|].
  split; [exact H1|]. exists j. split; [exact H2|exact H3].
Defined.

Lemma Categorical_neighbors_count_witness :
  Builtins.int (PyInt 0) = Ok 0%Z
  /\ fltb PosInf (Fin (INR (length (Cat.choices abc)))) = false
  /\ exists l,
       Cat.get_neighbors abc (PyInt 0) fixed_source PosInf true 0 0
       = Done (l, 0%nat)
       /\ Z.of_nat (length l) = Cat.get_num_neighbors abc.
Proof.
  destruct (Categorical_neighbors_count abc (PyInt 0) 0 fixed_source PosInf
              true 0 0 eq_refl eq_refl) as (l & H1 & H2 & _).
  split; [reflexivity|]. split; [reflexivity|].
  exists l. split; [exact H1|]. apply H2. simpl. lia.
Defined.

Lemma UniformFloat_neighbors_witness :
  (0 <= 2)%Z
  /\ UF.get_neighbors zero_one (Fin 0.5) fixed_source 2 false 2 0
     = Done ([PyFloat (Fin 0.5); PyFloat (Fin 0.5)], 2%nat).
Proof.
  assert (Hn : (0 <= 2)%Z) by lia.
  assert (Hd : forall p, (0 <= p)%nat ->
             within_unit (normal fixed_source p (Fin 0.5) 0.2) = true).
  { intros p _. unfold within_unit. simpl. unfold Rltb.
    destruct (Rlt_dec 0.5 0); [lra|]. destruct (Rlt_dec 1 0.5); [lra|done]. }
  split; [exact Hn|].
  exact (proj1 (proj2 (UniformFloat_neighbors zero_one (Fin 0.5) fixed_source
                         2 0 Hn)) Hd 2%nat ltac:(simpl; lia)).
Defined.

Lemma stepping_decodes (z : Z) :
  in_int64 z = true ->
  NI._transform standard_normal_integer (Fin (IZR z)) = Ok (PyInt z).
Proof.
  intros Hz. unfold NI._transform. cbn [np_isnan].
  rewrite NormalFloat_transform_Fin by (simpl; discriminate).
  cbn [standard_normal_integer NI.nfhp NF.q NF.log snap mbind result_bind
       Py.bind].
  now rewrite astype_int_IZR.
Qed.

Lemma integer_neighbors_decode_apart_witness :
  (0 <= 2)%Z
  /\ NI.get_neighbors standard_normal_integer (Fin 0) stepping_source 2 false
       2 0
     = Done ([PyFloat (Fin (0 + 1)); PyFloat (Fin (0 + 1))], 2%nat)
  /\ Forall (accepted_draw standard_normal_integer (Fin 0) stepping_source
               false 0 2)
       [PyFloat (Fin (0 + 1)); PyFloat (Fin (0 + 1))].
Proof.
  assert (Hn : (0 <= 2)%Z) by lia.
  assert (Hd : forall p, (0 <= p)%nat ->
     exists a b,
       NI._transform standard_normal_integer (Fin 0) = Ok a
       /\ NI._transform standard_normal_integer
            (normal stepping_source p (Fin 0)
               (NI.sigma standard_normal_integer)) = Ok b
       /\ py_eqb a b = false).
  { intros p _. exists (PyInt 0), (PyInt 1).
    split; [now apply (stepping_decodes 0)|].
    split.
    - simpl normal. replace (0 + 1) with (IZR 1) by lra.
      now apply stepping_decodes.
    - now rewrite py_eqb_int_int. }
  pose proof (integer_neighbors_decode_apart standard_normal_integer (Fin 0)
                stepping_source 2 false 2 0 Hn) as (H1 & H2).
  pose proof (H2 Hd ltac:(simpl; lia)) as H3.
  split; [exact Hn|]. split; [exact H3|].
  exact (proj2 (proj2 (H1 _ _ H3))).
Defined.

Lemma UniformFloat_to_integer_needs_q_witness :
  constructed (HUniformFloat zero_one)
  /\ UF.q zero_one = None
  /\ UniformFloat_to_integer zero_one = Raise TypeError.
Proof.
  assert (Hc : constructed (HUniformFloat zero_one))
    by (eapply constructed_UniformFloat, zero_one_constructed).
  split; [exact Hc|]. split; [reflexivity|].
  exact (proj1 (UniformFloat_to_integer_needs_q zero_one Hc) eq_refl).
Defined.

Lemma NormalFloat_to_uniform_default_witness :
  py_num (NF.default standard_normal) = Some (Fin 0)
  /\ NormalFloat_to_uniform standard_normal 3 = Ok three_sigma
  /\ UF.default three_sigma = Fin (IZR (round_half_even 0)).
Proof.
  assert (Hx : py_num (NF.default standard_normal) = Some (Fin 0))
    by reflexivity.
  pose proof three_sigma_converted as Hu.
  destruct (proj1 (NormalFloat_to_uniform_default standard_normal 3 0 Hx)
              three_sigma Hu) as (_ & _ & Hd & _).
  split; [exact Hx|]. split; [exact Hu|]. exact Hd.
Defined.

Lemma ordinal_abc_constructed :
  Ord.__init__ "o" [PyStr "a"; PyStr "b"; PyStr "c"] None = Ok ordinal_abc.
Proof. reflexivity. Qed.

Lemma abc_distinct : pairwise_distinct [PyStr "a"; PyStr "b"; PyStr "c"].
Proof.
  intros [|[|[|i]]] [|[|[|j]]] x y Hx Hy Hn; simpl in Hx, Hy;
    try discriminate; try lia;
    injection Hx as <-; injection Hy as <-; reflexivity.
Qed.

Lemma abc_self_equal x :
  x ∈ [PyStr "a"; PyStr "b"; PyStr "c"] -> py_eqb x x = true.
Proof.
  intros H. repeat (apply elem_of_cons in H as [->|H]; [reflexivity|]).
  inversion H.
Qed.

Lemma Ordinal_orders_witness :
  Ord.__init__ "o" [PyStr "a"; PyStr "b"; PyStr "c"] None = Ok ordinal_abc
  /\ pairwise_distinct [PyStr "a"; PyStr "b"; PyStr "c"]
  /\ Ord.get_order ordinal_abc (PyStr "b") = Ok (Z.of_nat 1 + 1)%Z
  /\ Ord.get_value ordinal_abc (Z.of_nat 1 + 1) = Ok (PyStr "b")
  /\ Ord.check_order ordinal_abc (PyStr "b") (PyStr "c") = Ok (1 <? 2)%nat
  /\ Ord.get_order ordinal_abc (PyStr "d") = Raise KeyError.
Proof.
  destruct (Ordinal_orders "o" [PyStr "a"; PyStr "b"; PyStr "c"] None
              ordinal_abc ordinal_abc_constructed abc_distinct)
    as (H1 & H2 & H3).
  destruct (H1 1%nat (PyStr "b") eq_refl eq_refl) as [Ha Hb].
  split; [exact ordinal_abc_constructed|]. split; [exact abc_distinct|].
  split; [exact Ha|]. split; [exact Hb|]. split.
  - exact (H2 1%nat 2%nat (PyStr "b") (PyStr "c") eq_refl eq_refl eq_refl
             eq_refl).
  - exact (H3 (PyStr "d") eq_refl).
Defined.

Lemma Ordinal_neighbors_transformed_witness :
  Ord.__init__ "o" [PyStr "a"; PyStr "b"; PyStr "c"] None = Ok ordinal_abc
  /\ (2 < Z.of_nat (length [PyStr "a"; PyStr "b"; PyStr "c"]))%Z
  /\ Ord.get_neighbors ordinal_abc (PyStr "b") fixed_source 2 true
     = Ok [PyStr "a"; PyStr "c"].
Proof.
  assert (Hn : (2 < Z.of_nat (length [PyStr "a"; PyStr "b"; PyStr "c"]))%Z)
    by (simpl; lia).
  split; [exact ordinal_abc_constructed|]. split; [exact Hn|].
  exact (Ordinal_neighbors_transformed "o" [PyStr "a"; PyStr "b"; PyStr "c"]
           None ordinal_abc (PyStr "b") 1 fixed_source 2
           ordinal_abc_constructed abc_distinct abc_self_equal eq_refl Hn).
Defined.

Lemma Ordinal_neighbors_count_witness :
  Ord.__init__ "o" [PyStr "a"; PyStr "b"; PyStr "c"] None = Ok ordinal_abc
  /\ exists l n,
       Ord.get_neighbors ordinal_abc (PyStr "a") fixed_source 2 true = Ok l
       /\ Ord.get_num_neighbors ordinal_abc (PyStr "a") = Ok n
       /\ Z.of_nat (length l) = n.
Proof.
  destruct (Ordinal_neighbors_count "o" [PyStr "a"; PyStr "b"; PyStr "c"]
              None ordinal_abc (PyStr "a") 0 fixed_source 2
              ordinal_abc_constructed abc_distinct abc_self_equal eq_refl
              ltac:(simpl; lia)) as (l & n & H1 & H2 & H3 & _).
  split; [exact ordinal_abc_constructed|].
  exists l, n. split; [exact H1|]. split; [exact H2|].
  apply H3. simpl. lia.
Defined.

Lemma getitem_caches_witness :
  Cfg.__getitem__ "c" ([[Fin 0]; [Fin 1]], config_written)
  = (Ok (PyInt 2), ([[Fin 0]; [Fin 1]], config_read))
  /\ Cfg.__getitem__ "c" ([[Fin 0]; [Fin 1]], config_read)
     = (Ok (PyInt 2), ([[Fin 0]; [Fin 1]], config_read)).
Proof.
  assert (H : Cfg.__getitem__ "c" ([[Fin 0]; [Fin 1]], config_written)
              = (Ok (PyInt 2), ([[Fin 0]; [Fin 1]], config_read))).
  { rewrite getitem_uncached by reflexivity. unfold decoded.
    cbn -[CategoricalHyperparameter._transform].
    rewrite Categorical_transform_index. reflexivity. }
  split; [exact H|].
  exact (proj2 (proj2 (proj2 (proj2 (proj2
           (getitem_caches "c" _ _ _ _ _ H)))))).
Defined.

Lemma unconditional_writes_slot rf hs :
  forall cs a name x i a',
    Cfg.change_hp_value (unconditional rf hs) cs a name x i = Ok a' ->
    (i < length a)%nat -> a' !! i = Some x.
Proof.
  intros cs a name x i a' [= <-] Hi. now apply list_lookup_insert_eq.
Qed.

Lemma setitem_written :
  Cfg.__setitem__ (unconditional repr_float_stub length_hash) "c" (PyInt 2)
    ([[Fin 0]], config_int)
  = (Ok (), ([[Fin 0]; [Fin 1]], config_written)).
Proof. rewrite setitem_unfold. cbn. eval_py. reflexivity. Qed.

Lemma setitem_writes_a_copy_witness :
  Cfg.__setitem__ (unconditional repr_float_stub length_hash) "c" (PyInt 2)
    ([[Fin 0]], config_int)
  = (Ok (), ([[Fin 0]; [Fin 1]], config_written))
  /\ [[Fin 0]; [Fin 1]] !! 0%nat = [[Fin 0]] !! 0%nat
  /\ Cfg._vector config_written = length [[Fin 0]]
  /\ Cfg._values config_written = None.
Proof.
  destruct (setitem_writes_a_copy _ _ _ _ _ _ _ setitem_written)
    as (H1 & _ & H3 & H4 & _).
  split; [exact setitem_written|].
  split; [exact (H1 0%nat ltac:(simpl; lia))|].
  split; [exact H3|exact H4].
Defined.

Lemma setitem_then_getitem_witness :
  Cfg.__setitem__ (unconditional repr_float_stub length_hash) "c" (PyInt 2)
    ([[Fin 0]], config_int)
  = (Ok (), ([[Fin 0]; [Fin 1]], config_written))
  /\ exists param x,
       Cfg.cs_getitem (Cfg.config_space config_int) "c" = Ok param
       /\ Cfg.to_vector param (PyInt 2) ≫= vector_entry = Ok x
       /\ (Cfg.__getitem__ "c" ([[Fin 0]; [Fin 1]], config_written)).1
          = if np_isnan x then Raise KeyError else decoded param x.
Proof.
  assert (Hidx : forall idx,
            Cfg.cs_index_of (Cfg.config_space config_int) "c" = Ok idx ->
            (idx < length (Cfg.array_at [[Fin 0]]
                             (Cfg._vector config_int)))%nat).
  { intros idx [= <-]. simpl. lia. }
  split; [exact setitem_written|].
  exact (setitem_then_getitem _ _ _ _ _ _ _
           (unconditional_writes_slot repr_float_stub length_hash) Hidx
           setitem_written).
Defined.

Lemma iter_yields_active_keys_witness :
  Cfg.__iter__ ([[Fin 0]; [Fin 0]], config_int)
  = (Ok ["c"], ([[Fin 0]; [Fin 0]], config_int))
  /\ exists n,
       Cfg.__len__ ([[Fin 0]; [Fin 0]], config_int)
       = (Ok n, ([[Fin 0]; [Fin 0]], config_int))
       /\ (length ["c"] <= n)%nat.
Proof.
  assert (H : Cfg.__iter__ ([[Fin 0]; [Fin 0]], config_int)
              = (Ok ["c"], ([[Fin 0]; [Fin 0]], config_int)))
    by reflexivity.
  destruct (iter_yields_active_keys _ _ _ _ H) as (_ & _ & n & H1 & H2 & _).
  split; [exact H|]. exists n. split; [exact H1|exact H2].
Defined.

Lemma init_from_values_reads_back_witness :
  Cfg.__init__ (unconditional repr_float_stub length_hash) space_c
    (Some [("c", PyInt 1)]) None false None None []
  = (Ok config_int, [[Fin 0]])
  /\ NoDup (Cfg.keys space_c)
  /\ Cfg.legal_value (Cfg.of_Hyperparameter "c" (HCategorical one_two))
       (PyInt 1) = true
  /\ exists v',
       stored (Cfg.of_Hyperparameter "c" (HCategorical one_two)) (PyInt 1)
       = Ok v'
       /\ Cfg.__getitem__ "c" ([[Fin 0]], config_int)
          = (Ok v', ([[Fin 0]], config_int)).
Proof.
  pose proof (init_int repr_float_stub length_hash) as H.
  assert (Hnd : NoDup (Cfg.keys space_c)).
  { apply NoDup_cons. split; [|apply NoDup_nil_2]. intros Hin. inversion Hin. }
  destruct (init_from_values_reads_back _ _ _ _ _ _ _ _ _ H Hnd)
    as (_ & _ & _ & H4).
  destruct (H4 "c" (Cfg.of_Hyperparameter "c" (HCategorical one_two))
              (PyInt 1) ltac:(left) eq_refl) as (Hl & Hs).
  split; [exact H|]. split; [exact Hnd|]. split; [exact Hl|exact Hs].
Defined.
